(** * Lujay vehicle marketplace: the transaction engine and its financing calculator

    A shallow embedding of
      - internal/models/transaction.go   (requests, validation, status tables),
      - internal/models/vehicle.go       (the Vehicle document),
      - internal/service/transaction_service.go (Create / Update / Complete / Cancel),
      - internal/handlers/transaction_handler.go (the mapping to HTTP status codes),
    followed by the properties of the transaction workflow.

    Conventions.
      - A Go [float64] is a primitive binary64 float; Go's [int] is a [Z].
      - A [primitive.ObjectID] (12 bytes) is the number its bytes spell, an [N].
      - [time.Time] is a [Z]; a pointer to one is an [option].
      - A Go [error] is [option error] ([None] is [nil]); strings stay strings,
        the status and payment-method constants included.
      - The two MongoDB collections are finite maps from [_id] to document.
        Every driver call consumes one entry of a fault plan: [true] makes that
        call fail with a driver error, an exhausted plan means a healthy store. *)

From Stdlib Require Import ZArith NArith List Bool Lia.
From Stdlib Require Import Strings.String Strings.Ascii.
From Stdlib Require Import Floats.PrimFloat Floats.FloatOps Floats.SpecFloat Floats.FloatAxioms.
From stdpp Require Import gmap strings sorting.

Local Open Scope string_scope.
Local Open Scope Z_scope.

Abbreviation Time := Z (only parsing).

(** ** go.mongodb.org/mongo-driver/bson/primitive *)

Module primitive.

Abbreviation ObjectID := N (only parsing).

(** encoding/hex: the value of one hexadecimal digit, either case. *)
Definition fromHexChar (c : ascii) : option N :=
  let n := N_of_ascii c in
  if (48 <=? n)%N && (n <=? 57)%N then Some (n - 48)%N
  else if (97 <=? n)%N && (n <=? 102)%N then Some (n - 87)%N
  else if (65 <=? n)%N && (n <=? 70)%N then Some (n - 55)%N
  else None.

Fixpoint hexDecode (s : string) (acc : N) : option N :=
  match s with
  | EmptyString => Some acc
  | String c rest =>
      match fromHexChar c with
      | Some d => hexDecode rest (16 * acc + d)%N
      | None => None
      end
  end.

(** [ObjectIDFromHex]: exactly 24 hexadecimal digits, else [ErrInvalidHex]. *)
Definition ObjectIDFromHex (s : string) : option ObjectID :=
  if (String.length s =? 24)%nat then hexDecode s 0%N else None.

Definition IsValidObjectID (s : string) : bool :=
  match ObjectIDFromHex s with Some _ => true | None => false end.

End primitive.

(** ** Go's numeric conversions between [int] and [float64] *)

Module conv.

(** [float64(k)]: the binary64 nearest to the integer [k]. *)
Definition float64_of_int (k : Z) : float :=
  SF2Prim (binary_normalize prec emax k 0 false).

(** [int(f)]: truncation towards zero.  For NaN, the infinities and values
    outside [int64] the Go specification leaves the result to the
    implementation; amd64 yields the least [int64], which is what is written
    here. *)
Definition int_of_float64 (f : float) : Z :=
  match Prim2SF f with
  | S754_zero _ => 0
  | S754_finite s m e =>
      let v := if 0 <=? e then Z.pos m * 2 ^ e else Z.pos m / 2 ^ (- e) in
      let k := if s then - v else v in
      if (- 2 ^ 63 <=? k) && (k <? 2 ^ 63) then k else - 2 ^ 63
  | _ => - 2 ^ 63
  end.

End conv.

(** ** internal/models *)

Module models.

Definition TransactionStatusPending := "pending".
Definition TransactionStatusCompleted := "completed".
Definition TransactionStatusCancelled := "cancelled".
Definition TransactionStatusFailed := "failed".

Definition TransactionTypePurchase := "purchase".
Definition TransactionTypeSale := "sale".

Definition PaymentMethodCash := "cash".
Definition PaymentMethodBankTransfer := "bank_transfer".
Definition PaymentMethodCard := "card".
Definition PaymentMethodFinancing := "financing".

Definition VehicleStatusActive := "active".
Definition VehicleStatusSold := "sold".
Definition VehicleStatusArchived := "archived".

(** [errors.New msg], and what the MongoDB driver hands back. *)
Inductive error :=
| New (msg : string)
| ErrNoDocuments
| ErrDriver.

Module PaymentDetails.
Record t := mk {
  TransactionReference : string;
  PaidAt : option Time;
  DownPayment : float;
  FinancedAmount : float;
  MonthlyPayment : float;
  FinancingTerms : Z;
  InterestRate : float;
  BankName : string;
  AccountNumber : string;
  CardLast4 : string;
  CardBrand : string
}.

(** The zero value of the struct. *)
Definition zero : t :=
  mk EmptyString None 0%float 0%float 0%float 0 0%float
     EmptyString EmptyString EmptyString EmptyString.
End PaymentDetails.

Module Transaction.
Record t := mk {
  ID : primitive.ObjectID;
  VehicleID : primitive.ObjectID;
  SellerID : primitive.ObjectID;
  BuyerID : primitive.ObjectID;
  Type_ : string;
  Status : string;
  Amount : float;
  Currency : string;
  PaymentMethod : string;
  PaymentDetails : PaymentDetails.t;
  InspectionID : option primitive.ObjectID;
  Notes : string;
  CompletedAt : option Time;
  CancelledAt : option Time;
  CreatedAt : Time;
  UpdatedAt : Time
}.
End Transaction.

Module Location.
Record t := mk { City : string; State : string; Country : string }.
End Location.

Module VehicleImage.
Record t := mk { URL : string; PublicID : string; IsPrimary : bool }.
End VehicleImage.

Module Vehicle.
Record t := mk {
  ID : primitive.ObjectID;
  OwnerID : primitive.ObjectID;
  Make : string;
  Model : string;
  Year : Z;
  Price : float;
  Mileage : float;
  Status : string;
  Location : Location.t;
  Images : list VehicleImage.t;
  Meta : list (string * string);
  CreatedAt : Time;
  UpdatedAt : Time
}.
End Vehicle.

Module CreateTransactionRequest.
Record t := mk {
  VehicleID : string;
  BuyerID : string;
  Amount : float;
  Currency : string;
  PaymentMethod : string;
  InspectionID : string;
  Notes : string;
  PaymentDetails : PaymentDetails.t
}.
End CreateTransactionRequest.

Module UpdateTransactionRequest.
Record t := mk {
  Status : string;
  PaymentDetails : option PaymentDetails.t;
  Notes : string
}.
End UpdateTransactionRequest.

Module CompleteTransactionRequest.
Record t := mk {
  TransactionReference : string;
  Notes : string
}.
End CompleteTransactionRequest.

(** The three lookup tables; each Go loop returns at the first match. *)
Fixpoint member (s : string) (l : list string) : bool :=
  match l with
  | nil => false
  | x :: rest => if String.eqb s x then true else member s rest
  end.

Definition IsValidTransactionStatus (status : string) : bool :=
  member status
    [TransactionStatusPending; TransactionStatusCompleted;
     TransactionStatusCancelled; TransactionStatusFailed].

Definition IsValidTransactionType (txnType : string) : bool :=
  member txnType [TransactionTypePurchase; TransactionTypeSale].

Definition IsValidPaymentMethod (method : string) : bool :=
  member method
    [PaymentMethodCash; PaymentMethodBankTransfer;
     PaymentMethodCard; PaymentMethodFinancing].

(** [validatePaymentDetails]: the switch on the payment method. *)
Definition validatePaymentDetails (r : CreateTransactionRequest.t) : option error :=
  let pd := CreateTransactionRequest.PaymentDetails r in
  if String.eqb (CreateTransactionRequest.PaymentMethod r) PaymentMethodFinancing then
    if (PaymentDetails.DownPayment pd <=? 0)%float then
      Some (New "downPayment is required for financing")
    else if (CreateTransactionRequest.Amount r <=? PaymentDetails.DownPayment pd)%float then
      Some (New "downPayment must be less than total amount")
    else if PaymentDetails.FinancingTerms pd <=? 0 then
      Some (New "financingTerms is required for financing")
    else if (PaymentDetails.InterestRate pd <? 0)%float then
      Some (New "interestRate cannot be negative")
    else None
  else if String.eqb (CreateTransactionRequest.PaymentMethod r) PaymentMethodBankTransfer then
    if String.eqb (PaymentDetails.BankName pd) EmptyString then
      Some (New "bankName is required for bank transfer")
    else None
  else None.

(** [CreateTransactionRequest.Validate]. *)
Definition CreateTransactionRequest_Validate (r : CreateTransactionRequest.t) : option error :=
  if String.eqb (CreateTransactionRequest.VehicleID r) EmptyString then
    Some (New "vehicleId is required")
  else if negb (primitive.IsValidObjectID (CreateTransactionRequest.VehicleID r)) then
    Some (New "invalid vehicleId format")
  else if String.eqb (CreateTransactionRequest.BuyerID r) EmptyString then
    Some (New "buyerId is required")
  else if negb (primitive.IsValidObjectID (CreateTransactionRequest.BuyerID r)) then
    Some (New "invalid buyerId format")
  else if (CreateTransactionRequest.Amount r <=? 0)%float then
    Some (New "amount must be greater than 0")
  else if String.eqb (CreateTransactionRequest.Currency r) EmptyString then
    Some (New "currency is required")
  else if String.eqb (CreateTransactionRequest.PaymentMethod r) EmptyString then
    Some (New "paymentMethod is required")
  else if negb (IsValidPaymentMethod (CreateTransactionRequest.PaymentMethod r)) then
    Some (New "invalid paymentMethod value")
  else if negb (String.eqb (CreateTransactionRequest.InspectionID r) EmptyString)
          && negb (primitive.IsValidObjectID (CreateTransactionRequest.InspectionID r)) then
    Some (New "invalid inspectionId format")
  else validatePaymentDetails r.

(** [UpdateTransactionRequest.Validate]. *)
Definition UpdateTransactionRequest_Validate (r : UpdateTransactionRequest.t) : option error :=
  if negb (String.eqb (UpdateTransactionRequest.Status r) EmptyString)
     && negb (IsValidTransactionStatus (UpdateTransactionRequest.Status r)) then
    Some (New "invalid status value")
  else None.

(** [CompleteTransactionRequest.Validate]. *)
Definition CompleteTransactionRequest_Validate (r : CompleteTransactionRequest.t) : option error :=
  if String.eqb (CompleteTransactionRequest.TransactionReference r) EmptyString then
    Some (New "transactionReference is required")
  else None.

End models.

(** ** The MongoDB driver, as far as the service uses it *)

Module mongo.
Import models.

(** The database: the [transactions] and [vehicles] collections. *)
Record DB := mkDB {
  transactions : gmap N Transaction.t;
  vehicles : gmap N Vehicle.t
}.

(** The fault plan of one request: the outcome of each driver call it will
    issue, in order ([true]: the call fails).  [nil] is a healthy store. *)
Abbreviation Faults := (list bool) (only parsing).

Inductive result (A : Type) :=
| Ok (a : A)
| Err (e : error).
Arguments Ok {A} a.
Arguments Err {A} e.

(** Store-passing computations.  An error stops the computation and keeps
    every write issued before it: nothing here undoes a write. *)
Definition M (A : Type) : Type := Faults -> DB -> result A * DB * Faults.

Definition ret {A} (a : A) : M A := fun fl db => (Ok a, db, fl).

Definition fail {A} (e : error) : M A := fun fl db => (Err e, db, fl).

Definition bind {A B} (m : M A) (k : A -> M B) : M B :=
  fun fl db =>
    match m fl db with
    | (Ok a, db', fl') => k a fl' db'
    | (Err e, db', fl') => (Err e, db', fl')
    end.

(** One call into the driver: it fails when the plan says so. *)
Definition call : M unit :=
  fun fl db =>
    match fl with
    | true :: rest => (Err ErrDriver, db, rest)
    | false :: rest => (Ok tt, db, rest)
    | nil => (Ok tt, db, nil)
    end.

(** [collection.FindOne(ctx, {_id: id}).Decode(&doc)] on either collection. *)
Definition FindOneTransaction (id : N) : M Transaction.t :=
  bind call (fun _ => fun fl db =>
    match transactions db !! id with
    | Some t => (Ok t, db, fl)
    | None => (Err ErrNoDocuments, db, fl)
    end).

Definition FindOneVehicle (id : N) : M Vehicle.t :=
  bind call (fun _ => fun fl db =>
    match vehicles db !! id with
    | Some v => (Ok v, db, fl)
    | None => (Err ErrNoDocuments, db, fl)
    end).

(** [collection.InsertOne]: the document has no [_id] yet, the driver
    draws [newID] for it; a key already present is a duplicate-key error. *)
Definition InsertOne (newID : N) (doc : N -> Transaction.t) : M N :=
  bind call (fun _ => fun fl db =>
    match transactions db !! newID with
    | Some _ => (Err ErrDriver, db, fl)
    | None =>
        (Ok newID,
         mkDB (<[newID := doc newID]> (transactions db)) (vehicles db), fl)
    end).

(** [collection.FindOneAndUpdate(ctx, {_id: id}, {$set: ...},
    ReturnDocument: After).Decode(&doc)]. *)
Definition FindOneAndUpdate (id : N) (set : Transaction.t -> Transaction.t)
  : M Transaction.t :=
  bind call (fun _ => fun fl db =>
    match transactions db !! id with
    | Some t =>
        (Ok (set t), mkDB (<[id := set t]> (transactions db)) (vehicles db), fl)
    | None => (Err ErrNoDocuments, db, fl)
    end).

(** [vehicleCollection.UpdateOne(ctx, {_id: id}, {$set: ...})]: the number
    of matched documents is returned; no match is not an error. *)
Definition UpdateOne (id : N) (set : Vehicle.t -> Vehicle.t) : M N :=
  bind call (fun _ => fun fl db =>
    match vehicles db !! id with
    | Some v =>
        (Ok 1%N, mkDB (transactions db) (<[id := set v]> (vehicles db)), fl)
    | None => (Ok 0%N, db, fl)
    end).

(** [client.StartSession()]. *)
Definition StartSession : M unit := call.

(** [mongo.WithSession(ctx, session, fn)] runs [fn] under the session and
    returns its error.  The callback of [CompleteTransaction] never calls
    [StartTransaction], so its writes are plain writes: each one is applied
    when it is issued and stays applied whatever follows. *)
Definition WithSession {A} (fn : M A) : M A := fn.

(** The pattern [if err == mongo.ErrNoDocuments { return errors.New(msg) };
    return err] that follows each lookup. *)
Definition notFoundAs {A} (msg : string) (m : M A) : M A :=
  fun fl db =>
    match m fl db with
    | (Err ErrNoDocuments, db', fl') => (Err (New msg), db', fl')
    | other => other
    end.

(** [quiet n fl]: the first [n] driver calls under the plan [fl] succeed. *)
Fixpoint quiet (n : nat) (fl : Faults) : bool :=
  match n, fl with
  | O, _ => true
  | S _, nil => true
  | S n', b :: rest => negb b && quiet n' rest
  end.

(** [preserves I m]: whatever the outcome of [m], and whatever the fault
    plan, a database that satisfies [I] still does afterwards. *)
Definition preserves (I : DB -> Prop) {A} (m : M A) : Prop :=
  forall fl db, I db -> I (snd (fst (m fl db))).

(** What the caller of a request observes: the result and the database. *)
Definition run {A} (m : M A) (fl : Faults) (db : DB) : result A * DB :=
  let '(r, db', _) := m fl db in (r, db').

End mongo.

Notation "'do' x <- m ; k" := (mongo.bind m (fun x => k))
  (at level 10, x name, m at level 100, k at level 200).

(** ** internal/service/transaction_service.go *)

Module service.
Import models mongo.

(** The body of [pow]'s loop, [result *= x], run [k] times. *)
Fixpoint pow_loop (k : nat) (x result : float) : float :=
  match k with
  | O => result
  | S k' => pow_loop k' x (result * x)%float
  end.

(** [pow(x, n)]: [for i := 0; i < int(n); i++ { result *= x }]. *)
Definition pow (x n : float) : float :=
  pow_loop (Z.to_nat (conv.int_of_float64 n)) x 1%float.

(** [calculateFinancingDetails] writes two fields of [txn.PaymentDetails]. *)
Definition calculateFinancingDetails (txn : Transaction.t) : Transaction.t :=
  let pd := Transaction.PaymentDetails txn in
  let financedAmount := (Transaction.Amount txn - PaymentDetails.DownPayment pd)%float in
  let principal := financedAmount in
  let monthlyInterestRate := (PaymentDetails.InterestRate pd / 100 / 12)%float in
  let months := conv.float64_of_int (PaymentDetails.FinancingTerms pd) in
  let monthlyPayment :=
    if (0 <? monthlyInterestRate)%float then
      (principal * (monthlyInterestRate * pow (1 + monthlyInterestRate) months)
       / (pow (1 + monthlyInterestRate) months - 1))%float
    else (principal / months)%float in
  Transaction.mk
    (Transaction.ID txn) (Transaction.VehicleID txn) (Transaction.SellerID txn)
    (Transaction.BuyerID txn) (Transaction.Type_ txn) (Transaction.Status txn)
    (Transaction.Amount txn) (Transaction.Currency txn) (Transaction.PaymentMethod txn)
    (PaymentDetails.mk
       (PaymentDetails.TransactionReference pd) (PaymentDetails.PaidAt pd)
       (PaymentDetails.DownPayment pd) financedAmount monthlyPayment
       (PaymentDetails.FinancingTerms pd) (PaymentDetails.InterestRate pd)
       (PaymentDetails.BankName pd) (PaymentDetails.AccountNumber pd)
       (PaymentDetails.CardLast4 pd) (PaymentDetails.CardBrand pd))
    (Transaction.InspectionID txn) (Transaction.Notes txn)
    (Transaction.CompletedAt txn) (Transaction.CancelledAt txn)
    (Transaction.CreatedAt txn) (Transaction.UpdatedAt txn).

(** The document [CreateTransaction] builds before the insert. *)
Definition newTransaction (now : Time) (req : CreateTransactionRequest.t)
    (vehicleID sellerID buyerID : N) (inspectionID : option N) (id : N)
  : Transaction.t :=
  Transaction.mk id vehicleID sellerID buyerID
    TransactionTypeSale TransactionStatusPending
    (CreateTransactionRequest.Amount req) (CreateTransactionRequest.Currency req)
    (CreateTransactionRequest.PaymentMethod req)
    (CreateTransactionRequest.PaymentDetails req)
    inspectionID (CreateTransactionRequest.Notes req) None None now now.

(** [CreateTransaction].  [now] is the reading of [time.Now()], [newID] the
    identifier the driver assigns on insert. *)
Definition CreateTransaction (now : Time) (newID : N)
    (req : CreateTransactionRequest.t) (sellerID : N) : M Transaction.t :=
  match primitive.ObjectIDFromHex (CreateTransactionRequest.VehicleID req) with
  | None => fail (New "invalid vehicleId")
  | Some vehicleID =>
  match primitive.ObjectIDFromHex (CreateTransactionRequest.BuyerID req) with
  | None => fail (New "invalid buyerId")
  | Some buyerID =>
    do vehicle <- notFoundAs "vehicle not found" (FindOneVehicle vehicleID);
    if negb (Vehicle.OwnerID vehicle =? sellerID)%N then
      fail (New "you are not the owner of this vehicle")
    else if negb (String.eqb (Vehicle.Status vehicle) VehicleStatusActive) then
      fail (New "vehicle is not available for sale")
    else if (buyerID =? sellerID)%N then
      fail (New "cannot create transaction with yourself")
    else
      let insert (inspectionID : option N) : M Transaction.t :=
        let transaction := newTransaction now req vehicleID sellerID buyerID inspectionID in
        let transaction :=
          if String.eqb (CreateTransactionRequest.PaymentMethod req) PaymentMethodFinancing
          then fun id => calculateFinancingDetails (transaction id)
          else transaction in
        do insertedID <- InsertOne newID transaction;
        ret (transaction insertedID) in
      if negb (String.eqb (CreateTransactionRequest.InspectionID req) EmptyString) then
        match primitive.ObjectIDFromHex (CreateTransactionRequest.InspectionID req) with
        | None => fail (New "invalid inspectionId")
        | Some inspectionID => insert (Some inspectionID)
        end
      else insert None
  end end.

(** The [$set] document of [UpdateTransaction]. *)
Definition updateSet (now : Time) (req : UpdateTransactionRequest.t)
    (t : Transaction.t) : Transaction.t :=
  Transaction.mk
    (Transaction.ID t) (Transaction.VehicleID t) (Transaction.SellerID t)
    (Transaction.BuyerID t) (Transaction.Type_ t)
    (if negb (String.eqb (UpdateTransactionRequest.Status req) EmptyString)
     then UpdateTransactionRequest.Status req else Transaction.Status t)
    (Transaction.Amount t) (Transaction.Currency t) (Transaction.PaymentMethod t)
    (match UpdateTransactionRequest.PaymentDetails req with
     | Some pd => pd
     | None => Transaction.PaymentDetails t
     end)
    (Transaction.InspectionID t)
    (if negb (String.eqb (UpdateTransactionRequest.Notes req) EmptyString)
     then UpdateTransactionRequest.Notes req else Transaction.Notes t)
    (Transaction.CompletedAt t) (Transaction.CancelledAt t)
    (Transaction.CreatedAt t) now.

(** [UpdateTransaction]. *)
Definition UpdateTransaction (now : Time) (id : string)
    (req : UpdateTransactionRequest.t) (userID : N) : M Transaction.t :=
  match primitive.ObjectIDFromHex id with
  | None => fail (New "invalid transaction ID")
  | Some objectID =>
    do existingTxn <- notFoundAs "transaction not found" (FindOneTransaction objectID);
    if negb (Transaction.SellerID existingTxn =? userID)%N
       && negb (Transaction.BuyerID existingTxn =? userID)%N then
      fail (New "you are not authorized to update this transaction")
    else FindOneAndUpdate objectID (updateSet now req)
  end.

(** The [$set] document of [CompleteTransaction] on the transaction. *)
Definition completeSet (now : Time) (req : CompleteTransactionRequest.t)
    (t : Transaction.t) : Transaction.t :=
  let pd := Transaction.PaymentDetails t in
  Transaction.mk
    (Transaction.ID t) (Transaction.VehicleID t) (Transaction.SellerID t)
    (Transaction.BuyerID t) (Transaction.Type_ t)
    TransactionStatusCompleted
    (Transaction.Amount t) (Transaction.Currency t) (Transaction.PaymentMethod t)
    (PaymentDetails.mk
       (CompleteTransactionRequest.TransactionReference req) (Some now)
       (PaymentDetails.DownPayment pd) (PaymentDetails.FinancedAmount pd)
       (PaymentDetails.MonthlyPayment pd) (PaymentDetails.FinancingTerms pd)
       (PaymentDetails.InterestRate pd) (PaymentDetails.BankName pd)
       (PaymentDetails.AccountNumber pd) (PaymentDetails.CardLast4 pd)
       (PaymentDetails.CardBrand pd))
    (Transaction.InspectionID t)
    (if negb (String.eqb (CompleteTransactionRequest.Notes req) EmptyString)
     then CompleteTransactionRequest.Notes req else Transaction.Notes t)
    (Some now) (Transaction.CancelledAt t)
    (Transaction.CreatedAt t) now.

(** The [$set] document of [CompleteTransaction] on the vehicle. *)
Definition vehicleSet (now : Time) (buyerID : N) (v : Vehicle.t) : Vehicle.t :=
  Vehicle.mk
    (Vehicle.ID v) buyerID (Vehicle.Make v) (Vehicle.Model v) (Vehicle.Year v)
    (Vehicle.Price v) (Vehicle.Mileage v) VehicleStatusSold
    (Vehicle.Location v) (Vehicle.Images v) (Vehicle.Meta v)
    (Vehicle.CreatedAt v) now.

(** [CompleteTransaction]. *)
Definition CompleteTransaction (now : Time) (id : string)
    (req : CompleteTransactionRequest.t) (userID : N) : M Transaction.t :=
  match primitive.ObjectIDFromHex id with
  | None => fail (New "invalid transaction ID")
  | Some objectID =>
    do transaction <- notFoundAs "transaction not found" (FindOneTransaction objectID);
    if negb (Transaction.SellerID transaction =? userID)%N then
      fail (New "only the seller can complete this transaction")
    else if negb (String.eqb (Transaction.Status transaction) TransactionStatusPending) then
      fail (New "transaction is not pending")
    else
      do _s <- StartSession;
      WithSession (
        do transaction <- FindOneAndUpdate objectID (completeSet now req);
        do _n <- UpdateOne (Transaction.VehicleID transaction)
                   (vehicleSet now (Transaction.BuyerID transaction));
        ret transaction)
  end.

(** The [$set] document of [CancelTransaction]. *)
Definition cancelSet (now : Time) (notes : string) (t : Transaction.t)
  : Transaction.t :=
  Transaction.mk
    (Transaction.ID t) (Transaction.VehicleID t) (Transaction.SellerID t)
    (Transaction.BuyerID t) (Transaction.Type_ t)
    TransactionStatusCancelled
    (Transaction.Amount t) (Transaction.Currency t) (Transaction.PaymentMethod t)
    (Transaction.PaymentDetails t) (Transaction.InspectionID t)
    (if negb (String.eqb notes EmptyString) then notes else Transaction.Notes t)
    (Transaction.CompletedAt t) (Some now)
    (Transaction.CreatedAt t) now.

(** [CancelTransaction]. *)
Definition CancelTransaction (now : Time) (id : string) (notes : string)
    (userID : N) : M Transaction.t :=
  match primitive.ObjectIDFromHex id with
  | None => fail (New "invalid transaction ID")
  | Some objectID =>
    do transaction <- notFoundAs "transaction not found" (FindOneTransaction objectID);
    if negb (Transaction.SellerID transaction =? userID)%N
       && negb (Transaction.BuyerID transaction =? userID)%N then
      fail (New "you are not authorized to cancel this transaction")
    else if negb (String.eqb (Transaction.Status transaction) TransactionStatusPending) then
      fail (New "only pending transactions can be cancelled")
    else FindOneAndUpdate objectID (cancelSet now notes)
  end.

End service.

(** ** net/http status codes *)

Module http.
Definition StatusOK := 200.
Definition StatusCreated := 201.
Definition StatusBadRequest := 400.
Definition StatusUnauthorized := 401.
Definition StatusForbidden := 403.
Definition StatusNotFound := 404.
Definition StatusInternalServerError := 500.
End http.

(** ** internal/handlers/transaction_handler.go

    Each handler receives the request body already bound by gin and the user
    id the authentication middleware left in the context ([GetUserID]). *)

Module handlers.
Import models mongo.

(** [err.Error()].  The text of a driver error is whatever the driver
    says; all that matters below is that it is none of the service's own
    messages. *)
Definition Error (e : error) : string :=
  match e with
  | New msg => msg
  | ErrNoDocuments => "mongo: no documents in result"
  | ErrDriver => "server selection error"
  end.

(** The JSON body: the transaction, or [{error: err.Error()}]. *)
Inductive payload :=
| JSONTransaction (t : Transaction.t)
| JSONError (msg : string).

Record Response := mkResponse { code : Z; body : payload }.

Definition Handler : Type := Faults -> DB -> Response * DB.

Definition reject (status : Z) (msg : string) : Handler :=
  fun _ db => (mkResponse status (JSONError msg), db).

(** The common prologue: the caller's id must be present and well formed. *)
Definition withUser (userIDStr : string) (k : N -> Handler) : Handler :=
  if String.eqb userIDStr EmptyString then reject http.StatusUnauthorized "unauthorized"
  else match primitive.ObjectIDFromHex userIDStr with
       | None => reject http.StatusBadRequest "invalid user ID"
       | Some userID => k userID
       end.

(** The common epilogue: run the service call, then pick the status from
    the error text by the handler's chain of comparisons. *)
Definition serve (m : M Transaction.t) (success : Z) (status : string -> Z)
  : Handler :=
  fun fl db =>
    match run m fl db with
    | (Ok t, db') => (mkResponse success (JSONTransaction t), db')
    | (Err e, db') => (mkResponse (status (Error e)) (JSONError (Error e)), db')
    end.

Definition createStatus (msg : string) : Z :=
  if String.eqb msg "vehicle not found"
     || String.eqb msg "you are not the owner of this vehicle"
  then http.StatusForbidden
  else if String.eqb msg "vehicle is not available for sale"
          || String.eqb msg "cannot create transaction with yourself"
  then http.StatusBadRequest
  else http.StatusInternalServerError.

(** POST /transactions *)
Definition CreateTransaction (now : Time) (newID : N)
    (req : CreateTransactionRequest.t) (userIDStr : string) : Handler :=
  match CreateTransactionRequest_Validate req with
  | Some err => reject http.StatusBadRequest (Error err)
  | None =>
      withUser userIDStr (fun sellerID =>
        serve (service.CreateTransaction now newID req sellerID)
              http.StatusCreated createStatus)
  end.

Definition updateStatus (msg : string) : Z :=
  if String.eqb msg "transaction not found" then http.StatusNotFound
  else if String.eqb msg "you are not authorized to update this transaction"
  then http.StatusForbidden
  else http.StatusInternalServerError.

(** PUT /transactions/:id *)
Definition UpdateTransaction (now : Time) (id : string)
    (req : UpdateTransactionRequest.t) (userIDStr : string) : Handler :=
  match UpdateTransactionRequest_Validate req with
  | Some err => reject http.StatusBadRequest (Error err)
  | None =>
      withUser userIDStr (fun userID =>
        serve (service.UpdateTransaction now id req userID)
              http.StatusOK updateStatus)
  end.

Definition completeStatus (msg : string) : Z :=
  if String.eqb msg "transaction not found" then http.StatusNotFound
  else if String.eqb msg "only the seller can complete this transaction"
  then http.StatusForbidden
  else if String.eqb msg "transaction is not pending" then http.StatusBadRequest
  else http.StatusInternalServerError.

(** POST /transactions/:id/complete *)
Definition CompleteTransaction (now : Time) (id : string)
    (req : CompleteTransactionRequest.t) (userIDStr : string) : Handler :=
  match CompleteTransactionRequest_Validate req with
  | Some err => reject http.StatusBadRequest (Error err)
  | None =>
      withUser userIDStr (fun userID =>
        serve (service.CompleteTransaction now id req userID)
              http.StatusOK completeStatus)
  end.

Definition cancelStatus (msg : string) : Z :=
  if String.eqb msg "transaction not found" then http.StatusNotFound
  else if String.eqb msg "you are not authorized to cancel this transaction"
  then http.StatusForbidden
  else if String.eqb msg "only pending transactions can be cancelled"
  then http.StatusBadRequest
  else http.StatusInternalServerError.

(** POST /transactions/:id/cancel *)
Definition CancelTransaction (now : Time) (id : string) (notes : string)
    (userIDStr : string) : Handler :=
  withUser userIDStr (fun userID =>
    serve (service.CancelTransaction now id notes userID)
          http.StatusOK cancelStatus).

(** [preserves I h]: the handler keeps the invariant [I] of the database. *)
Definition preserves (I : DB -> Prop) (h : Handler) : Prop :=
  forall fl db, I db -> I (snd (h fl db)).

End handlers.

(** ** The amortizing-loan formula, as the design states it *)

Module spec.

(** [x] raised to the [n]: [n] successive binary64 multiplications by [x],
    starting from 1. *)
Definition power (x : float) (n : nat) : float :=
  Nat.iter n (fun acc => (acc * x)%float) 1%float.

(** payment = P * [r (1+r)^n] / [(1+r)^n - 1] *)
Definition amortized (P r : float) (n : nat) : float :=
  (P * (r * power (1 + r) n) / (power (1 + r) n - 1))%float.

(** Create's precondition checks in the order the design lists them, with
    the error kind it gives each: vehicle exists (not-found), caller owns it
    (forbidden), vehicle active, buyer is not the seller, payment details
    (bad-request, all three).  [None]: no check is violated. *)
Definition Create_checks_as_stated (db : mongo.DB)
    (req : models.CreateTransactionRequest.t) (vehicleID buyerID sellerID : N)
  : option Z :=
  match mongo.vehicles db !! vehicleID with
  | None => Some http.StatusNotFound
  | Some vehicle =>
      if negb (models.Vehicle.OwnerID vehicle =? sellerID)%N then
        Some http.StatusForbidden
      else if negb (String.eqb (models.Vehicle.Status vehicle) models.VehicleStatusActive)
      then Some http.StatusBadRequest
      else if (buyerID =? sellerID)%N then Some http.StatusBadRequest
      else match models.validatePaymentDetails req with
           | Some _ => Some http.StatusBadRequest
           | None => None
           end
  end.

(** The same checks in the order the code makes them: payment details
    first.  Each violated check has its error text and, where the design
    fixes one, its status; for an absent vehicle only the text is given and
    the status is left open. *)
Definition Create_checks (db : mongo.DB)
    (req : models.CreateTransactionRequest.t) (vehicleID buyerID sellerID : N)
  : option (option Z * string) :=
  match models.validatePaymentDetails req with
  | Some err => Some (Some http.StatusBadRequest, handlers.Error err)
  | None =>
      match mongo.vehicles db !! vehicleID with
      | None => Some (None, "vehicle not found")
      | Some vehicle =>
          if negb (models.Vehicle.OwnerID vehicle =? sellerID)%N then
            Some (Some http.StatusForbidden, "you are not the owner of this vehicle")
          else if negb (String.eqb (models.Vehicle.Status vehicle) models.VehicleStatusActive)
          then Some (Some http.StatusBadRequest, "vehicle is not available for sale")
          else if (buyerID =? sellerID)%N then
            Some (Some http.StatusBadRequest, "cannot create transaction with yourself")
          else None
      end
  end.

(** Every stored transaction has a status that satisfies [P]. *)
Definition all_status (P : string -> Prop) (db : mongo.DB) : Prop :=
  forall id t, mongo.transactions db !! id = Some t -> P (models.Transaction.Status t).


End spec.

(** ** Sequences of requests *)

Module workflow.
Import models mongo.

Inductive Call :=
| Create (now : Time) (newID : N) (req : CreateTransactionRequest.t)
    (userIDStr : string) (fl : Faults)
| Update (now : Time) (id : string) (req : UpdateTransactionRequest.t)
    (userIDStr : string) (fl : Faults)
| Complete (now : Time) (id : string) (req : CompleteTransactionRequest.t)
    (userIDStr : string) (fl : Faults)
| Cancel (now : Time) (id : string) (notes : string)
    (userIDStr : string) (fl : Faults).

Definition handle (c : Call) (db : DB) : handlers.Response * DB :=
  match c with
  | Create now newID req user fl => handlers.CreateTransaction now newID req user fl db
  | Update now id req user fl => handlers.UpdateTransaction now id req user fl db
  | Complete now id req user fl => handlers.CompleteTransaction now id req user fl db
  | Cancel now id notes user fl => handlers.CancelTransaction now id notes user fl db
  end.

(** The database after a sequence of requests. *)
Fixpoint exec (cs : list Call) (db : DB) : DB :=
  match cs with
  | nil => db
  | c :: rest => exec rest (snd (handle c db))
  end.

(** The status a request asks to write directly: only Update carries one. *)
Definition requested_status (c : Call) : string :=
  match c with
  | Update _ _ req _ _ => UpdateTransactionRequest.Status req
  | _ => EmptyString
  end.

End workflow.

(** ** Sample data: one seller, one buyer, one vehicle, one transaction *)

Module sample.
Import models mongo.

Definition seller : N := 1.
Definition buyer : N := 2.
Definition stranger : N := 3.
Definition sellerHex := "000000000000000000000001".
Definition buyerHex := "000000000000000000000002".
Definition strangerHex := "000000000000000000000003".
Definition vehicleHex := "000000000000000000000010".
Definition txnHex := "0000000000000000000000a1".
Definition vehicleID : N := 16.
Definition txnID : N := 161.

Definition corolla : Vehicle.t :=
  Vehicle.mk vehicleID seller "Toyota" "Corolla" 2020 25000%float 42000%float
    VehicleStatusActive (Location.mk "Lagos" "Lagos" "NG") nil nil 10 10.

(** A transaction as [CreateTransaction] stores it, in a given status. *)
Definition sale (status : string) : Transaction.t :=
  Transaction.mk txnID vehicleID seller buyer TransactionTypeSale status
    25000%float "USD" PaymentMethodCash PaymentDetails.zero None EmptyString
    None None 100 100.

Definition store (status : string) : DB :=
  mkDB {[ txnID := sale status ]} {[ vehicleID := corolla ]}.

(** The same transaction in a store that has lost the vehicle. *)
Definition storeWithoutVehicle : DB :=
  mkDB {[ txnID := sale TransactionStatusPending ]} ∅.

Definition proof_of_payment : CompleteTransactionRequest.t :=
  CompleteTransactionRequest.mk "TXN1" EmptyString.

Definition financing (downPayment : float) (terms : Z) (rate : float)
  : PaymentDetails.t :=
  PaymentDetails.mk EmptyString None downPayment 0%float 0%float terms rate
    EmptyString EmptyString EmptyString EmptyString.

(** amount 30000, down payment 10000, 60 months at 3.5 percent. *)
Definition financed_sale : Transaction.t :=
  Transaction.mk 0%N vehicleID seller buyer TransactionTypeSale
    TransactionStatusPending 30000%float "USD" PaymentMethodFinancing
    (financing 10000%float 60 3.5%float) None EmptyString
    None None 100 100.

(** amount 12000, no down payment, 12 months at rate 0. *)
Definition interest_free_sale : Transaction.t :=
  Transaction.mk 0%N vehicleID seller buyer TransactionTypeSale
    TransactionStatusPending 12000%float "USD" PaymentMethodFinancing
    (financing 0%float 12 0%float) None EmptyString
    None None 100 100.

(** A financing request with no down payment, for a vehicle nobody listed. *)
Definition bad_financing_request : CreateTransactionRequest.t :=
  CreateTransactionRequest.mk "0000000000000000000000ff" buyerHex 30000%float
    "USD" PaymentMethodFinancing EmptyString EmptyString
    (financing 0%float 60 3.5%float).

Definition cash_request : CreateTransactionRequest.t :=
  CreateTransactionRequest.mk vehicleHex buyerHex 25000%float
    "USD" PaymentMethodCash EmptyString EmptyString PaymentDetails.zero.

Definition mark_failed : UpdateTransactionRequest.t :=
  UpdateTransactionRequest.mk TransactionStatusFailed None EmptyString.

Definition mark_completed : UpdateTransactionRequest.t :=
  UpdateTransactionRequest.mk TransactionStatusCompleted None EmptyString.

(** The store before any sale, and after the seller has created and then
    completed the cash sale. *)
Definition showroom : DB := mkDB ∅ {[ vehicleID := corolla ]}.

Definition after_sale : DB :=
  workflow.exec
    [workflow.Create 100 txnID cash_request sellerHex nil;
     workflow.Complete 200 txnHex proof_of_payment sellerHex nil]
    showroom.

End sample.

(** ** Go's [int] arithmetic: 64 bits, wrapping, truncated division *)

Module goint.

Definition wrap (z : Z) : Z := (z + 2 ^ 63) mod 2 ^ 64 - 2 ^ 63.

Definition add (a b : Z) : Z := wrap (a + b).
Definition sub (a b : Z) : Z := wrap (a - b).
Definition mul (a b : Z) : Z := wrap (a * b).

(** [a / b]: the quotient truncated towards zero; [None] is the run-time
    panic on a zero divisor. *)
Definition div (a b : Z) : option Z :=
  if b =? 0 then None else Some (wrap (Z.quot a b)).

(** [a % b], with the sign of [a]. *)
Definition rem (a b : Z) : option Z :=
  if b =? 0 then None else Some (Z.rem a b).

End goint.

(** ** The MongoDB driver: queries over the transactions collection *)

Module cursor.
Import models mongo.

(** The sort key [{createdAt: -1}]: newest first. *)
Definition newer (a b : Transaction.t) : Prop :=
  Transaction.CreatedAt b <= Transaction.CreatedAt a.

#[global] Instance newer_dec : RelDecision newer.
Proof. intros a b. unfold newer. apply Z_le_dec. Defined.

#[global] Instance newer_total : Total newer.
Proof. intros a b. unfold newer. lia. Qed.

#[global] Instance newer_transitive : Transitive newer.
Proof. intros a b c. unfold newer. lia. Qed.

(** The documents of the collection, in the store's own order. *)
Definition documents (db : DB) : list Transaction.t :=
  snd <$> map_to_list (transactions db).

(** The documents a filter selects, sorted newest first.  The server leaves
    the order among equal keys open; here it is the merge sort's. *)
Definition matching (filter : Transaction.t -> bool) (db : DB) : list Transaction.t :=
  merge_sort newer (List.filter filter (documents db)).

Definition get : M DB := fun fl db => (Ok db, db, fl).

(** [collection.Find(ctx, filter, sort)] then [cursor.All]: two calls. *)
Definition Find (filter : Transaction.t -> bool) : M (list Transaction.t) :=
  do _c <- call;
  do _a <- call;
  do db <- get;
  ret (matching filter db).

(** The same with [SetSkip] and [SetLimit]; the server refuses a negative
    skip.  The limit is positive wherever the service sets one. *)
Definition FindPage (filter : Transaction.t -> bool) (skip limit : Z)
  : M (list Transaction.t) :=
  do _c <- call;
  if skip <? 0 then fail ErrDriver
  else
    do _a <- call;
    do db <- get;
    ret (take (Z.to_nat limit) (drop (Z.to_nat skip) (matching filter db))).

(** [collection.CountDocuments(ctx, filter)]. *)
Definition CountDocuments (filter : Transaction.t -> bool) : M Z :=
  do _c <- call;
  do db <- get;
  ret (Z.of_nat (length (List.filter filter (documents db)))).

End cursor.

(** ** internal/service/transaction_service.go: the queries *)

Module queries.
Import models mongo.

(** [GetTransactionByID]. *)
Definition GetTransactionByID (id : string) : M Transaction.t :=
  match primitive.ObjectIDFromHex id with
  | None => fail (New "invalid transaction ID")
  | Some objectID => notFoundAs "transaction not found" (FindOneTransaction objectID)
  end.

(** The filter [{$or: [{sellerId: userID}, {buyerId: userID}]}]. *)
Definition involves (userID : N) (t : Transaction.t) : bool :=
  (Transaction.SellerID t =? userID)%N || (Transaction.BuyerID t =? userID)%N.

(** [GetTransactionsByUser]. *)
Definition GetTransactionsByUser (userID : N) : M (list Transaction.t) :=
  cursor.Find (involves userID).

(** The filter [{vehicleId: objectID}]. *)
Definition concerns (vehicleID : N) (t : Transaction.t) : bool :=
  (Transaction.VehicleID t =? vehicleID)%N.

(** [GetTransactionsByVehicle]. *)
Definition GetTransactionsByVehicle (vehicleID : string) : M (list Transaction.t) :=
  match primitive.ObjectIDFromHex vehicleID with
  | None => fail (New "invalid vehicleId")
  | Some objectID => cursor.Find (concerns objectID)
  end.

(** The filter of [ListTransactions]: every document, or one status. *)
Definition withStatus (status : string) (t : Transaction.t) : bool :=
  if String.eqb status EmptyString then true
  else String.eqb (Transaction.Status t) status.

Definition effectivePage (page : Z) : Z := if page <? 1 then 1 else page.

Definition effectiveLimit (limit : Z) : Z :=
  if (limit <? 1) || (100 <? limit) then 10 else limit.

(** [ListTransactions]: the page of transactions and the total count. *)
Definition ListTransactions (status : string) (page limit : Z)
  : M (list Transaction.t * Z) :=
  let page := effectivePage page in
  let limit := effectiveLimit limit in
  let filter := withStatus status in
  do totalCount <- cursor.CountDocuments filter;
  let skip := goint.mul (goint.sub page 1) limit in
  do transactions <- cursor.FindPage filter skip limit;
  ret (transactions, totalCount).

End queries.

(** ** internal/handlers/transaction_handler.go: the read handlers *)

Module views.
Import models mongo.

Inductive body :=
| Listed (transactions : list Transaction.t) (count : Z)
| Paged (transactions : list Transaction.t) (totalCount page limit totalPages : Z)
| Failed (msg : string).

(** What the handler does with the request: it answers, or it panics. *)
Inductive reply :=
| Answer (code : Z) (b : body)
| Panic.

Definition getStatus (msg : string) : Z :=
  if String.eqb msg "transaction not found" then http.StatusNotFound
  else http.StatusInternalServerError.

(** GET /transactions/:id *)
Definition GetTransaction (id : string) : handlers.Handler :=
  handlers.serve (queries.GetTransactionByID id) http.StatusOK getStatus.

(** GET /transactions/my *)
Definition GetMyTransactions (userIDStr : string) (fl : Faults) (db : DB)
  : reply * DB :=
  if String.eqb userIDStr EmptyString then
    (Answer http.StatusUnauthorized (Failed "unauthorized"), db)
  else
    match primitive.ObjectIDFromHex userIDStr with
    | None => (Answer http.StatusBadRequest (Failed "invalid user ID"), db)
    | Some userID =>
        match run (queries.GetTransactionsByUser userID) fl db with
        | (Err e, db') =>
            (Answer http.StatusInternalServerError (Failed (handlers.Error e)), db')
        | (Ok transactions, db') =>
            (Answer http.StatusOK
               (Listed transactions (Z.of_nat (length transactions))), db')
        end
    end.

(** GET /vehicles/:id/transactions *)
Definition GetTransactionsByVehicle (vehicleID : string) (fl : Faults) (db : DB)
  : reply * DB :=
  match run (queries.GetTransactionsByVehicle vehicleID) fl db with
  | (Err e, db') =>
      (Answer http.StatusInternalServerError (Failed (handlers.Error e)), db')
  | (Ok transactions, db') =>
      (Answer http.StatusOK
         (Listed transactions (Z.of_nat (length transactions))), db')
  end.

(** GET /transactions.  [page] and [limit] are the integers [strconv.Atoi]
    returned for the query parameters (0 for text that is no number). *)
Definition ListTransactions (status : string) (page limit : Z) (fl : Faults)
    (db : DB) : reply * DB :=
  match run (queries.ListTransactions status page limit) fl db with
  | (Err e, db') =>
      (Answer http.StatusInternalServerError (Failed (handlers.Error e)), db')
  | (Ok (transactions, totalCount), db') =>
      match goint.div (goint.sub (goint.add totalCount limit) 1) limit with
      | None => (Panic, db')
      | Some totalPages =>
          (Answer http.StatusOK
             (Paged transactions totalCount page limit totalPages), db')
      end
  end.

End views.

(** ** internal/models/vehicle.go: the update request *)

Module vehicle_models.
Import models.

Module UpdateVehicleRequest.
Record t := mk {
  Make : string;
  Model : string;
  Year : Z;
  Price : float;
  Mileage : float;
  Status : string;
  Location : option Location.t;
  Images : option (list VehicleImage.t);
  Meta : option (list (string * string))
}.
End UpdateVehicleRequest.

(** [IsValidVehicleStatus]. *)
Definition IsValidVehicleStatus (status : string) : bool :=
  String.eqb status VehicleStatusActive
  || String.eqb status VehicleStatusSold
  || String.eqb status VehicleStatusArchived.

(** [Location.Validate]. *)
Definition Location_Validate (loc : Location.t) : option error :=
  if String.eqb (Location.City loc) EmptyString then
    Some (New "location city is required")
  else if String.eqb (Location.State loc) EmptyString then
    Some (New "location state is required")
  else if String.eqb (Location.Country loc) EmptyString then
    Some (New "location country is required")
  else None.

(** [UpdateVehicleRequest.Validate]. *)
Definition UpdateVehicleRequest_Validate (req : UpdateVehicleRequest.t)
  : option error :=
  if negb (UpdateVehicleRequest.Year req =? 0)
     && ((UpdateVehicleRequest.Year req <? 1900)
         || (2100 <? UpdateVehicleRequest.Year req)) then
    Some (New "year must be between 1900 and 2100")
  else if (UpdateVehicleRequest.Price req <? 0)%float then
    Some (New "price must be non-negative")
  else if (UpdateVehicleRequest.Mileage req <? 0)%float then
    Some (New "mileage must be non-negative")
  else if negb (String.eqb (UpdateVehicleRequest.Status req) EmptyString)
          && negb (IsValidVehicleStatus (UpdateVehicleRequest.Status req)) then
    Some (New "invalid vehicle status")
  else
    match UpdateVehicleRequest.Location req with
    | Some loc => Location_Validate loc
    | None => None
    end.

End vehicle_models.

(** ** internal/service/vehicle_service.go *)

Module vehicle_service.
Import models mongo vehicle_models.

(** [collection.FindOne(ctx, {_id: id, ownerId: owner}).Decode(&doc)]. *)
Definition FindOneOwned (id owner : N) : M Vehicle.t :=
  bind call (fun _ => fun fl db =>
    match vehicles db !! id with
    | Some v =>
        if (Vehicle.OwnerID v =? owner)%N then (Ok v, db, fl)
        else (Err ErrNoDocuments, db, fl)
    | None => (Err ErrNoDocuments, db, fl)
    end).

(** [collection.UpdateOne(ctx, {_id: id, ownerId: owner}, {$set: ...})]:
    the number of matched documents. *)
Definition UpdateOneOwned (id owner : N) (set : Vehicle.t -> Vehicle.t) : M N :=
  bind call (fun _ => fun fl db =>
    match vehicles db !! id with
    | Some v =>
        if (Vehicle.OwnerID v =? owner)%N then
          (Ok 1%N, mkDB (transactions db) (<[id := set v]> (vehicles db)), fl)
        else (Ok 0%N, db, fl)
    | None => (Ok 0%N, db, fl)
    end).

(** [if err != nil { return nil, errors.New(msg) }]. *)
Definition errorAs {A} (msg : string) (m : M A) : M A :=
  fun fl db =>
    match m fl db with
    | (Err _, db', fl') => (Err (New msg), db', fl')
    | other => other
    end.

(** [GetVehicleByID]. *)
Definition GetVehicleByID (vehicleID : string) : M Vehicle.t :=
  match primitive.ObjectIDFromHex vehicleID with
  | None => fail (New "invalid vehicle ID")
  | Some objectID => notFoundAs "vehicle not found" (FindOneVehicle objectID)
  end.

(** The [$set] document [UpdateVehicle] builds from the request. *)
Definition updateSet (now : Time) (req : UpdateVehicleRequest.t) (v : Vehicle.t)
  : Vehicle.t :=
  Vehicle.mk
    (Vehicle.ID v) (Vehicle.OwnerID v)
    (if negb (String.eqb (UpdateVehicleRequest.Make req) EmptyString)
     then UpdateVehicleRequest.Make req else Vehicle.Make v)
    (if negb (String.eqb (UpdateVehicleRequest.Model req) EmptyString)
     then UpdateVehicleRequest.Model req else Vehicle.Model v)
    (if negb (UpdateVehicleRequest.Year req =? 0)
     then UpdateVehicleRequest.Year req else Vehicle.Year v)
    (if (0 <=? UpdateVehicleRequest.Price req)%float
     then UpdateVehicleRequest.Price req else Vehicle.Price v)
    (if (0 <=? UpdateVehicleRequest.Mileage req)%float
     then UpdateVehicleRequest.Mileage req else Vehicle.Mileage v)
    (if negb (String.eqb (UpdateVehicleRequest.Status req) EmptyString)
     then UpdateVehicleRequest.Status req else Vehicle.Status v)
    (match UpdateVehicleRequest.Location req with
     | Some loc => loc
     | None => Vehicle.Location v
     end)
    (match UpdateVehicleRequest.Images req with
     | Some images => images
     | None => Vehicle.Images v
     end)
    (match UpdateVehicleRequest.Meta req with
     | Some meta => meta
     | None => Vehicle.Meta v
     end)
    (Vehicle.CreatedAt v) now.

(** [UpdateVehicle]. *)
Definition UpdateVehicle (now : Time) (vehicleID ownerID : string)
    (req : UpdateVehicleRequest.t) : M Vehicle.t :=
  match UpdateVehicleRequest_Validate req with
  | Some e => fail e
  | None =>
  match primitive.ObjectIDFromHex vehicleID with
  | None => fail (New "invalid vehicle ID")
  | Some vehicleObjectID =>
  match primitive.ObjectIDFromHex ownerID with
  | None => fail (New "invalid owner ID")
  | Some ownerObjectID =>
    do _existingVehicle <-
      notFoundAs "vehicle not found or unauthorized"
        (FindOneOwned vehicleObjectID ownerObjectID);
    do _result <-
      errorAs "failed to update vehicle"
        (UpdateOne vehicleObjectID (updateSet now req));
    GetVehicleByID vehicleID
  end end end.

(** The [$set] document of [DeleteVehicle]. *)
Definition archiveSet (now : Time) (v : Vehicle.t) : Vehicle.t :=
  Vehicle.mk
    (Vehicle.ID v) (Vehicle.OwnerID v) (Vehicle.Make v) (Vehicle.Model v)
    (Vehicle.Year v) (Vehicle.Price v) (Vehicle.Mileage v) VehicleStatusArchived
    (Vehicle.Location v) (Vehicle.Images v) (Vehicle.Meta v)
    (Vehicle.CreatedAt v) now.

(** [DeleteVehicle]; [Ok tt] is the nil error. *)
Definition DeleteVehicle (now : Time) (vehicleID ownerID : string) : M unit :=
  match primitive.ObjectIDFromHex vehicleID with
  | None => fail (New "invalid vehicle ID")
  | Some vehicleObjectID =>
  match primitive.ObjectIDFromHex ownerID with
  | None => fail (New "invalid owner ID")
  | Some ownerObjectID =>
    do matchedCount <- UpdateOneOwned vehicleObjectID ownerObjectID (archiveSet now);
    if (matchedCount =? 0)%N then fail (New "vehicle not found or unauthorized")
    else ret tt
  end end.

End vehicle_service.

(** ** internal/models/vehicle.go and vehicle_service.go: creating a vehicle *)

Module vehicle_create.
Import models mongo vehicle_models.

Module CreateVehicleRequest.
Record t := mk {
  Make : string;
  Model : string;
  Year : Z;
  Price : float;
  Mileage : float;
  Location : Location.t;
  Images : option (list VehicleImage.t);
  Meta : list (string * string)
}.
End CreateVehicleRequest.

(** [CreateVehicleRequest.Validate]. *)
Definition CreateVehicleRequest_Validate (req : CreateVehicleRequest.t)
  : option error :=
  if String.eqb (CreateVehicleRequest.Make req) EmptyString then
    Some (New "make is required")
  else if String.eqb (CreateVehicleRequest.Model req) EmptyString then
    Some (New "model is required")
  else if (CreateVehicleRequest.Year req <? 1900)
          || (2100 <? CreateVehicleRequest.Year req) then
    Some (New "year must be between 1900 and 2100")
  else if (CreateVehicleRequest.Price req <? 0)%float then
    Some (New "price must be non-negative")
  else if (CreateVehicleRequest.Mileage req <? 0)%float then
    Some (New "mileage must be non-negative")
  else Location_Validate (CreateVehicleRequest.Location req).

(** [collection.InsertOne(ctx, vehicle)]: the document carries its [_id]; a
    key already present is a duplicate-key error. *)
Definition InsertOne (doc : Vehicle.t) : M unit :=
  bind call (fun _ => fun fl db =>
    match vehicles db !! Vehicle.ID doc with
    | Some _ => (Err ErrDriver, db, fl)
    | None =>
        (Ok tt, mkDB (transactions db) (<[Vehicle.ID doc := doc]> (vehicles db)), fl)
    end).

(** [CreateVehicle].  [newID] is the value of [primitive.NewObjectID()],
    [now] the reading of [time.Now()]. *)
Definition CreateVehicle (now : Time) (newID : N) (ownerID : string)
    (req : CreateVehicleRequest.t) : M Vehicle.t :=
  match CreateVehicleRequest_Validate req with
  | Some e => fail e
  | None =>
  match primitive.ObjectIDFromHex ownerID with
  | None => fail (New "invalid owner ID")
  | Some ownerObjectID =>
    let vehicle :=
      Vehicle.mk newID ownerObjectID
        (CreateVehicleRequest.Make req) (CreateVehicleRequest.Model req)
        (CreateVehicleRequest.Year req) (CreateVehicleRequest.Price req)
        (CreateVehicleRequest.Mileage req) VehicleStatusActive
        (CreateVehicleRequest.Location req)
        (match CreateVehicleRequest.Images req with
         | Some images => images
         | None => nil
         end)
        (CreateVehicleRequest.Meta req) now now in
    do _result <- vehicle_service.errorAs "failed to create vehicle" (InsertOne vehicle);
    ret vehicle
  end end.

End vehicle_create.

(** ** The vehicle handlers [GetVehicle] and [UpdateVehicle] *)

Module vehicle_handlers.
Import models mongo vehicle_models.

(** The JSON body: [{error}], [{vehicle}] or [{message, vehicle}]. *)
Inductive body :=
| JSONError (msg : string)
| JSONVehicle (v : Vehicle.t)
| JSONUpdated (message : string) (v : Vehicle.t).

Record Response := mkResponse { code : Z; payload : body }.

(** [GetVehicle]. *)
Definition GetVehicle (vehicleID : string) (fl : Faults) (db : DB)
  : Response * DB :=
  if String.eqb vehicleID EmptyString then
    (mkResponse http.StatusBadRequest (JSONError "Vehicle ID is required"), db)
  else
    match run (vehicle_service.GetVehicleByID vehicleID) fl db with
    | (Err e, db') =>
        if String.eqb (handlers.Error e) "vehicle not found"
           || String.eqb (handlers.Error e) "invalid vehicle ID"
        then (mkResponse http.StatusNotFound (JSONError "Vehicle not found"), db')
        else (mkResponse http.StatusInternalServerError
                (JSONError "Failed to retrieve vehicle"), db')
    | (Ok vehicle, db') => (mkResponse http.StatusOK (JSONVehicle vehicle), db')
    end.

(** [UpdateVehicle]. *)
Definition UpdateVehicle (now : Time) (userID vehicleID : string)
    (req : UpdateVehicleRequest.t) (fl : Faults) (db : DB) : Response * DB :=
  if String.eqb userID EmptyString then
    (mkResponse http.StatusUnauthorized (JSONError "User not authenticated"), db)
  else if String.eqb vehicleID EmptyString then
    (mkResponse http.StatusBadRequest (JSONError "Vehicle ID is required"), db)
  else
    match UpdateVehicleRequest_Validate req with
    | Some err => (mkResponse http.StatusBadRequest (JSONError (handlers.Error err)), db)
    | None =>
        match run (vehicle_service.UpdateVehicle now vehicleID userID req) fl db with
        | (Err e, db') =>
            if String.eqb (handlers.Error e) "vehicle not found or unauthorized"
            then (mkResponse http.StatusNotFound (JSONError (handlers.Error e)), db')
            else (mkResponse http.StatusInternalServerError
                    (JSONError "Failed to update vehicle"), db')
        | (Ok vehicle, db') =>
            (mkResponse http.StatusOK
               (JSONUpdated "Vehicle updated successfully" vehicle), db')
        end
    end.

End vehicle_handlers.

(** ** Go's conversion of an integer to a string: [string(rune(i))] *)

Module utf8.

Definition byte (z : Z) : ascii := ascii_of_N (Z.to_N z).

(** U+FFFD, the replacement character. *)
Definition RuneError : string :=
  String (byte 239) (String (byte 191) (String (byte 189) EmptyString)).

(** [rune(i)]: the conversion of an [int] to [int32]. *)
Definition rune (i : Z) : Z := (i + 2 ^ 31) mod 2 ^ 32 - 2 ^ 31.

(** [string(r)]: the UTF-8 encoding of the code point [r]; the replacement
    character for a surrogate and for a value that is no code point. *)
Definition encode (r : Z) : string :=
  if r <? 0 then RuneError
  else if r <? 128 then String (byte r) EmptyString
  else if r <? 2048 then
    String (byte (Z.lor 192 (Z.shiftr r 6)))
      (String (byte (Z.lor 128 (Z.land r 63))) EmptyString)
  else if (55296 <=? r) && (r <=? 57343) then RuneError
  else if r <? 65536 then
    String (byte (Z.lor 224 (Z.shiftr r 12)))
      (String (byte (Z.lor 128 (Z.land (Z.shiftr r 6) 63)))
         (String (byte (Z.lor 128 (Z.land r 63))) EmptyString))
  else if r <=? 1114111 then
    String (byte (Z.lor 240 (Z.shiftr r 18)))
      (String (byte (Z.lor 128 (Z.land (Z.shiftr r 12) 63)))
         (String (byte (Z.lor 128 (Z.land (Z.shiftr r 6) 63)))
            (String (byte (Z.lor 128 (Z.land r 63))) EmptyString)))
  else RuneError.

End utf8.

(** ** internal/models/inspection.go: the inspection report *)

Module inspection_models.
Import models.

Module InspectionIssue.
Record t := mk {
  Category : string;
  Severity : string;
  Description : string;
  Location : string
}.
End InspectionIssue.

Module InspectionReport.
Record t := mk {
  OverallCondition : string;
  MechanicalScore : Z;
  ExteriorScore : Z;
  InteriorScore : Z;
  Issues : list InspectionIssue.t;
  Recommendations : list string;
  EstimatedRepairs : float
}.
End InspectionReport.

Module CompleteInspectionRequest.
Record t := mk { Report : InspectionReport.t; Notes : string }.
End CompleteInspectionRequest.

Definition validConditions : list string := ["excellent"; "good"; "fair"; "poor"].

Definition validSeverities : list string := ["critical"; "major"; "minor"].

(** The loop [for i, issue := range r.Issues], from index [i] on. *)
Fixpoint validateIssues (i : Z) (issues : list InspectionIssue.t) : option error :=
  match issues with
  | nil => None
  | issue :: rest =>
      if String.eqb (InspectionIssue.Category issue) EmptyString then
        Some (New ("issue category is required at index "
                   ++ utf8.encode (utf8.rune i)))
      else if String.eqb (InspectionIssue.Severity issue) EmptyString then
        Some (New ("issue severity is required at index "
                   ++ utf8.encode (utf8.rune i)))
      else if negb (member (InspectionIssue.Severity issue) validSeverities) then
        Some (New ("issue severity must be one of: critical, major, minor at index "
                   ++ utf8.encode (utf8.rune i)))
      else if String.eqb (InspectionIssue.Description issue) EmptyString then
        Some (New ("issue description is required at index "
                   ++ utf8.encode (utf8.rune i)))
      else validateIssues (i + 1) rest
  end.

(** [InspectionReport.Validate]. *)
Definition InspectionReport_Validate (r : InspectionReport.t) : option error :=
  if String.eqb (InspectionReport.OverallCondition r) EmptyString then
    Some (New "overallCondition is required")
  else if negb (member (InspectionReport.OverallCondition r) validConditions) then
    Some (New "overallCondition must be one of: excellent, good, fair, poor")
  else if (InspectionReport.MechanicalScore r <? 0)
          || (100 <? InspectionReport.MechanicalScore r) then
    Some (New "mechanicalScore must be between 0 and 100")
  else if (InspectionReport.ExteriorScore r <? 0)
          || (100 <? InspectionReport.ExteriorScore r) then
    Some (New "exteriorScore must be between 0 and 100")
  else if (InspectionReport.InteriorScore r <? 0)
          || (100 <? InspectionReport.InteriorScore r) then
    Some (New "interiorScore must be between 0 and 100")
  else if (InspectionReport.EstimatedRepairs r <? 0)%float then
    Some (New "estimatedRepairs cannot be negative")
  else validateIssues 0 (InspectionReport.Issues r).

(** [CompleteInspectionRequest.Validate]. *)
Definition CompleteInspectionRequest_Validate (r : CompleteInspectionRequest.t)
  : option error :=
  InspectionReport_Validate (CompleteInspectionRequest.Report r).

End inspection_models.

(** ** What a request may do to the store *)

Module effects.
Import models mongo.

(** [readonly m]: [m] leaves the database as it found it. *)
Definition readonly {A} (m : M A) : Prop :=
  forall fl db, snd (fst (m fl db)) = db.

(** [all_or_nothing m]: when [m] returns an error, it has written nothing. *)
Definition all_or_nothing {A} (m : M A) : Prop :=
  forall fl db e, fst (fst (m fl db)) = Err e -> snd (fst (m fl db)) = db.

(** The fields of a transaction that no [$set] document names. *)
Definition same_deal (t t' : Transaction.t) : Prop :=
  Transaction.ID t' = Transaction.ID t
  /\ Transaction.VehicleID t' = Transaction.VehicleID t
  /\ Transaction.SellerID t' = Transaction.SellerID t
  /\ Transaction.BuyerID t' = Transaction.BuyerID t
  /\ Transaction.Type_ t' = Transaction.Type_ t
  /\ Transaction.Amount t' = Transaction.Amount t
  /\ Transaction.Currency t' = Transaction.Currency t
  /\ Transaction.PaymentMethod t' = Transaction.PaymentMethod t
  /\ Transaction.InspectionID t' = Transaction.InspectionID t
  /\ Transaction.CreatedAt t' = Transaction.CreatedAt t.

(** A vehicle as it was, or sold: only owner, status and updatedAt differ. *)
Definition same_or_sold (v v' : Vehicle.t) : Prop :=
  v' = v
  \/ (Vehicle.Status v' = VehicleStatusSold
      /\ Vehicle.ID v' = Vehicle.ID v
      /\ Vehicle.Make v' = Vehicle.Make v
      /\ Vehicle.Model v' = Vehicle.Model v
      /\ Vehicle.Year v' = Vehicle.Year v
      /\ Vehicle.Price v' = Vehicle.Price v
      /\ Vehicle.Mileage v' = Vehicle.Mileage v
      /\ Vehicle.Location v' = Vehicle.Location v
      /\ Vehicle.Images v' = Vehicle.Images v
      /\ Vehicle.Meta v' = Vehicle.Meta v
      /\ Vehicle.CreatedAt v' = Vehicle.CreatedAt v).

(** One write of the transaction service: a new pending transaction under
    a fresh key, a stored transaction amended in place, or a stored vehicle
    handed to a buyer. *)
Inductive write : DB -> DB -> Prop :=
| write_created db id t :
    transactions db !! id = None ->
    Transaction.ID t = id ->
    Transaction.Status t = TransactionStatusPending ->
    write db (mkDB (<[id := t]> (transactions db)) (vehicles db))
| write_amended db id t t' :
    transactions db !! id = Some t ->
    same_deal t t' ->
    write db (mkDB (<[id := t']> (transactions db)) (vehicles db))
| write_sold db id v now buyerID :
    vehicles db !! id = Some v ->
    write db (mkDB (transactions db)
                (<[id := service.vehicleSet now buyerID v]> (vehicles db))).

End effects.

(** ** More sample data *)

Module cases.
Import models mongo.

Definition secondTxnHex := "0000000000000000000000a2".
Definition secondTxnID : N := 162.

(** A second pending sale of the same vehicle, to the stranger. *)
Definition second_sale : Transaction.t :=
  Transaction.mk secondTxnID sample.vehicleID sample.seller sample.stranger
    TransactionTypeSale TransactionStatusPending 24000%float "USD"
    PaymentMethodCash PaymentDetails.zero None EmptyString None None 120 120.

Definition two_offers : DB :=
  mkDB (<[secondTxnID := second_sale]>
          {[ sample.txnID := sample.sale TransactionStatusPending ]})
       {[ sample.vehicleID := sample.corolla ]}.

Definition reopen : UpdateTransactionRequest.t :=
  UpdateTransactionRequest.mk TransactionStatusPending None EmptyString.

(** PUT /vehicles/:id with the body {status: active}: every other field
    decodes to its zero value. *)
Definition relist : vehicle_models.UpdateVehicleRequest.t :=
  vehicle_models.UpdateVehicleRequest.mk EmptyString EmptyString 0 0%float 0%float
    VehicleStatusActive None None None.

(** The request that lists the seller's car. *)
Definition new_corolla : vehicle_create.CreateVehicleRequest.t :=
  vehicle_create.CreateVehicleRequest.mk "Toyota" "Corolla" 2020 25000%float
    42000%float (Location.mk "Lagos" "Lagos" "NG") None nil.

(** The former buyer offers the car to the stranger. *)
Definition resale_request : CreateTransactionRequest.t :=
  CreateTransactionRequest.mk sample.vehicleHex sample.strangerHex 20000%float
    "USD" PaymentMethodCash EmptyString EmptyString PaymentDetails.zero.

(** A report whose second issue has no category. *)
Definition careless_report : inspection_models.InspectionReport.t :=
  inspection_models.InspectionReport.mk "good" 80 75 90
    [inspection_models.InspectionIssue.mk "body" "minor" "scratch" "door";
     inspection_models.InspectionIssue.mk EmptyString "minor" "noise" EmptyString]
    nil 150%float.

End cases.

(** * Properties *)

Import models mongo.

(** ** Integers and binary64 *)

Section IntFloat.

Lemma digits2_pos_size p : digits2_pos p = Pos.size p.
Proof. induction p; simpl; congruence. Qed.

Lemma digits2_pos_bound p : Z.pos p < 2 ^ 53 -> Z.pos (digits2_pos p) <= 53.
Proof.
  intros H. rewrite digits2_pos_size.
  pose proof (Pos.size_le p) as Hle.
  apply Pos2Z.pos_le_pos in Hle.
  rewrite Pos2Z.inj_pow in Hle.
  pose proof (Pos2Z.inj_xO p) as Hx.
  destruct (Z_le_gt_dec (Z.pos (Pos.size p)) 53) as [|Hgt]; [assumption|exfalso].
  assert (Hp : 2 ^ 54 <= 2 ^ Z.pos (Pos.size p)) by (apply Z.pow_le_mono_r; lia).
  assert (E : 2 ^ 54 = 2 * 2 ^ 53) by reflexivity.
  lia.
Qed.

Lemma digits2_pos_iter_xO p k :
  digits2_pos (Pos.iter xO p k) = (digits2_pos p + k)%positive.
Proof.
  induction k using Pos.peano_ind.
  - simpl. lia.
  - rewrite Pos.iter_succ. simpl. rewrite IHk. lia.
Qed.

Lemma iter_xO_value p k : Z.pos (Pos.iter xO p k) = Z.pos p * 2 ^ Z.pos k.
Proof.
  induction k using Pos.peano_ind.
  - simpl. lia.
  - rewrite Pos.iter_succ, Pos2Z.inj_xO, IHk, Pos2Z.inj_succ, Z.pow_succ_r by lia. lia.
Qed.

(** A mantissa of full width in the normal range is already rounded. *)
Lemma binary_round_aux_exact s m e :
  Z.pos (digits2_pos m) = 53 -> -1074 <= e <= 971 ->
  binary_round_aux prec emax s (Z.pos m) e loc_Exact = S754_finite s m e.
Proof.
  intros Hd He.
  assert (Hf : fexp prec emax (Z.pos (digits2_pos m) + e) - e = 0).
  { unfold fexp, emin, prec, emax. rewrite Hd. lia. }
  unfold binary_round_aux, shr_fexp. cbn [Zdigits2 shr_record_of_loc].
  rewrite Hf. cbn [shr shr_m loc_of_shr_record round_nearest_even Zdigits2 shr_record_of_loc].
  rewrite Hf. cbn [shr shr_m].
  replace (e <=? emax - prec) with true; [reflexivity|].
  symmetry. apply Z.leb_le. unfold emax, prec. lia.
Qed.

Lemma binary_normalize_int p :
  Z.pos p < 2 ^ 53 ->
  exists m e, binary_normalize prec emax (Z.pos p) 0 false = S754_finite false m e
    /\ Z.pos (digits2_pos m) = 53 /\ -52 <= e <= 0 /\ Z.pos m = Z.pos p * 2 ^ (- e).
Proof.
  intros Hp. pose proof (digits2_pos_bound p Hp) as Hd.
  set (d := digits2_pos p) in *.
  assert (Hfexp : fexp prec emax (Z.pos d + 0) = Z.pos d - 53).
  { unfold fexp, emin, prec, emax. lia. }
  unfold binary_normalize, binary_round. fold d. rewrite Hfexp.
  unfold shl_align. rewrite Z.sub_0_r.
  destruct (Z.pos d - 53) as [|q|q] eqn:Hq; try lia.
  - exists p, 0. split; [apply binary_round_aux_exact; fold d; lia|].
    fold d. repeat split; try lia.
  - exists (Pos.iter xO p q), (Z.neg q).
    assert (Hdig : Z.pos (digits2_pos (Pos.iter xO p q)) = 53).
    { rewrite digits2_pos_iter_xO. fold d. lia. }
    split; [apply binary_round_aux_exact; [assumption | lia]|].
    repeat split; try lia. rewrite iter_xO_value. reflexivity.
Qed.

Lemma Prim2SF_float64_of_int p :
  Z.pos p < 2 ^ 53 ->
  exists m e, Prim2SF (conv.float64_of_int (Z.pos p)) = S754_finite false m e
    /\ -52 <= e <= 0 /\ Z.pos m = Z.pos p * 2 ^ (- e).
Proof.
  intros Hp. destruct (binary_normalize_int p Hp) as (m & e & Hn & Hd & He & Hv).
  exists m, e. split; [|split; assumption].
  unfold conv.float64_of_int. rewrite Hn. apply Prim2SF_SF2Prim.
  cbn [valid_binary]. unfold bounded, canonical_mantissa.
  apply andb_true_intro. split.
  - apply Z.eqb_eq. unfold fexp, emin, prec, emax. lia.
  - apply Z.leb_le. unfold prec, emax. lia.
Qed.

(** [int(float64(k)) == k] for every [k] a binary64 holds exactly. *)
Lemma int_of_float64_of_int z :
  0 <= z < 2 ^ 53 -> conv.int_of_float64 (conv.float64_of_int z) = z.
Proof.
  intros [H0 H1]. destruct z as [|p|p]; try lia.
  - reflexivity.
  - destruct (Prim2SF_float64_of_int p H1) as (m & e & Hs & He & Hv).
    unfold conv.int_of_float64. rewrite Hs.
    assert (Hk : (if 0 <=? e then Z.pos m * 2 ^ e else Z.pos m / 2 ^ (- e)) = Z.pos p).
    { destruct (0 <=? e) eqn:Hle.
      - apply Z.leb_le in Hle. assert (e = 0) by lia. subst e. simpl in Hv. lia.
      - rewrite Hv. apply Z.div_mul. apply Z.pow_nonzero; lia. }
    cbv zeta. rewrite Hk.
    assert (Hlo : (- 2 ^ 63 <=? Z.pos p) = true) by (apply Z.leb_le; lia).
    assert (Hhi : (Z.pos p <? 2 ^ 63) = true).
    { apply Z.ltb_lt. assert (2 ^ 53 < 2 ^ 63) by reflexivity. lia. }
    rewrite Hlo, Hhi. reflexivity.
Qed.

(** [float64(k) != 0] for a positive [k]. *)
Lemma float64_of_int_nonzero z :
  0 < z < 2 ^ 53 -> (conv.float64_of_int z =? 0)%float = false.
Proof.
  intros [H0 H1]. destruct z as [|p|p]; try lia.
  destruct (Prim2SF_float64_of_int p H1) as (m & e & Hs & _).
  rewrite FloatAxioms.eqb_spec, Hs. reflexivity.
Qed.

End IntFloat.

(** ** The financing calculator *)

Lemma pow_loop_iter k x acc :
  service.pow_loop k x acc = Nat.iter k (fun a => (a * x)%float) acc.
Proof.
  revert acc. induction k as [|k IH]; intros acc; [reflexivity|].
  cbn [service.pow_loop]. rewrite IH, Nat.iter_succ_r. reflexivity.
Qed.

(** [pow(x, float64(n))] is [x] raised to the [n]. *)
Lemma pow_power x n :
  0 <= n < 2 ^ 53 ->
  service.pow x (conv.float64_of_int n) = spec.power x (Z.to_nat n).
Proof.
  intros Hn. unfold service.pow, spec.power.
  rewrite int_of_float64_of_int by assumption. apply pow_loop_iter.
Qed.

Lemma power_succ x n : spec.power x (S n) = (spec.power x n * x)%float.
Proof. reflexivity. Qed.

(** A rate that equals zero is not positive. *)
Lemma zero_rate_not_positive r : (r =? 0)%float = true -> (0 <? r)%float = false.
Proof.
  rewrite FloatAxioms.eqb_spec, FloatAxioms.ltb_spec.
  change (Prim2SF 0) with (S754_zero false).
  destruct (Prim2SF r) as [s|s| |s m e]; try destruct s; cbn; congruence.
Qed.

(** ** The store monad *)

Section Monad.
Context {A B : Type}.

Lemma bind_ok (m : M A) (k : A -> M B) fl db a db' fl' :
  m fl db = (Ok a, db', fl') -> bind m k fl db = k a fl' db'.
Proof. intros H. unfold bind. rewrite H. reflexivity. Qed.

Lemma bind_err (m : M A) (k : A -> M B) fl db e db' fl' :
  m fl db = (Err e, db', fl') -> bind m k fl db = (Err e, db', fl').
Proof. intros H. unfold bind. rewrite H. reflexivity. Qed.

Lemma notFoundAs_ok msg (m : M A) fl db a db' fl' :
  m fl db = (Ok a, db', fl') -> notFoundAs msg m fl db = (Ok a, db', fl').
Proof. intros H. unfold notFoundAs. rewrite H. reflexivity. Qed.

Lemma run_eq (m : M A) fl db r db' fl' :
  m fl db = (r, db', fl') -> run m fl db = (r, db').
Proof. intros H. unfold run. rewrite H. reflexivity. Qed.

Lemma run_snd (m : M A) fl db : snd (run m fl db) = snd (fst (m fl db)).
Proof. unfold run. destruct (m fl db) as [[r db'] fl']. reflexivity. Qed.

Lemma run_fst (m : M A) fl db : fst (run m fl db) = fst (fst (m fl db)).
Proof. unfold run. destruct (m fl db) as [[r db'] fl']. reflexivity. Qed.

End Monad.

(** *** Fault plans *)

Lemma quiet_tl n fl : quiet (S n) fl = true -> quiet n (tl fl) = true.
Proof.
  destruct fl as [|b rest]; cbn [quiet tl].
  - intros _. destruct n; reflexivity.
  - intros H. apply andb_prop in H. apply H.
Qed.

Lemma quiet_one n fl : quiet (S n) fl = true -> quiet 1 fl = true.
Proof.
  destruct fl as [|b rest]; cbn [quiet]; [reflexivity|].
  intros H. apply andb_prop in H. destruct H as [H _]. rewrite H. reflexivity.
Qed.


Lemma call_quiet fl db : quiet 1 fl = true -> call fl db = (Ok tt, db, tl fl).
Proof. destruct fl as [|[|] rest]; cbn; [reflexivity|discriminate|reflexivity]. Qed.

Lemma call_db fl db : snd (fst (call fl db)) = db.
Proof. destruct fl as [|[|] rest]; reflexivity. Qed.

(** *** The driver calls, on a quiet plan *)

Lemma FindOneTransaction_quiet id fl db :
  quiet 1 fl = true ->
  FindOneTransaction id fl db =
    (match transactions db !! id with Some t => Ok t | None => Err ErrNoDocuments end,
     db, tl fl).
Proof.
  intros Hq. unfold FindOneTransaction.
  rewrite (bind_ok _ _ _ _ _ _ _ (call_quiet fl db Hq)).
  destruct (transactions db !! id); reflexivity.
Qed.

Lemma FindOneVehicle_quiet id fl db :
  quiet 1 fl = true ->
  FindOneVehicle id fl db =
    (match vehicles db !! id with Some v => Ok v | None => Err ErrNoDocuments end,
     db, tl fl).
Proof.
  intros Hq. unfold FindOneVehicle.
  rewrite (bind_ok _ _ _ _ _ _ _ (call_quiet fl db Hq)).
  destruct (vehicles db !! id); reflexivity.
Qed.

Lemma FindOneAndUpdate_quiet id set fl db t :
  quiet 1 fl = true -> transactions db !! id = Some t ->
  FindOneAndUpdate id set fl db =
    (Ok (set t), mkDB (<[id := set t]> (transactions db)) (vehicles db), tl fl).
Proof.
  intros Hq Ht. unfold FindOneAndUpdate.
  rewrite (bind_ok _ _ _ _ _ _ _ (call_quiet fl db Hq)), Ht. reflexivity.
Qed.

Lemma UpdateOne_quiet id set fl db :
  quiet 1 fl = true ->
  UpdateOne id set fl db =
    match vehicles db !! id with
    | Some v => (Ok 1%N, mkDB (transactions db) (<[id := set v]> (vehicles db)), tl fl)
    | None => (Ok 0%N, db, tl fl)
    end.
Proof.
  intros Hq. unfold UpdateOne.
  rewrite (bind_ok _ _ _ _ _ _ _ (call_quiet fl db Hq)). reflexivity.
Qed.

Lemma InsertOne_quiet newID doc fl db :
  quiet 1 fl = true -> transactions db !! newID = None ->
  InsertOne newID doc fl db =
    (Ok newID, mkDB (<[newID := doc newID]> (transactions db)) (vehicles db), tl fl).
Proof.
  intros Hq Hn. unfold InsertOne.
  rewrite (bind_ok _ _ _ _ _ _ _ (call_quiet fl db Hq)), Hn. reflexivity.
Qed.

(** *** Invariants through the monad *)

Section Preserves.
Variable I : DB -> Prop.

Lemma preserves_ret {A} (a : A) : preserves I (ret a).
Proof. intros fl db H. exact H. Qed.

Lemma preserves_fail {A} e : preserves I (@fail A e).
Proof. intros fl db H. exact H. Qed.

Lemma preserves_call : preserves I call.
Proof. intros fl db H. rewrite call_db. exact H. Qed.

Lemma preserves_bind {A B} (m : M A) (k : A -> M B) :
  preserves I m -> (forall a, preserves I (k a)) -> preserves I (bind m k).
Proof.
  intros Hm Hk fl db H. unfold bind.
  specialize (Hm fl db H). destruct (m fl db) as [[[a|e] db'] fl']; cbn in *.
  - apply Hk. exact Hm.
  - exact Hm.
Qed.

Lemma preserves_notFoundAs {A} msg (m : M A) :
  preserves I m -> preserves I (notFoundAs msg m).
Proof.
  intros Hm fl db H. unfold notFoundAs.
  specialize (Hm fl db H). destruct (m fl db) as [[[a|[]] db'] fl']; exact Hm.
Qed.


Lemma preserves_FindOneTransaction id : preserves I (FindOneTransaction id).
Proof.
  apply preserves_bind; [apply preserves_call|]. intros _ fl db H.
  destruct (transactions db !! id); exact H.
Qed.

Lemma preserves_FindOneVehicle id : preserves I (FindOneVehicle id).
Proof.
  apply preserves_bind; [apply preserves_call|]. intros _ fl db H.
  destruct (vehicles db !! id); exact H.
Qed.

Lemma preserves_FindOneAndUpdate id set :
  (forall db t, I db -> transactions db !! id = Some t ->
     I (mkDB (<[id := set t]> (transactions db)) (vehicles db))) ->
  preserves I (FindOneAndUpdate id set).
Proof.
  intros Hset. apply preserves_bind; [apply preserves_call|]. intros _ fl db H.
  destruct (transactions db !! id) eqn:E; cbn; [eapply Hset; eauto | exact H].
Qed.

Lemma preserves_InsertOne newID doc :
  (forall db, I db -> transactions db !! newID = None ->
     I (mkDB (<[newID := doc newID]> (transactions db)) (vehicles db))) ->
  preserves I (InsertOne newID doc).
Proof.
  intros Hins. apply preserves_bind; [apply preserves_call|]. intros _ fl db H.
  destruct (transactions db !! newID) eqn:E; cbn; [exact H | apply Hins; assumption].
Qed.

Lemma preserves_UpdateOne id set :
  (forall db v, I db -> vehicles db !! id = Some v ->
     I (mkDB (transactions db) (<[id := set v]> (vehicles db)))) ->
  preserves I (UpdateOne id set).
Proof.
  intros Hset. apply preserves_bind; [apply preserves_call|]. intros _ fl db H.
  destruct (vehicles db !! id) eqn:E; cbn; [eapply Hset; eauto | exact H].
Qed.

End Preserves.

(** ** The service operations *)

Create HintDb frame.

#[local] Hint Resolve preserves_ret preserves_fail preserves_call preserves_bind
  preserves_notFoundAs preserves_FindOneTransaction preserves_FindOneVehicle : frame.

(** *** What each operation leaves alone *)

(** Update and Cancel issue no call on the vehicles collection. *)
Lemma UpdateTransaction_vehicles vs now id req userID :
  preserves (fun db => vehicles db = vs) (service.UpdateTransaction now id req userID).
Proof.
  unfold service.UpdateTransaction.
  destruct (primitive.ObjectIDFromHex id) as [objectID|]; [|auto with frame].
  apply preserves_bind; [auto with frame|]. intros existingTxn.
  destruct (_ && _); [auto with frame|].
  apply preserves_FindOneAndUpdate. intros db t H _. exact H.
Qed.

Lemma CancelTransaction_vehicles vs now id notes userID :
  preserves (fun db => vehicles db = vs) (service.CancelTransaction now id notes userID).
Proof.
  unfold service.CancelTransaction.
  destruct (primitive.ObjectIDFromHex id) as [objectID|]; [|auto with frame].
  apply preserves_bind; [auto with frame|]. intros transaction.
  destruct (_ && _); [auto with frame|].
  destruct (negb _); [auto with frame|].
  apply preserves_FindOneAndUpdate. intros db t H _. exact H.
Qed.

(** *** Statuses written by each operation *)

Lemma all_status_insert P db id t :
  spec.all_status P db -> P (Transaction.Status t) ->
  spec.all_status P (mkDB (<[id := t]> (transactions db)) (vehicles db)).
Proof.
  intros Hall Ht id' t'. cbn. rewrite lookup_insert.
  case_decide as E.
  - intros [= <-]. exact Ht.
  - apply Hall.
Qed.

Lemma all_status_vehicles P db vs :
  spec.all_status P db -> spec.all_status P (mkDB (transactions db) vs).
Proof. intros Hall id t. cbn. apply Hall. Qed.


Section Statuses.
Variable P : string -> Prop.

Lemma CreateTransaction_status now newID req sellerID :
  P TransactionStatusPending ->
  preserves (spec.all_status P) (service.CreateTransaction now newID req sellerID).
Proof.
  intros Hp. unfold service.CreateTransaction.
  destruct (primitive.ObjectIDFromHex _) as [vehicleID|]; [|auto with frame].
  destruct (primitive.ObjectIDFromHex _) as [buyerID|]; [|auto with frame].
  apply preserves_bind; [auto with frame|]. intros vehicle.
  destruct (negb _); [auto with frame|].
  destruct (negb _); [auto with frame|].
  destruct (_ =? _)%N; [auto with frame|].
  assert (Hins : forall inspectionID,
    preserves (spec.all_status P)
      (do insertedID <-
         InsertOne newID
           (if String.eqb (CreateTransactionRequest.PaymentMethod req) PaymentMethodFinancing
            then fun id => service.calculateFinancingDetails
                   (service.newTransaction now req vehicleID sellerID buyerID inspectionID id)
            else service.newTransaction now req vehicleID sellerID buyerID inspectionID);
       ret ((if String.eqb (CreateTransactionRequest.PaymentMethod req) PaymentMethodFinancing
            then fun id => service.calculateFinancingDetails
                   (service.newTransaction now req vehicleID sellerID buyerID inspectionID id)
            else service.newTransaction now req vehicleID sellerID buyerID inspectionID)
              insertedID))).
  { intros inspectionID. apply preserves_bind; [|auto with frame].
    apply preserves_InsertOne. intros db H _. apply all_status_insert; [exact H|].
    destruct (String.eqb _ _); exact Hp. }
  destruct (negb _); [|apply Hins].
  destruct (primitive.ObjectIDFromHex _); [apply Hins | auto with frame].
Qed.

Lemma UpdateTransaction_status now id req userID :
  UpdateTransactionRequest.Status req = EmptyString
    \/ P (UpdateTransactionRequest.Status req) ->
  preserves (spec.all_status P) (service.UpdateTransaction now id req userID).
Proof.
  intros Hreq. unfold service.UpdateTransaction.
  destruct (primitive.ObjectIDFromHex id) as [objectID|]; [|auto with frame].
  apply preserves_bind; [auto with frame|]. intros existingTxn.
  destruct (_ && _); [auto with frame|].
  apply preserves_FindOneAndUpdate. intros db t H Ht.
  apply all_status_insert; [exact H|]. cbn.
  destruct (String.eqb_spec (UpdateTransactionRequest.Status req) EmptyString) as [E|E]; cbn.
  - eapply H; eassumption.
  - destruct Hreq as [Hreq|Hreq]; [contradiction | exact Hreq].
Qed.

Lemma CompleteTransaction_status now id req userID :
  P TransactionStatusCompleted ->
  preserves (spec.all_status P) (service.CompleteTransaction now id req userID).
Proof.
  intros Hc. unfold service.CompleteTransaction.
  destruct (primitive.ObjectIDFromHex id) as [objectID|]; [|auto with frame].
  apply preserves_bind; [auto with frame|]. intros transaction.
  destruct (negb _); [auto with frame|].
  destruct (negb _); [auto with frame|].
  apply preserves_bind; [apply preserves_call|]. intros _.
  unfold WithSession. apply preserves_bind.
  - apply preserves_FindOneAndUpdate. intros db t H _.
    apply all_status_insert; [exact H | exact Hc].
  - intros t. apply preserves_bind; [|auto with frame].
    apply preserves_UpdateOne. intros db v H _. apply all_status_vehicles. exact H.
Qed.

Lemma CancelTransaction_status now id notes userID :
  P TransactionStatusCancelled ->
  preserves (spec.all_status P) (service.CancelTransaction now id notes userID).
Proof.
  intros Hc. unfold service.CancelTransaction.
  destruct (primitive.ObjectIDFromHex id) as [objectID|]; [|auto with frame].
  apply preserves_bind; [auto with frame|]. intros transaction.
  destruct (_ && _); [auto with frame|].
  destruct (negb _); [auto with frame|].
  apply preserves_FindOneAndUpdate. intros db t H _.
  apply all_status_insert; [exact H | exact Hc].
Qed.

End Statuses.

(** *** Through the handlers *)

Section Handlers.
Variable I : DB -> Prop.

Lemma reject_preserves status msg : handlers.preserves I (handlers.reject status msg).
Proof. intros fl db H. exact H. Qed.

Lemma serve_preserves m success status :
  preserves I m -> handlers.preserves I (handlers.serve m success status).
Proof.
  intros Hm fl db H. unfold handlers.serve.
  specialize (Hm fl db H). rewrite <- run_snd in Hm.
  destruct (run m fl db) as [[t|e] db']; exact Hm.
Qed.

Lemma withUser_preserves user k :
  (forall userID, handlers.preserves I (k userID)) ->
  handlers.preserves I (handlers.withUser user k).
Proof.
  intros Hk. unfold handlers.withUser.
  destruct (String.eqb _ _); [apply reject_preserves|].
  destruct (primitive.ObjectIDFromHex user); [apply Hk | apply reject_preserves].
Qed.

End Handlers.

(** *** The outcome of Complete, Cancel and Update on a stored transaction *)

Section OnStoredTransaction.
Variables (now : Time) (id : string) (objectID userID : N).
Variables (fl : Faults) (db : DB) (t : Transaction.t).
Hypothesis Hid : primitive.ObjectIDFromHex id = Some objectID.
Hypothesis Ht : transactions db !! objectID = Some t.

Lemma lookup_found :
  quiet 1 fl = true ->
  forall msg, notFoundAs msg (FindOneTransaction objectID) fl db = (Ok t, db, tl fl).
Proof.
  intros Hq msg. apply notFoundAs_ok.
  rewrite FindOneTransaction_quiet, Ht by assumption. reflexivity.
Qed.

Lemma lookup_db msg :
  (exists r, notFoundAs msg (FindOneTransaction objectID) fl db = (Err r, db, tl fl))
  \/ notFoundAs msg (FindOneTransaction objectID) fl db = (Ok t, db, tl fl).
Proof.
  unfold notFoundAs, FindOneTransaction, bind, call.
  destruct fl as [|[|] rest]; cbn; rewrite ?Ht; eauto.
Qed.

Variable req : CompleteTransactionRequest.t.

Lemma CompleteTransaction_not_seller :
  quiet 1 fl = true -> Transaction.SellerID t <> userID ->
  service.CompleteTransaction now id req userID fl db =
    (Err (New "only the seller can complete this transaction"), db, tl fl).
Proof.
  intros Hq Hs. unfold service.CompleteTransaction. rewrite Hid.
  rewrite (bind_ok _ _ _ _ _ _ _ (lookup_found Hq _)).
  destruct (N.eqb_spec (Transaction.SellerID t) userID); [contradiction | reflexivity].
Qed.


Lemma CompleteTransaction_done :
  quiet 4 fl = true -> Transaction.SellerID t = userID ->
  Transaction.Status t = TransactionStatusPending ->
  service.CompleteTransaction now id req userID fl db =
    (Ok (service.completeSet now req t),
     mkDB (<[objectID := service.completeSet now req t]> (transactions db))
          (match vehicles db !! Transaction.VehicleID t with
           | Some v =>
               <[Transaction.VehicleID t :=
                   service.vehicleSet now (Transaction.BuyerID t) v]> (vehicles db)
           | None => vehicles db
           end),
     tl (tl (tl (tl fl)))).
Proof.
  intros Hq Hs Hp. unfold service.CompleteTransaction. rewrite Hid.
  rewrite (bind_ok _ _ _ _ _ _ _ (lookup_found (quiet_one _ _ Hq) _)).
  destruct (N.eqb_spec (Transaction.SellerID t) userID); [cbn | contradiction].
  destruct (String.eqb_spec (Transaction.Status t) TransactionStatusPending);
    [cbn | contradiction].
  apply quiet_tl in Hq.
  unfold StartSession, WithSession.
  rewrite (bind_ok _ _ _ _ _ _ _ (call_quiet _ db (quiet_one _ _ Hq))).
  apply quiet_tl in Hq.
  rewrite (bind_ok _ _ _ _ _ _ _
             (FindOneAndUpdate_quiet objectID _ _ db t (quiet_one _ _ Hq) Ht)).
  apply quiet_tl in Hq.
  unfold bind. rewrite UpdateOne_quiet by exact Hq. cbn.
  destruct (vehicles db !! Transaction.VehicleID t); reflexivity.
Qed.

(** The write to the vehicle fails after the write to the transaction went
    through: the error is returned and the first write stays. *)
Lemma CompleteTransaction_torn rest :
  fl = false :: false :: false :: true :: rest ->
  Transaction.SellerID t = userID ->
  Transaction.Status t = TransactionStatusPending ->
  service.CompleteTransaction now id req userID fl db =
    (Err ErrDriver,
     mkDB (<[objectID := service.completeSet now req t]> (transactions db)) (vehicles db),
     rest).
Proof.
  intros Hfl Hs Hp. unfold service.CompleteTransaction. rewrite Hid.
  assert (Hq : quiet 1 fl = true) by (rewrite Hfl; reflexivity).
  rewrite (bind_ok _ _ _ _ _ _ _ (lookup_found Hq _)).
  destruct (N.eqb_spec (Transaction.SellerID t) userID); [cbn | contradiction].
  destruct (String.eqb_spec (Transaction.Status t) TransactionStatusPending);
    [cbn | contradiction].
  rewrite Hfl. unfold StartSession, WithSession, FindOneAndUpdate, UpdateOne, bind, call.
  cbn. rewrite Ht. reflexivity.
Qed.


Variable notes : string.

Lemma CancelTransaction_not_party :
  quiet 1 fl = true ->
  Transaction.SellerID t <> userID -> Transaction.BuyerID t <> userID ->
  service.CancelTransaction now id notes userID fl db =
    (Err (New "you are not authorized to cancel this transaction"), db, tl fl).
Proof.
  intros Hq Hs Hb. unfold service.CancelTransaction. rewrite Hid.
  rewrite (bind_ok _ _ _ _ _ _ _ (lookup_found Hq _)).
  destruct (N.eqb_spec (Transaction.SellerID t) userID); [contradiction|].
  destruct (N.eqb_spec (Transaction.BuyerID t) userID); [contradiction|].
  reflexivity.
Qed.


Lemma CancelTransaction_done :
  quiet 2 fl = true ->
  Transaction.SellerID t = userID \/ Transaction.BuyerID t = userID ->
  Transaction.Status t = TransactionStatusPending ->
  service.CancelTransaction now id notes userID fl db =
    (Ok (service.cancelSet now notes t),
     mkDB (<[objectID := service.cancelSet now notes t]> (transactions db)) (vehicles db),
     tl (tl fl)).
Proof.
  intros Hq Hparty Hp. unfold service.CancelTransaction. rewrite Hid.
  rewrite (bind_ok _ _ _ _ _ _ _ (lookup_found (quiet_one _ _ Hq) _)).
  assert (E : negb (Transaction.SellerID t =? userID)%N
              && negb (Transaction.BuyerID t =? userID)%N = false).
  { destruct Hparty as [<-|<-]; rewrite N.eqb_refl; cbn;
      [reflexivity | apply andb_false_r]. }
  rewrite E.
  destruct (String.eqb_spec (Transaction.Status t) TransactionStatusPending);
    [cbn | contradiction].
  apply quiet_tl in Hq.
  apply FindOneAndUpdate_quiet; assumption.
Qed.


Variable upd : UpdateTransactionRequest.t.

Lemma UpdateTransaction_done :
  quiet 2 fl = true ->
  Transaction.SellerID t = userID \/ Transaction.BuyerID t = userID ->
  service.UpdateTransaction now id upd userID fl db =
    (Ok (service.updateSet now upd t),
     mkDB (<[objectID := service.updateSet now upd t]> (transactions db)) (vehicles db),
     tl (tl fl)).
Proof.
  intros Hq Hparty. unfold service.UpdateTransaction. rewrite Hid.
  rewrite (bind_ok _ _ _ _ _ _ _ (lookup_found (quiet_one _ _ Hq) _)).
  assert (E : negb (Transaction.SellerID t =? userID)%N
              && negb (Transaction.BuyerID t =? userID)%N = false).
  { destruct Hparty as [<-|<-]; rewrite N.eqb_refl; cbn;
      [reflexivity | apply andb_false_r]. }
  rewrite E. apply quiet_tl in Hq.
  apply FindOneAndUpdate_quiet; assumption.
Qed.

End OnStoredTransaction.

(** A successful Complete was called by the seller of a pending transaction;
    a successful Cancel by one of its two parties. *)
Lemma CompleteTransaction_ok_inv now id req userID fl db t' :
  fst (fst (service.CompleteTransaction now id req userID fl db)) = Ok t' ->
  exists objectID t,
    primitive.ObjectIDFromHex id = Some objectID
    /\ transactions db !! objectID = Some t
    /\ Transaction.SellerID t = userID
    /\ Transaction.Status t = TransactionStatusPending.
Proof.
  unfold service.CompleteTransaction.
  destruct (primitive.ObjectIDFromHex id) as [objectID|]; [|discriminate].
  unfold bind at 1. unfold notFoundAs, FindOneTransaction, bind at 1, call.
  destruct fl as [|[|] rest]; cbn; try discriminate;
    (destruct (transactions db !! objectID) as [t|] eqn:Ht; cbn; [|discriminate]);
    (destruct (N.eqb_spec (Transaction.SellerID t) userID); cbn; [|discriminate]);
    (destruct (String.eqb_spec (Transaction.Status t) TransactionStatusPending);
     cbn; [|discriminate]);
    intros _; eauto 10.
Qed.

Lemma CancelTransaction_ok_inv now id notes userID fl db t' :
  fst (fst (service.CancelTransaction now id notes userID fl db)) = Ok t' ->
  exists objectID t,
    primitive.ObjectIDFromHex id = Some objectID
    /\ transactions db !! objectID = Some t
    /\ (Transaction.SellerID t = userID \/ Transaction.BuyerID t = userID)
    /\ Transaction.Status t = TransactionStatusPending.
Proof.
  unfold service.CancelTransaction.
  destruct (primitive.ObjectIDFromHex id) as [objectID|]; [|discriminate].
  unfold bind at 1. unfold notFoundAs, FindOneTransaction, bind at 1, call.
  destruct fl as [|[|] rest]; cbn; try discriminate;
    (destruct (transactions db !! objectID) as [t|] eqn:Ht; cbn; [|discriminate]);
    (destruct (N.eqb_spec (Transaction.SellerID t) userID);
     destruct (N.eqb_spec (Transaction.BuyerID t) userID); cbn; try discriminate);
    (destruct (String.eqb_spec (Transaction.Status t) TransactionStatusPending);
     cbn; [|discriminate]);
    intros _; eauto 10.
Qed.

(** *** The handlers *)

Lemma ObjectIDFromHex_nonempty s oid :
  primitive.ObjectIDFromHex s = Some oid -> String.eqb s EmptyString = false.
Proof. destruct s; [discriminate | reflexivity]. Qed.

Lemma withUser_parsed user userID k :
  primitive.ObjectIDFromHex user = Some userID -> handlers.withUser user k = k userID.
Proof.
  intros H. unfold handlers.withUser.
  rewrite (ObjectIDFromHex_nonempty _ _ H), H. reflexivity.
Qed.

Lemma serve_eq m success status fl db r db' fl' :
  m fl db = (r, db', fl') ->
  handlers.serve m success status fl db =
    (match r with
     | Ok t => handlers.mkResponse success (handlers.JSONTransaction t)
     | Err e => handlers.mkResponse (status (handlers.Error e))
                  (handlers.JSONError (handlers.Error e))
     end, db').
Proof.
  intros H. unfold handlers.serve. rewrite (run_eq _ _ _ _ _ _ H).
  destruct r; reflexivity.
Qed.

(** Every request keeps the statuses inside [P], provided the three statuses
    the engine writes are in [P] and an Update asks for no status outside. *)
Lemma handle_all_status (P : string -> Prop) c db :
  P TransactionStatusPending -> P TransactionStatusCompleted ->
  P TransactionStatusCancelled ->
  workflow.requested_status c = EmptyString \/ P (workflow.requested_status c) ->
  spec.all_status P db -> spec.all_status P (snd (workflow.handle c db)).
Proof.
  intros Hp Hc Hx Hreq Hdb.
  destruct c as [now newID req user fl|now id req user fl|now id req user fl|now id notes user fl];
    cbn [workflow.handle workflow.requested_status] in *.
  - unfold handlers.CreateTransaction.
    destruct (CreateTransactionRequest_Validate req); [exact Hdb|].
    apply withUser_preserves; [|exact Hdb]. intros userID.
    apply serve_preserves, CreateTransaction_status, Hp.
  - unfold handlers.UpdateTransaction.
    destruct (UpdateTransactionRequest_Validate req); [exact Hdb|].
    apply withUser_preserves; [|exact Hdb]. intros userID.
    apply serve_preserves, UpdateTransaction_status, Hreq.
  - unfold handlers.CompleteTransaction.
    destruct (CompleteTransactionRequest_Validate req); [exact Hdb|].
    apply withUser_preserves; [|exact Hdb]. intros userID.
    apply serve_preserves, CompleteTransaction_status, Hc.
  - unfold handlers.CancelTransaction.
    apply withUser_preserves; [|exact Hdb]. intros userID.
    apply serve_preserves, CancelTransaction_status, Hx.
Qed.

Lemma exec_all_status (P : string -> Prop) cs :
  P TransactionStatusPending -> P TransactionStatusCompleted ->
  P TransactionStatusCancelled ->
  Forall (fun c => workflow.requested_status c = EmptyString
                   \/ P (workflow.requested_status c)) cs ->
  forall db, spec.all_status P db -> spec.all_status P (workflow.exec cs db).
Proof.
  intros Hp Hc Hx Hcs. induction Hcs as [|c cs Hreq _ IH]; intros db Hdb.
  - exact Hdb.
  - cbn [workflow.exec]. apply IH. apply handle_all_status; assumption.
Qed.

(** A successful Cancel, in full. *)
Lemma CancelTransaction_ok now id notes userID fl db t' :
  fst (fst (service.CancelTransaction now id notes userID fl db)) = Ok t' ->
  exists objectID t,
    primitive.ObjectIDFromHex id = Some objectID
    /\ transactions db !! objectID = Some t
    /\ Transaction.Status t = TransactionStatusPending
    /\ t' = service.cancelSet now notes t
    /\ snd (fst (service.CancelTransaction now id notes userID fl db)) =
         mkDB (<[objectID := t']> (transactions db)) (vehicles db).
Proof.
  intros Hok.
  destruct (CancelTransaction_ok_inv _ _ _ _ _ _ _ Hok) as (objectID & t & Hid & Ht & Hparty & Hp).
  exists objectID, t. repeat (split; [assumption|]).
  revert Hok. unfold service.CancelTransaction. rewrite Hid.
  destruct (lookup_db objectID fl db t Ht "transaction not found") as [[r Hr]|Hr].
  - rewrite (bind_err _ _ _ _ _ _ _ Hr). discriminate.
  - rewrite (bind_ok _ _ _ _ _ _ _ Hr).
    assert (E : negb (Transaction.SellerID t =? userID)%N
                && negb (Transaction.BuyerID t =? userID)%N = false).
    { destruct Hparty as [<-|<-]; rewrite N.eqb_refl; cbn;
        [reflexivity | apply andb_false_r]. }
    rewrite E, Hp. cbn [String.eqb negb].
    change (String.eqb TransactionStatusPending TransactionStatusPending) with true.
    cbn [negb]. unfold FindOneAndUpdate, bind, call.
    destruct (tl fl) as [|[|] rest]; cbn; rewrite ?Ht; cbn;
      try discriminate; intros [= <-]; split; reflexivity.
Qed.

(** Update consults the transactions collection only. *)
Lemma UpdateTransaction_ignores_vehicles now id req userID fl txs vs vs' :
  fst (fst (service.UpdateTransaction now id req userID fl (mkDB txs vs)))
    = fst (fst (service.UpdateTransaction now id req userID fl (mkDB txs vs')))
  /\ transactions (snd (fst (service.UpdateTransaction now id req userID fl (mkDB txs vs))))
     = transactions (snd (fst (service.UpdateTransaction now id req userID fl (mkDB txs vs')))).
Proof.
  unfold service.UpdateTransaction.
  destruct (primitive.ObjectIDFromHex id) as [objectID|]; [|split; reflexivity].
  unfold bind, notFoundAs, FindOneTransaction, FindOneAndUpdate, bind, call.
  destruct fl as [|[|] [|[|] rest]]; cbn;
    destruct (txs !! objectID) as [t|]; cbn; try (split; reflexivity);
    destruct (negb (Transaction.SellerID t =? userID)%N
              && negb (Transaction.BuyerID t =? userID)%N); cbn;
    try (split; reflexivity);
    destruct (txs !! objectID); split; reflexivity.
Qed.

Lemma member_In s l : member s l = true <-> In s l.
Proof.
  induction l as [|x l IH]; cbn; [split; [discriminate | contradiction]|].
  destruct (String.eqb_spec s x) as [->|Hne].
  - split; auto.
  - rewrite IH. split; [auto | intros [E|H]; [congruence | exact H]].
Qed.

(** *** Create *)

Lemma vehicle_lookup vehicleID fl db :
  quiet 1 fl = true ->
  notFoundAs "vehicle not found" (FindOneVehicle vehicleID) fl db =
    (match vehicles db !! vehicleID with
     | Some v => Ok v
     | None => Err (New "vehicle not found")
     end, db, tl fl).
Proof.
  intros Hq. unfold notFoundAs. rewrite FindOneVehicle_quiet by assumption.
  destruct (vehicles db !! vehicleID); reflexivity.
Qed.

(** Once the identifiers, the amount, the currency and the payment method
    are well formed, all that is left of [Validate] is the payment details. *)
Lemma Validate_payment_details req vehicleID buyerID :
  primitive.ObjectIDFromHex (CreateTransactionRequest.VehicleID req) = Some vehicleID ->
  primitive.ObjectIDFromHex (CreateTransactionRequest.BuyerID req) = Some buyerID ->
  (CreateTransactionRequest.Amount req <=? 0)%float = false ->
  CreateTransactionRequest.Currency req <> EmptyString ->
  IsValidPaymentMethod (CreateTransactionRequest.PaymentMethod req) = true ->
  CreateTransactionRequest.InspectionID req = EmptyString
    \/ primitive.IsValidObjectID (CreateTransactionRequest.InspectionID req) = true ->
  CreateTransactionRequest_Validate req = validatePaymentDetails req.
Proof.
  intros Hv Hb Ha Hc Hm Hi. unfold CreateTransactionRequest_Validate.
  rewrite (ObjectIDFromHex_nonempty _ _ Hv), (ObjectIDFromHex_nonempty _ _ Hb).
  unfold primitive.IsValidObjectID at 1 2. rewrite Hv, Hb, Ha, Hm. cbn [negb].
  destruct (String.eqb_spec (CreateTransactionRequest.Currency req) EmptyString);
    [contradiction|].
  destruct (String.eqb_spec (CreateTransactionRequest.PaymentMethod req) EmptyString)
    as [E|_]; [rewrite E in Hm; discriminate|].
  destruct Hi as [-> | ->]; [reflexivity|].
  rewrite andb_false_r. reflexivity.
Qed.

(** ** The sample sale, end to end

    The seller lists the sale of an active vehicle of theirs for cash: it is
    created pending.  The seller completes it with reference TXN1: it is
    completed, the vehicle belongs to the buyer and is sold.  A Cancel after
    that is refused with 400 and changes nothing. *)
Example sample_sale :
  Transaction.Status <$>
    transactions
      (workflow.exec [workflow.Create 100 sample.txnID sample.cash_request
                        sample.sellerHex nil] sample.showroom) !! sample.txnID
    = Some TransactionStatusPending
  /\ Transaction.Status <$> transactions sample.after_sale !! sample.txnID
     = Some TransactionStatusCompleted
  /\ Vehicle.OwnerID <$> vehicles sample.after_sale !! sample.vehicleID
     = Some sample.buyer
  /\ Vehicle.Status <$> vehicles sample.after_sale !! sample.vehicleID
     = Some VehicleStatusSold
  /\ handlers.CancelTransaction 300 sample.txnHex EmptyString sample.sellerHex nil
       sample.after_sale
     = (handlers.mkResponse http.StatusBadRequest
          (handlers.JSONError "only pending transactions can be cancelled"),
        sample.after_sale).
Proof. repeat split; vm_compute; reflexivity. Qed.

(** ** The claims *)

(** C1, evaluated where the code departs from it.  The seller completes a
    pending sale; the lookup, the session and the write to the transaction
    go through, the write to the vehicle fails.  Complete reports the driver
    error, yet the transaction is stored as completed while the vehicle
    still belongs to the seller and is still active: the session runs no
    multi-document transaction, so nothing takes the first write back. *)
Theorem CompleteTransaction_partial_write :
  fst (run (service.CompleteTransaction 200 sample.txnHex sample.proof_of_payment
              sample.seller)
           [false; false; false; true] (sample.store TransactionStatusPending))
    = Err ErrDriver
  /\ transactions
       (snd (run (service.CompleteTransaction 200 sample.txnHex
                    sample.proof_of_payment sample.seller)
                 [false; false; false; true]
                 (sample.store TransactionStatusPending))) !! sample.txnID
     = Some (service.completeSet 200 sample.proof_of_payment
               (sample.sale TransactionStatusPending))
  /\ Transaction.Status
       (service.completeSet 200 sample.proof_of_payment
          (sample.sale TransactionStatusPending)) = TransactionStatusCompleted
  /\ vehicles
       (snd (run (service.CompleteTransaction 200 sample.txnHex
                    sample.proof_of_payment sample.seller)
                 [false; false; false; true]
                 (sample.store TransactionStatusPending))) !! sample.vehicleID
     = Some sample.corolla
  /\ Vehicle.OwnerID sample.corolla = sample.seller
  /\ Vehicle.Status sample.corolla = VehicleStatusActive.
Proof. vm_compute. repeat split; reflexivity. Qed.




(** C3.  On an existing pending transaction whose lookup goes through:
    Complete by anybody but the seller is refused with the forbidden error
    and writes nothing; Cancel by anybody but the seller or the buyer
    likewise; a Complete that succeeds was called by the seller, a Cancel
    that succeeds by the seller or the buyer; and on a healthy store the
    seller's Complete and either party's Cancel do succeed. *)
Theorem only_the_parties_transition
    now id objectID req notes userID (fl : Faults) db t :
  primitive.ObjectIDFromHex id = Some objectID ->
  transactions db !! objectID = Some t ->
  Transaction.Status t = TransactionStatusPending ->
  quiet 1 fl = true ->
  (Transaction.SellerID t <> userID ->
     run (service.CompleteTransaction now id req userID) fl db =
       (Err (New "only the seller can complete this transaction"), db))
  /\ (Transaction.SellerID t <> userID -> Transaction.BuyerID t <> userID ->
      run (service.CancelTransaction now id notes userID) fl db =
        (Err (New "you are not authorized to cancel this transaction"), db))
  /\ handlers.completeStatus "only the seller can complete this transaction"
       = http.StatusForbidden
  /\ handlers.cancelStatus "you are not authorized to cancel this transaction"
       = http.StatusForbidden
  /\ (forall t', fst (run (service.CompleteTransaction now id req userID) fl db) = Ok t' ->
      Transaction.SellerID t = userID)
  /\ (forall t', fst (run (service.CancelTransaction now id notes userID) fl db) = Ok t' ->
      Transaction.SellerID t = userID \/ Transaction.BuyerID t = userID)
  /\ (quiet 4 fl = true -> Transaction.SellerID t = userID ->
      exists t', fst (run (service.CompleteTransaction now id req userID) fl db) = Ok t')
  /\ (quiet 2 fl = true ->
      Transaction.SellerID t = userID \/ Transaction.BuyerID t = userID ->
      exists t', fst (run (service.CancelTransaction now id notes userID) fl db) = Ok t').
Proof.
  intros Hid Ht Hp Hq.
  split; [|split; [|split; [|split; [|split; [|split; [|split]]]]]].
  - intros Hs. apply run_eq with (fl' := tl fl).
    eapply CompleteTransaction_not_seller; eauto.
  - intros Hs Hb. apply run_eq with (fl' := tl fl).
    eapply CancelTransaction_not_party; eauto.
  - reflexivity.
  - reflexivity.
  - intros t' Hok. rewrite run_fst in Hok.
    destruct (CompleteTransaction_ok_inv _ _ _ _ _ _ _ Hok) as (o & t0 & Ho & Ht0 & Hs & _).
    congruence.
  - intros t' Hok. rewrite run_fst in Hok.
    destruct (CancelTransaction_ok_inv _ _ _ _ _ _ _ Hok) as (o & t0 & Ho & Ht0 & Hs & _).
    congruence.
  - intros Hq4 Hs. eexists. rewrite run_fst.
    erewrite CompleteTransaction_done by eauto. reflexivity.
  - intros Hq2 Hparty. eexists. rewrite run_fst.
    erewrite CancelTransaction_done by eauto. reflexivity.
Qed.

Lemma only_the_parties_transition_witness :
  run (service.CompleteTransaction 200 sample.txnHex sample.proof_of_payment
         sample.buyer) nil (sample.store TransactionStatusPending)
    = (Err (New "only the seller can complete this transaction"),
       sample.store TransactionStatusPending)
  /\ run (service.CancelTransaction 200 sample.txnHex EmptyString sample.stranger)
       nil (sample.store TransactionStatusPending)
     = (Err (New "you are not authorized to cancel this transaction"),
        sample.store TransactionStatusPending).
Proof.
  destruct (only_the_parties_transition 200 sample.txnHex sample.txnID
              sample.proof_of_payment EmptyString sample.buyer nil
              (sample.store TransactionStatusPending)
              (sample.sale TransactionStatusPending)
              eq_refl eq_refl eq_refl eq_refl) as (Hcomplete & _).
  destruct (only_the_parties_transition 200 sample.txnHex sample.txnID
              sample.proof_of_payment EmptyString sample.stranger nil
              (sample.store TransactionStatusPending)
              (sample.sale TransactionStatusPending)
              eq_refl eq_refl eq_refl eq_refl) as (_ & Hcancel & _).
  split.
  - apply Hcomplete. discriminate.
  - apply Hcancel; discriminate.
Defined.

(** C4 (as amended).  For a Create request whose identifiers, amount,
    currency and payment method are well formed, and whose vehicle lookup
    goes through, the checks are made in this order: the payment details
    (part of request validation, before the store is consulted), the vehicle
    exists, the caller owns it, it is active, the buyer is not the seller.
    The first violated check decides the error of the answer and nothing is
    written: 400 for the payment details, the text "vehicle not found" for
    an absent vehicle, 403 for a vehicle of somebody else, 400 for a vehicle
    not for sale and for self-dealing.  The status that goes with "vehicle
    not found" is not part of the statement.  When no check is violated and
    the insert goes through, the answer is 201 with the new pending
    transaction. *)
Theorem CreateTransaction_checks_in_order
    now newID req userIDStr vehicleID buyerID sellerID (fl : Faults) db :
  primitive.ObjectIDFromHex (CreateTransactionRequest.VehicleID req) = Some vehicleID ->
  primitive.ObjectIDFromHex (CreateTransactionRequest.BuyerID req) = Some buyerID ->
  primitive.ObjectIDFromHex userIDStr = Some sellerID ->
  (CreateTransactionRequest.Amount req <=? 0)%float = false ->
  CreateTransactionRequest.Currency req <> EmptyString ->
  IsValidPaymentMethod (CreateTransactionRequest.PaymentMethod req) = true ->
  CreateTransactionRequest.InspectionID req = EmptyString
    \/ primitive.IsValidObjectID (CreateTransactionRequest.InspectionID req) = true ->
  quiet 1 fl = true ->
  match spec.Create_checks db req vehicleID buyerID sellerID with
  | Some (Some status, msg) =>
      handlers.CreateTransaction now newID req userIDStr fl db =
        (handlers.mkResponse status (handlers.JSONError msg), db)
  | Some (None, msg) =>
      handlers.body (fst (handlers.CreateTransaction now newID req userIDStr fl db))
        = handlers.JSONError msg
      /\ snd (handlers.CreateTransaction now newID req userIDStr fl db) = db
  | None =>
      quiet 2 fl = true -> transactions db !! newID = None ->
      exists t,
        handlers.CreateTransaction now newID req userIDStr fl db =
          (handlers.mkResponse http.StatusCreated (handlers.JSONTransaction t),
           mkDB (<[newID := t]> (transactions db)) (vehicles db))
        /\ Transaction.Status t = TransactionStatusPending
        /\ Transaction.ID t = newID
        /\ Transaction.VehicleID t = vehicleID
        /\ Transaction.SellerID t = sellerID
        /\ Transaction.BuyerID t = buyerID
  end.
Proof.
  intros Hv Hb Hu Ha Hc Hm Hi Hq.
  unfold handlers.CreateTransaction, spec.Create_checks.
  rewrite (Validate_payment_details req vehicleID buyerID) by assumption.
  destruct (validatePaymentDetails req) as [err|]; [reflexivity|].
  rewrite (withUser_parsed _ _ _ Hu).
  unfold service.CreateTransaction. rewrite Hv, Hb.
  pose proof (vehicle_lookup vehicleID fl db Hq) as Hlook.
  destruct (vehicles db !! vehicleID) as [vehicle|].
  2:{ erewrite serve_eq by (apply bind_err; exact Hlook). split; reflexivity. }
  destruct (negb (Vehicle.OwnerID vehicle =? sellerID)%N) eqn:Eo.
  { erewrite serve_eq by (erewrite bind_ok by exact Hlook; rewrite ?Eo; reflexivity).
    reflexivity. }
  destruct (negb (String.eqb (Vehicle.Status vehicle) VehicleStatusActive)) eqn:Es.
  { erewrite serve_eq by (erewrite bind_ok by exact Hlook; rewrite ?Eo, ?Es; reflexivity).
    reflexivity. }
  destruct (buyerID =? sellerID)%N eqn:Eb.
  { erewrite serve_eq
      by (erewrite bind_ok by exact Hlook; rewrite ?Eo, ?Es, ?Eb; reflexivity).
    reflexivity. }
  intros Hq2 Hfresh.
  pose proof (quiet_tl _ _ Hq2) as Hq1.
  assert (Hinsert : forall doc : N -> Transaction.t,
    (do insertedID <- InsertOne newID doc; ret (doc insertedID)) (tl fl) db =
      (Ok (doc newID),
       mkDB (<[newID := doc newID]> (transactions db)) (vehicles db), tl (tl fl))).
  { intros doc. erewrite bind_ok by (apply InsertOne_quiet; assumption). reflexivity. }
  assert (Hdoc : forall inspectionID,
    let doc :=
      if String.eqb (CreateTransactionRequest.PaymentMethod req) PaymentMethodFinancing
      then fun id => service.calculateFinancingDetails
             (service.newTransaction now req vehicleID sellerID buyerID inspectionID id)
      else service.newTransaction now req vehicleID sellerID buyerID inspectionID in
    Transaction.Status (doc newID) = TransactionStatusPending
    /\ Transaction.ID (doc newID) = newID
    /\ Transaction.VehicleID (doc newID) = vehicleID
    /\ Transaction.SellerID (doc newID) = sellerID
    /\ Transaction.BuyerID (doc newID) = buyerID).
  { intros inspectionID. cbv zeta.
    destruct (String.eqb (CreateTransactionRequest.PaymentMethod req) PaymentMethodFinancing);
      repeat split. }
  destruct (negb (String.eqb (CreateTransactionRequest.InspectionID req) EmptyString)) eqn:Ei.
  - assert (Hparse : exists i,
      primitive.ObjectIDFromHex (CreateTransactionRequest.InspectionID req) = Some i).
    { destruct Hi as [Hi|Hi]; [rewrite Hi in Ei; discriminate|].
      unfold primitive.IsValidObjectID in Hi.
      destruct (primitive.ObjectIDFromHex (CreateTransactionRequest.InspectionID req)) as [i|];
        [eauto | discriminate]. }
    destruct Hparse as [i Hparse].
    eexists. split; [|apply (Hdoc (Some i))].
    erewrite serve_eq
      by (erewrite bind_ok by exact Hlook; rewrite ?Eo, ?Es, ?Eb, ?Ei, ?Hparse; apply Hinsert).
    reflexivity.
  - eexists. split; [|apply (Hdoc None)].
    erewrite serve_eq
      by (erewrite bind_ok by exact Hlook; rewrite ?Eo, ?Es, ?Eb, ?Ei; apply Hinsert).
    reflexivity.
Qed.

Lemma CreateTransaction_checks_in_order_witness :
  handlers.CreateTransaction 100 sample.txnID sample.bad_financing_request
    sample.sellerHex nil (sample.store TransactionStatusPending)
  = (handlers.mkResponse http.StatusBadRequest
       (handlers.JSONError "downPayment is required for financing"),
     sample.store TransactionStatusPending).
Proof.
  refine (CreateTransaction_checks_in_order 100 sample.txnID
            sample.bad_financing_request sample.sellerHex 255%N sample.buyer
            sample.seller nil (sample.store TransactionStatusPending)
            eq_refl eq_refl eq_refl eq_refl _ eq_refl _ eq_refl).
  - discriminate.
  - left. reflexivity.
Defined.

(** C4, the counterexample.  A financing request with no down payment names
    a vehicle that is not in the store.  By the stated order the first
    violated check is the existence of the vehicle, a not-found error; the
    handler answers 400 for the down payment. *)
Lemma payment_details_checked_first :
  handlers.CreateTransaction 100 sample.txnID sample.bad_financing_request
    sample.sellerHex nil (sample.store TransactionStatusPending)
  = (handlers.mkResponse http.StatusBadRequest
       (handlers.JSONError "downPayment is required for financing"),
     sample.store TransactionStatusPending)
  /\ spec.Create_checks_as_stated (sample.store TransactionStatusPending)
       sample.bad_financing_request 255%N sample.buyer sample.seller
     = Some http.StatusNotFound
  /\ http.StatusBadRequest <> http.StatusNotFound.
Proof.
  split; [vm_compute; reflexivity|].
  split; [vm_compute; reflexivity | discriminate].
Qed.

(** One rejecting branch of [validatePaymentDetails]: its condition is one
    of the four disjuncts for financing. *)
Ltac rejected :=
  split; [intros _; left; split; [assumption | auto] | intros _; discriminate].

(** C5.  [validatePaymentDetails] rejects a request exactly when the payment
    method is financing and the down payment is at most 0, or at least the
    amount, or the term is at most 0, or the interest rate is below 0; or
    when the payment method is bank transfer and the bank name is empty. *)
Theorem validatePaymentDetails_rejects_iff (r : CreateTransactionRequest.t) :
  validatePaymentDetails r <> None <->
    (CreateTransactionRequest.PaymentMethod r = PaymentMethodFinancing
     /\ ((PaymentDetails.DownPayment (CreateTransactionRequest.PaymentDetails r) <=? 0)%float = true
         \/ (CreateTransactionRequest.Amount r
               <=? PaymentDetails.DownPayment (CreateTransactionRequest.PaymentDetails r))%float = true
         \/ PaymentDetails.FinancingTerms (CreateTransactionRequest.PaymentDetails r) <= 0
         \/ (PaymentDetails.InterestRate (CreateTransactionRequest.PaymentDetails r) <? 0)%float = true))
    \/ (CreateTransactionRequest.PaymentMethod r = PaymentMethodBankTransfer
        /\ PaymentDetails.BankName (CreateTransactionRequest.PaymentDetails r) = EmptyString).
Proof.
  unfold validatePaymentDetails.
  destruct (String.eqb_spec (CreateTransactionRequest.PaymentMethod r) PaymentMethodFinancing) as [Hf|Hf].
  - assert (Hb : CreateTransactionRequest.PaymentMethod r <> PaymentMethodBankTransfer)
      by (rewrite Hf; discriminate).
    destruct (PaymentDetails.DownPayment _ <=? 0)%float eqn:E1; [rejected|].
    destruct (CreateTransactionRequest.Amount r <=? _)%float eqn:E2; [rejected|].
    destruct (Z.leb_spec (PaymentDetails.FinancingTerms (CreateTransactionRequest.PaymentDetails r)) 0)
      as [E3|E3]; [rejected|].
    destruct (PaymentDetails.InterestRate _ <? 0)%float eqn:E4; [rejected|].
    split; [congruence|].
    intros [[_ [H|[H|[H|H]]]]|[H _]]; try discriminate; try lia; congruence.
  - destruct (String.eqb_spec (CreateTransactionRequest.PaymentMethod r) PaymentMethodBankTransfer) as [Hb|Hb].
    + destruct (String.eqb_spec (PaymentDetails.BankName (CreateTransactionRequest.PaymentDetails r)) EmptyString)
        as [Hn|Hn].
      * split; [intros _; right; split; assumption | intros _; discriminate].
      * split; [congruence|]. intros [[H _]|[_ H]]; congruence.
    + split; [congruence|]. intros [[H _]|[H _]]; congruence.
Qed.

(** C6.  [calculateFinancingDetails] is a function of the transaction alone.
    The financed amount is amount - downPayment.  With P the financed
    amount, r = rate / 100 / 12 and n the term in months (positive and
    exactly representable), the monthly payment is P * [r (1+r)^n] /
    [(1+r)^n - 1] when r > 0, and P / n otherwise, in particular when r = 0,
    where the divisor n is not zero.  The two sample computations: 30000
    with 10000 down over 60 months at 3.5 percent finances 20000; 12000 over
    12 months at rate 0 costs 1000 a month. *)
Theorem calculateFinancingDetails_amortizes :
  (forall txn : Transaction.t,
     0 < PaymentDetails.FinancingTerms (Transaction.PaymentDetails txn) < 2 ^ 53 ->
     PaymentDetails.FinancedAmount
       (Transaction.PaymentDetails (service.calculateFinancingDetails txn))
     = (Transaction.Amount txn
        - PaymentDetails.DownPayment (Transaction.PaymentDetails txn))%float
     /\ ((0 <? PaymentDetails.InterestRate (Transaction.PaymentDetails txn) / 100 / 12)%float
           = true ->
         PaymentDetails.MonthlyPayment
           (Transaction.PaymentDetails (service.calculateFinancingDetails txn))
         = spec.amortized
             (Transaction.Amount txn
              - PaymentDetails.DownPayment (Transaction.PaymentDetails txn))%float
             (PaymentDetails.InterestRate (Transaction.PaymentDetails txn) / 100 / 12)%float
             (Z.to_nat (PaymentDetails.FinancingTerms (Transaction.PaymentDetails txn))))
     /\ ((0 <? PaymentDetails.InterestRate (Transaction.PaymentDetails txn) / 100 / 12)%float
           = false ->
         PaymentDetails.MonthlyPayment
           (Transaction.PaymentDetails (service.calculateFinancingDetails txn))
         = ((Transaction.Amount txn
             - PaymentDetails.DownPayment (Transaction.PaymentDetails txn))
            / conv.float64_of_int
                (PaymentDetails.FinancingTerms (Transaction.PaymentDetails txn)))%float)
     /\ ((PaymentDetails.InterestRate (Transaction.PaymentDetails txn) / 100 / 12 =? 0)%float
           = true ->
         (0 <? PaymentDetails.InterestRate (Transaction.PaymentDetails txn) / 100 / 12)%float
           = false)
     /\ (conv.float64_of_int
           (PaymentDetails.FinancingTerms (Transaction.PaymentDetails txn)) =? 0)%float
        = false)
  /\ PaymentDetails.FinancedAmount
       (Transaction.PaymentDetails
          (service.calculateFinancingDetails sample.financed_sale)) = 20000%float
  /\ PaymentDetails.MonthlyPayment
       (Transaction.PaymentDetails
          (service.calculateFinancingDetails sample.interest_free_sale)) = 1000%float.
Proof.
  split; [|split; reflexivity].
  intros txn Hn. split; [reflexivity|]. split; [|split; [|split]].
  - intros Hr. cbn [service.calculateFinancingDetails Transaction.PaymentDetails
                      PaymentDetails.MonthlyPayment].
    rewrite Hr. unfold spec.amortized. rewrite pow_power by lia. reflexivity.
  - intros Hr. cbn [service.calculateFinancingDetails Transaction.PaymentDetails
                      PaymentDetails.MonthlyPayment].
    rewrite Hr. reflexivity.
  - apply zero_rate_not_positive.
  - apply float64_of_int_nonzero. exact Hn.
Qed.

Lemma calculateFinancingDetails_amortizes_witness :
  PaymentDetails.FinancedAmount
    (Transaction.PaymentDetails (service.calculateFinancingDetails sample.financed_sale))
  = (30000 - 10000)%float
  /\ PaymentDetails.MonthlyPayment
       (Transaction.PaymentDetails (service.calculateFinancingDetails sample.financed_sale))
     = spec.amortized (30000 - 10000)%float (3.5 / 100 / 12)%float 60.
Proof.
  destruct (proj1 calculateFinancingDetails_amortizes sample.financed_sale)
    as (Hfinanced & Hpositive & _).
  - cbn. lia.
  - split; [exact Hfinanced | apply Hpositive; reflexivity].
Defined.

(** C7.  Whenever Cancel succeeds, the transaction it returns is the stored
    one, it was pending before, its status is now cancelled and cancelledAt
    is the time of the call; the vehicles collection is what it was, so the
    referenced vehicle keeps its owner and its status. *)
Theorem Cancel_leaves_the_vehicle now id notes userID (fl : Faults) db t' :
  fst (run (service.CancelTransaction now id notes userID) fl db) = Ok t' ->
  Transaction.Status t' = TransactionStatusCancelled
  /\ Transaction.CancelledAt t' = Some now
  /\ (exists objectID t,
        primitive.ObjectIDFromHex id = Some objectID
        /\ transactions db !! objectID = Some t
        /\ Transaction.Status t = TransactionStatusPending
        /\ Transaction.VehicleID t' = Transaction.VehicleID t
        /\ transactions (snd (run (service.CancelTransaction now id notes userID) fl db))
             !! objectID = Some t')
  /\ vehicles (snd (run (service.CancelTransaction now id notes userID) fl db))
     = vehicles db.
Proof.
  intros Hok. rewrite run_fst in Hok. rewrite run_snd.
  destruct (CancelTransaction_ok _ _ _ _ _ _ _ Hok)
    as (objectID & t & Hid & Ht & Hp & -> & Hdb).
  rewrite Hdb. cbn [vehicles transactions].
  repeat split.
  exists objectID, t. repeat split; try assumption.
  apply lookup_insert_eq.
Qed.

Lemma Cancel_leaves_the_vehicle_witness :
  Transaction.Status
    (service.cancelSet 200 "changed my mind" (sample.sale TransactionStatusPending))
    = TransactionStatusCancelled
  /\ vehicles
       (snd (run (service.CancelTransaction 200 sample.txnHex "changed my mind"
                    sample.buyer) nil (sample.store TransactionStatusPending)))
     = vehicles (sample.store TransactionStatusPending).
Proof.
  destruct (Cancel_leaves_the_vehicle 200 sample.txnHex "changed my mind"
              sample.buyer nil (sample.store TransactionStatusPending)
              (service.cancelSet 200 "changed my mind"
                 (sample.sale TransactionStatusPending)) eq_refl)
    as (Hstatus & _ & _ & Hvehicles).
  split; [exact Hstatus | exact Hvehicles].
Defined.

(** C8 (as amended).  The status [failed] is never written by Create, Complete
    or Cancel: along any sequence of requests in which no Update asks for the
    status [failed], a store without a failed transaction stays without one.
    Update itself writes whatever valid status it is given, [failed]
    included. *)
Theorem failed_only_by_Update (cs : list workflow.Call) (db : DB) :
  Forall (fun c => workflow.requested_status c <> TransactionStatusFailed) cs ->
  spec.all_status (fun status => status <> TransactionStatusFailed) db ->
  spec.all_status (fun status => status <> TransactionStatusFailed) (workflow.exec cs db).
Proof.
  intros Hcs. apply exec_all_status; try discriminate.
  eapply Forall_impl; [exact Hcs|]. intros c Hc. right. exact Hc.
Qed.

Lemma failed_only_by_Update_witness :
  spec.all_status (fun status => status <> TransactionStatusFailed)
    (workflow.exec
       [workflow.Create 100 sample.txnID sample.cash_request sample.sellerHex nil;
        workflow.Update 150 sample.txnHex sample.mark_completed sample.buyerHex nil;
        workflow.Cancel 200 sample.txnHex EmptyString sample.sellerHex nil]
       sample.showroom).
Proof.
  apply failed_only_by_Update.
  - repeat constructor; discriminate.
  - intros id t. cbn. rewrite lookup_empty. discriminate.
Defined.

(** C8, the counterexample: the seller creates a transaction and then asks
    Update for the status [failed]; the request passes validation and the
    stored status is [failed]. *)
Lemma Update_writes_failed :
  Transaction.Status <$>
    transactions
      (workflow.exec
         [workflow.Create 100 sample.txnID sample.cash_request sample.sellerHex nil;
          workflow.Update 200 sample.txnHex sample.mark_failed sample.sellerHex nil]
         sample.showroom) !! sample.txnID
  = Some TransactionStatusFailed.
Proof. vm_compute. reflexivity. Qed.

(** C9.  The seller completes a pending transaction whose vehicle is not in
    the vehicles collection.  On a healthy store the answer is 200 with the
    completed transaction, which is stored; the vehicle update matches no
    document, raises no error, and the vehicles collection is unchanged: no
    vehicle was transferred. *)
Theorem Complete_without_vehicle
    now id objectID req userIDStr userID (fl : Faults) db t :
  primitive.ObjectIDFromHex id = Some objectID ->
  transactions db !! objectID = Some t ->
  primitive.ObjectIDFromHex userIDStr = Some userID ->
  Transaction.SellerID t = userID ->
  Transaction.Status t = TransactionStatusPending ->
  CompleteTransactionRequest.TransactionReference req <> EmptyString ->
  vehicles db !! Transaction.VehicleID t = None ->
  quiet 4 fl = true ->
  run (service.CompleteTransaction now id req userID) fl db =
    (Ok (service.completeSet now req t),
     mkDB (<[objectID := service.completeSet now req t]> (transactions db)) (vehicles db))
  /\ handlers.CompleteTransaction now id req userIDStr fl db =
       (handlers.mkResponse http.StatusOK
          (handlers.JSONTransaction (service.completeSet now req t)),
        mkDB (<[objectID := service.completeSet now req t]> (transactions db))
          (vehicles db))
  /\ Transaction.Status (service.completeSet now req t) = TransactionStatusCompleted
  /\ UpdateOne (Transaction.VehicleID t)
       (service.vehicleSet now (Transaction.BuyerID t)) nil db = (Ok 0%N, db, nil).
Proof.
  intros Hid Ht Huser Hs Hp Href Hv Hq.
  pose proof (CompleteTransaction_done now id objectID userID fl db t Hid Ht req Hq Hs Hp)
    as Hdone.
  rewrite Hv in Hdone.
  split; [exact (run_eq _ _ _ _ _ _ Hdone)|].
  split; [|split; [reflexivity|]].
  - unfold handlers.CompleteTransaction, CompleteTransactionRequest_Validate.
    destruct (String.eqb_spec (CompleteTransactionRequest.TransactionReference req) EmptyString);
      [contradiction|].
    rewrite (withUser_parsed _ _ _ Huser).
    rewrite (serve_eq _ _ _ _ _ _ _ _ Hdone). reflexivity.
  - rewrite UpdateOne_quiet by reflexivity. rewrite Hv. reflexivity.
Qed.

Lemma Complete_without_vehicle_witness :
  handlers.CompleteTransaction 200 sample.txnHex sample.proof_of_payment
    sample.sellerHex nil sample.storeWithoutVehicle
  = (handlers.mkResponse http.StatusOK
       (handlers.JSONTransaction
          (service.completeSet 200 sample.proof_of_payment
             (sample.sale TransactionStatusPending))),
     mkDB (<[sample.txnID := service.completeSet 200 sample.proof_of_payment
                               (sample.sale TransactionStatusPending)]>
             (transactions sample.storeWithoutVehicle))
          (vehicles sample.storeWithoutVehicle)).
Proof.
  refine (proj1 (proj2 (Complete_without_vehicle 200 sample.txnHex sample.txnID
            sample.proof_of_payment sample.sellerHex sample.seller nil
            sample.storeWithoutVehicle (sample.sale TransactionStatusPending)
            eq_refl eq_refl eq_refl eq_refl eq_refl _ eq_refl eq_refl))).
  discriminate.
Defined.

(** C10.  Update neither writes nor reads the vehicles collection: for every
    request, caller and fault plan the vehicles are what they were, and the
    answer and the stored transactions do not depend on them.  Validation
    lets through exactly an empty status or one of pending, completed,
    cancelled, failed.  So when the seller or the buyer asks for the status
    completed, on a healthy store the answer is 200, the stored transaction
    is completed, and the vehicle has not moved. *)
Theorem Update_never_touches_the_vehicle :
  (forall now id req userIDStr (fl : Faults) db,
     vehicles (snd (handlers.UpdateTransaction now id req userIDStr fl db)) = vehicles db)
  /\ (forall now id req userIDStr (fl : Faults) txs vs vs',
        fst (handlers.UpdateTransaction now id req userIDStr fl (mkDB txs vs))
          = fst (handlers.UpdateTransaction now id req userIDStr fl (mkDB txs vs'))
        /\ transactions (snd (handlers.UpdateTransaction now id req userIDStr fl (mkDB txs vs)))
           = transactions (snd (handlers.UpdateTransaction now id req userIDStr fl (mkDB txs vs'))))
  /\ (forall req,
        UpdateTransactionRequest_Validate req = None <->
        In (UpdateTransactionRequest.Status req)
           [EmptyString; TransactionStatusPending; TransactionStatusCompleted;
            TransactionStatusCancelled; TransactionStatusFailed])
  /\ (forall now id objectID req userIDStr userID (fl : Faults) db t,
        primitive.ObjectIDFromHex id = Some objectID ->
        transactions db !! objectID = Some t ->
        primitive.ObjectIDFromHex userIDStr = Some userID ->
        Transaction.SellerID t = userID \/ Transaction.BuyerID t = userID ->
        UpdateTransactionRequest.Status req = TransactionStatusCompleted ->
        quiet 2 fl = true ->
        handlers.UpdateTransaction now id req userIDStr fl db =
          (handlers.mkResponse http.StatusOK
             (handlers.JSONTransaction (service.updateSet now req t)),
           mkDB (<[objectID := service.updateSet now req t]> (transactions db))
             (vehicles db))
        /\ Transaction.Status (service.updateSet now req t) = TransactionStatusCompleted).
Proof.
  split; [|split; [|split]].
  - intros now id req userIDStr fl db. unfold handlers.UpdateTransaction.
    destruct (UpdateTransactionRequest_Validate req); [reflexivity|].
    apply (withUser_preserves (fun d => vehicles d = vehicles db)); [|reflexivity].
    intros userID. apply serve_preserves, UpdateTransaction_vehicles.
  - intros now id req userIDStr fl txs vs vs'. unfold handlers.UpdateTransaction.
    destruct (UpdateTransactionRequest_Validate req); [split; reflexivity|].
    unfold handlers.withUser.
    destruct (String.eqb userIDStr EmptyString); [split; reflexivity|].
    destruct (primitive.ObjectIDFromHex userIDStr) as [userID|]; [|split; reflexivity].
    unfold handlers.serve.
    destruct (UpdateTransaction_ignores_vehicles now id req userID fl txs vs vs')
      as [Hr Ht].
    rewrite <- !run_fst in Hr. rewrite <- !run_snd in Ht.
    destruct (run _ fl (mkDB txs vs)) as [r1 d1], (run _ fl (mkDB txs vs')) as [r2 d2].
    cbn in Hr, Ht. subst r2. destruct r1; split; cbn; auto.
  - intros req. unfold UpdateTransactionRequest_Validate, IsValidTransactionStatus.
    destruct (String.eqb_spec (UpdateTransactionRequest.Status req) EmptyString) as [E|E]; cbn [negb andb].
    + split; [intros _; left; auto | reflexivity].
    + destruct (member _ _) eqn:Hm; cbn [negb].
      * apply member_In in Hm. split; [intros _; right; exact Hm | reflexivity].
      * split; [discriminate|]. intros [H|H]; [congruence|].
        apply member_In in H. congruence.
  - intros now id objectID req userIDStr userID fl db t Hid Ht Huser Hparty Hreq Hq.
    pose proof (UpdateTransaction_done now id objectID userID fl db t Hid Ht req Hq Hparty)
      as Hdone.
    split.
    + assert (Hv : UpdateTransactionRequest_Validate req = None)
        by (unfold UpdateTransactionRequest_Validate; rewrite Hreq; reflexivity).
      unfold handlers.UpdateTransaction.
      rewrite Hv, (withUser_parsed _ _ _ Huser).
      rewrite (serve_eq _ _ _ _ _ _ _ _ Hdone). reflexivity.
    + cbn. rewrite Hreq. reflexivity.
Qed.

Lemma Update_never_touches_the_vehicle_witness :
  handlers.UpdateTransaction 200 sample.txnHex sample.mark_completed sample.buyerHex
    nil (sample.store TransactionStatusPending)
  = (handlers.mkResponse http.StatusOK
       (handlers.JSONTransaction
          (service.updateSet 200 sample.mark_completed
             (sample.sale TransactionStatusPending))),
     mkDB (<[sample.txnID := service.updateSet 200 sample.mark_completed
                               (sample.sale TransactionStatusPending)]>
             (transactions (sample.store TransactionStatusPending)))
          (vehicles (sample.store TransactionStatusPending)))
  /\ Transaction.Status
       (service.updateSet 200 sample.mark_completed
          (sample.sale TransactionStatusPending)) = TransactionStatusCompleted.
Proof.
  refine (proj2 (proj2 (proj2 Update_never_touches_the_vehicle))
            200 sample.txnHex sample.txnID sample.mark_completed sample.buyerHex
            sample.buyer nil (sample.store TransactionStatusPending)
            (sample.sale TransactionStatusPending)
            eq_refl eq_refl eq_refl _ eq_refl eq_refl).
  right. reflexivity.
Defined.

(** * More of the transaction service *)

Import effects.

(** ** Effects through the monad *)

Section Effects.
Context {A B : Type}.

Lemma readonly_preserves (m : M A) :
  readonly m <-> forall I, preserves I m.
Proof.
  split.
  - intros Hr I fl db HI. rewrite Hr. exact HI.
  - intros Hp fl db. exact (Hp (fun d => d = db) fl db eq_refl).
Qed.

Lemma readonly_call : readonly call.
Proof. intros fl db. apply call_db. Qed.

Lemma readonly_ret (a : A) : readonly (ret a).
Proof. intros fl db. reflexivity. Qed.

Lemma readonly_fail e : readonly (@fail A e).
Proof. intros fl db. reflexivity. Qed.

Lemma readonly_bind (m : M A) (k : A -> M B) :
  readonly m -> (forall a, readonly (k a)) -> readonly (bind m k).
Proof.
  intros Hm Hk fl db. unfold bind. specialize (Hm fl db).
  destruct (m fl db) as [[[a|e] db'] fl']; cbn in *; subst db'; [apply Hk | reflexivity].
Qed.

Lemma readonly_notFoundAs msg (m : M A) : readonly m -> readonly (notFoundAs msg m).
Proof.
  intros Hm fl db. unfold notFoundAs. specialize (Hm fl db).
  destruct (m fl db) as [[[a|[]] db'] fl']; exact Hm.
Qed.

Lemma all_or_nothing_readonly (m : M A) : readonly m -> all_or_nothing m.
Proof. intros Hm fl db e _. apply Hm. Qed.

(** Reads first, then one step that is all or nothing. *)
Lemma all_or_nothing_bind (m : M A) (k : A -> M B) :
  readonly m -> (forall a, all_or_nothing (k a)) -> all_or_nothing (bind m k).
Proof.
  intros Hm Hk fl db e. unfold bind. specialize (Hm fl db).
  destruct (m fl db) as [[[a|e'] db'] fl']; cbn in *; subst db'; [apply Hk | reflexivity].
Qed.

(** One step that is all or nothing, then a pure result. *)
Lemma all_or_nothing_then_ret (m : M A) (f : A -> B) :
  all_or_nothing m -> all_or_nothing (bind m (fun a => ret (f a))).
Proof.
  intros Hm fl db e. unfold bind, ret. specialize (Hm fl db).
  destruct (m fl db) as [[[a|e'] db'] fl']; cbn in *; [discriminate | eauto].
Qed.

End Effects.

Lemma readonly_FindOneTransaction id : readonly (FindOneTransaction id).
Proof. apply readonly_preserves. intros I. apply preserves_FindOneTransaction. Qed.

Lemma readonly_FindOneVehicle id : readonly (FindOneVehicle id).
Proof. apply readonly_preserves. intros I. apply preserves_FindOneVehicle. Qed.

Lemma all_or_nothing_FindOneAndUpdate id set :
  all_or_nothing (FindOneAndUpdate id set).
Proof.
  intros fl db e. unfold FindOneAndUpdate, bind, call.
  destruct fl as [|[|] rest]; cbn; destruct (transactions db !! id); cbn;
    try discriminate; reflexivity.
Qed.

Lemma all_or_nothing_InsertOne newID doc : all_or_nothing (InsertOne newID doc).
Proof.
  intros fl db e. unfold InsertOne, bind, call.
  destruct fl as [|[|] rest]; cbn; destruct (transactions db !! newID); cbn;
    try discriminate; reflexivity.
Qed.

Create HintDb effects.

#[local] Hint Resolve readonly_call readonly_ret readonly_fail readonly_bind
  readonly_notFoundAs readonly_FindOneTransaction readonly_FindOneVehicle
  all_or_nothing_readonly all_or_nothing_FindOneAndUpdate
  all_or_nothing_InsertOne : effects.

(** *** Create, Update and Cancel either succeed or write nothing *)

Lemma CreateTransaction_all_or_nothing now newID req sellerID :
  all_or_nothing (service.CreateTransaction now newID req sellerID).
Proof.
  unfold service.CreateTransaction.
  destruct (primitive.ObjectIDFromHex (CreateTransactionRequest.VehicleID req));
    [|auto with effects].
  destruct (primitive.ObjectIDFromHex (CreateTransactionRequest.BuyerID req));
    [|auto with effects].
  apply all_or_nothing_bind; [auto with effects|]. intros vehicle.
  destruct (negb (Vehicle.OwnerID vehicle =? sellerID)%N); [auto with effects|].
  destruct (negb (String.eqb (Vehicle.Status vehicle) VehicleStatusActive));
    [auto with effects|].
  destruct (_ =? sellerID)%N; [auto with effects|].
  destruct (negb (String.eqb (CreateTransactionRequest.InspectionID req) EmptyString)).
  - destruct (primitive.ObjectIDFromHex (CreateTransactionRequest.InspectionID req));
      [|auto with effects].
    apply all_or_nothing_then_ret. auto with effects.
  - apply all_or_nothing_then_ret. auto with effects.
Qed.

Lemma UpdateTransaction_all_or_nothing now id req userID :
  all_or_nothing (service.UpdateTransaction now id req userID).
Proof.
  unfold service.UpdateTransaction.
  destruct (primitive.ObjectIDFromHex id); [|auto with effects].
  apply all_or_nothing_bind; [auto with effects|]. intros t.
  destruct (_ && _); auto with effects.
Qed.

Lemma CancelTransaction_all_or_nothing now id notes userID :
  all_or_nothing (service.CancelTransaction now id notes userID).
Proof.
  unfold service.CancelTransaction.
  destruct (primitive.ObjectIDFromHex id); [|auto with effects].
  apply all_or_nothing_bind; [auto with effects|]. intros t.
  destruct (_ && _); [auto with effects|].
  destruct (negb _); auto with effects.
Qed.

Lemma serve_all_or_nothing m success status fl db msg :
  all_or_nothing m ->
  handlers.body (fst (handlers.serve m success status fl db)) = handlers.JSONError msg ->
  snd (handlers.serve m success status fl db) = db.
Proof.
  intros Hm. unfold handlers.serve.
  specialize (Hm fl db). rewrite <- run_fst, <- run_snd in Hm.
  destruct (run m fl db) as [[t|e] db']; cbn in *; [discriminate | eauto].
Qed.

Lemma withUser_all_or_nothing user k fl db msg :
  (forall userID,
     handlers.body (fst (k userID fl db)) = handlers.JSONError msg ->
     snd (k userID fl db) = db) ->
  handlers.body (fst (handlers.withUser user k fl db)) = handlers.JSONError msg ->
  snd (handlers.withUser user k fl db) = db.
Proof.
  intros Hk. unfold handlers.withUser.
  destruct (String.eqb user EmptyString); [reflexivity|].
  destruct (primitive.ObjectIDFromHex user); [apply Hk | reflexivity].
Qed.

(** ** Every change of the store is a sequence of writes *)

Lemma same_deal_refl t : same_deal t t.
Proof. repeat split. Qed.

Lemma same_deal_trans t1 t2 t3 : same_deal t1 t2 -> same_deal t2 t3 -> same_deal t1 t3.
Proof.
  unfold same_deal. intros H12 H23.
  destruct H12 as (?&?&?&?&?&?&?&?&?&?), H23 as (?&?&?&?&?&?&?&?&?&?).
  repeat split; congruence.
Qed.

Lemma same_or_sold_trans v1 v2 v3 :
  same_or_sold v1 v2 -> same_or_sold v2 v3 -> same_or_sold v1 v3.
Proof.
  intros [->|H12] [->|H23]; [left; reflexivity | right; exact H23 | right; exact H12 |].
  right. destruct H12 as (?&?&?&?&?&?&?&?&?&?&?), H23 as (?&?&?&?&?&?&?&?&?&?&?).
  repeat split; congruence.
Qed.

Section Writes.
Variable db0 : DB.

Lemma writes_FindOneAndUpdate id set :
  (forall t, same_deal t (set t)) ->
  preserves (rtc write db0) (FindOneAndUpdate id set).
Proof.
  intros Hset. apply preserves_FindOneAndUpdate. intros db t Hdb Ht.
  eapply rtc_r; [exact Hdb|]. eapply write_amended; [exact Ht | apply Hset].
Qed.

Lemma writes_InsertOne newID doc :
  Transaction.ID (doc newID) = newID ->
  Transaction.Status (doc newID) = TransactionStatusPending ->
  preserves (rtc write db0) (InsertOne newID doc).
Proof.
  intros Hid Hst. apply preserves_InsertOne. intros db Hdb Hfresh.
  eapply rtc_r; [exact Hdb|]. apply write_created; assumption.
Qed.

Lemma writes_UpdateOne id now buyerID :
  preserves (rtc write db0) (UpdateOne id (service.vehicleSet now buyerID)).
Proof.
  apply preserves_UpdateOne. intros db v Hdb Hv.
  eapply rtc_r; [exact Hdb|]. apply write_sold. exact Hv.
Qed.

Lemma CreateTransaction_writes now newID req sellerID :
  preserves (rtc write db0) (service.CreateTransaction now newID req sellerID).
Proof.
  unfold service.CreateTransaction.
  destruct (primitive.ObjectIDFromHex (CreateTransactionRequest.VehicleID req))
    as [vehicleID|]; [|auto with frame].
  destruct (primitive.ObjectIDFromHex (CreateTransactionRequest.BuyerID req))
    as [buyerID|]; [|auto with frame].
  apply preserves_bind; [auto with frame|]. intros vehicle.
  destruct (negb (Vehicle.OwnerID vehicle =? sellerID)%N); [auto with frame|].
  destruct (negb (String.eqb (Vehicle.Status vehicle) VehicleStatusActive));
    [auto with frame|].
  destruct (buyerID =? sellerID)%N; [auto with frame|].
  assert (Hins : forall inspectionID,
    preserves (rtc write db0)
      (InsertOne newID
         (if String.eqb (CreateTransactionRequest.PaymentMethod req) PaymentMethodFinancing
          then fun id => service.calculateFinancingDetails
                 (service.newTransaction now req vehicleID sellerID buyerID inspectionID id)
          else service.newTransaction now req vehicleID sellerID buyerID inspectionID))).
  { intros inspectionID. apply writes_InsertOne;
      destruct (String.eqb (CreateTransactionRequest.PaymentMethod req) PaymentMethodFinancing);
      reflexivity. }
  destruct (negb (String.eqb (CreateTransactionRequest.InspectionID req) EmptyString)).
  - destruct (primitive.ObjectIDFromHex (CreateTransactionRequest.InspectionID req));
      [|auto with frame].
    apply preserves_bind; [apply Hins | auto with frame].
  - apply preserves_bind; [apply Hins | auto with frame].
Qed.

Lemma UpdateTransaction_writes now id req userID :
  preserves (rtc write db0) (service.UpdateTransaction now id req userID).
Proof.
  unfold service.UpdateTransaction.
  destruct (primitive.ObjectIDFromHex id); [|auto with frame].
  apply preserves_bind; [auto with frame|]. intros t.
  destruct (_ && _); [auto with frame|].
  apply writes_FindOneAndUpdate. intros t0. repeat split.
Qed.

Lemma CompleteTransaction_writes now id req userID :
  preserves (rtc write db0) (service.CompleteTransaction now id req userID).
Proof.
  unfold service.CompleteTransaction.
  destruct (primitive.ObjectIDFromHex id); [|auto with frame].
  apply preserves_bind; [auto with frame|]. intros t.
  destruct (negb _); [auto with frame|].
  destruct (negb _); [auto with frame|].
  apply preserves_bind; [apply preserves_call|]. intros _.
  unfold WithSession. apply preserves_bind.
  - apply writes_FindOneAndUpdate. intros t0. repeat split.
  - intros t'. apply preserves_bind; [apply writes_UpdateOne | auto with frame].
Qed.

Lemma CancelTransaction_writes now id notes userID :
  preserves (rtc write db0) (service.CancelTransaction now id notes userID).
Proof.
  unfold service.CancelTransaction.
  destruct (primitive.ObjectIDFromHex id); [|auto with frame].
  apply preserves_bind; [auto with frame|]. intros t.
  destruct (_ && _); [auto with frame|].
  destruct (negb _); [auto with frame|].
  apply writes_FindOneAndUpdate. intros t0. repeat split.
Qed.

Lemma handle_writes c db : rtc write db0 db -> rtc write db0 (snd (workflow.handle c db)).
Proof.
  intros Hdb.
  destruct c as [now newID req user fl|now id req user fl|now id req user fl|now id notes user fl];
    cbn [workflow.handle].
  - unfold handlers.CreateTransaction.
    destruct (CreateTransactionRequest_Validate req); [exact Hdb|].
    apply withUser_preserves; [|exact Hdb]. intros userID.
    apply serve_preserves, CreateTransaction_writes.
  - unfold handlers.UpdateTransaction.
    destruct (UpdateTransactionRequest_Validate req); [exact Hdb|].
    apply withUser_preserves; [|exact Hdb]. intros userID.
    apply serve_preserves, UpdateTransaction_writes.
  - unfold handlers.CompleteTransaction.
    destruct (CompleteTransactionRequest_Validate req); [exact Hdb|].
    apply withUser_preserves; [|exact Hdb]. intros userID.
    apply serve_preserves, CompleteTransaction_writes.
  - unfold handlers.CancelTransaction.
    apply withUser_preserves; [|exact Hdb]. intros userID.
    apply serve_preserves, CancelTransaction_writes.
Qed.

End Writes.

Lemma exec_writes cs db : rtc write db (workflow.exec cs db).
Proof.
  assert (H : forall db0 db', rtc write db0 db' -> rtc write db0 (workflow.exec cs db')).
  { induction cs as [|c cs IH]; intros db0 db' Hdb; [exact Hdb|].
    cbn [workflow.exec]. apply IH, handle_writes, Hdb. }
  apply H. reflexivity.
Qed.

(** *** What a write keeps *)

Lemma write_keeps_transaction db db' id t :
  write db db' -> transactions db !! id = Some t ->
  exists t', transactions db' !! id = Some t' /\ same_deal t t'.
Proof.
  intros Hw Ht. destruct Hw as [db k t0 Hfresh _ _|db k t0 t1 Hk Hdeal|db k v now b Hv]; cbn.
  - exists t. split; [|apply same_deal_refl].
    rewrite lookup_insert_ne; [exact Ht | congruence].
  - destruct (decide (k = id)) as [->|Hne].
    + exists t1. rewrite lookup_insert_eq. split; [reflexivity | congruence].
    + exists t. rewrite lookup_insert_ne by exact Hne.
      split; [exact Ht | apply same_deal_refl].
  - exists t. split; [exact Ht | apply same_deal_refl].
Qed.

Lemma writes_keep_transaction db db' :
  rtc write db db' ->
  forall id t, transactions db !! id = Some t ->
  exists t', transactions db' !! id = Some t' /\ same_deal t t'.
Proof.
  induction 1 as [db|db db1 db2 Hw _ IH]; intros id t Ht.
  - exists t. split; [exact Ht | apply same_deal_refl].
  - destruct (write_keeps_transaction _ _ _ _ Hw Ht) as (t1 & Ht1 & Hd1).
    destruct (IH _ _ Ht1) as (t2 & Ht2 & Hd2).
    exists t2. split; [exact Ht2 | eapply same_deal_trans; eassumption].
Qed.

Lemma write_keeps_vehicle db db' id :
  write db db' ->
  match vehicles db !! id with
  | Some v => exists v', vehicles db' !! id = Some v' /\ same_or_sold v v'
  | None => vehicles db' !! id = None
  end.
Proof.
  intros Hw. destruct Hw as [db k t0 _ _ _|db k t0 t1 _ _|db k v now b Hv]; cbn.
  - destruct (vehicles db !! id) as [v|]; [exists v; split; [reflexivity | left; reflexivity] | reflexivity].
  - destruct (vehicles db !! id) as [v|]; [exists v; split; [reflexivity | left; reflexivity] | reflexivity].
  - destruct (decide (k = id)) as [->|Hne].
    + rewrite Hv, lookup_insert_eq. eexists. split; [reflexivity|].
      right. repeat split.
    + rewrite lookup_insert_ne by exact Hne.
      destruct (vehicles db !! id) as [v0|];
        [exists v0; split; [reflexivity | left; reflexivity] | reflexivity].
Qed.

Lemma writes_keep_vehicle db db' :
  rtc write db db' ->
  forall id,
  match vehicles db !! id with
  | Some v => exists v', vehicles db' !! id = Some v' /\ same_or_sold v v'
  | None => vehicles db' !! id = None
  end.
Proof.
  induction 1 as [db|db db1 db2 Hw _ IH]; intros id.
  - destruct (vehicles db !! id) as [v|]; [exists v; split; [reflexivity | left; reflexivity] | reflexivity].
  - pose proof (write_keeps_vehicle _ _ id Hw) as H1. specialize (IH id).
    destruct (vehicles db !! id) as [v|].
    + destruct H1 as (v1 & Hv1 & Hs1). rewrite Hv1 in IH.
      destruct IH as (v2 & Hv2 & Hs2). exists v2.
      split; [exact Hv2 | eapply same_or_sold_trans; eassumption].
    + rewrite H1 in IH. exact IH.
Qed.

(** ** Success, in full *)

Lemma vehicle_lookup_cases vehicleID fl db :
  (exists e, notFoundAs "vehicle not found" (FindOneVehicle vehicleID) fl db
             = (Err e, db, tl fl))
  \/ (exists v, vehicles db !! vehicleID = Some v
        /\ notFoundAs "vehicle not found" (FindOneVehicle vehicleID) fl db
           = (Ok v, db, tl fl)).
Proof.
  unfold notFoundAs, FindOneVehicle, bind, call.
  destruct fl as [|[|] rest]; cbn; destruct (vehicles db !! vehicleID); eauto.
Qed.

Lemma insert_ok newID doc fl db r db' fl' :
  (do insertedID <- InsertOne newID doc; ret (doc insertedID)) fl db = (Ok r, db', fl') ->
  transactions db !! newID = None
  /\ r = doc newID
  /\ db' = mkDB (<[newID := doc newID]> (transactions db)) (vehicles db).
Proof.
  unfold bind, InsertOne, call, ret.
  destruct fl as [|[|] rest]; cbn; destruct (transactions db !! newID); cbn;
    try discriminate; intros [= <- <- _]; auto.
Qed.

(** A successful Create: what was checked, what was stored. *)
Lemma CreateTransaction_ok now newID req sellerID fl db t :
  fst (fst (service.CreateTransaction now newID req sellerID fl db)) = Ok t ->
  exists vehicleID buyerID vehicle,
    primitive.ObjectIDFromHex (CreateTransactionRequest.VehicleID req) = Some vehicleID
    /\ primitive.ObjectIDFromHex (CreateTransactionRequest.BuyerID req) = Some buyerID
    /\ vehicles db !! vehicleID = Some vehicle
    /\ Vehicle.OwnerID vehicle = sellerID
    /\ Vehicle.Status vehicle = VehicleStatusActive
    /\ buyerID <> sellerID
    /\ transactions db !! newID = None
    /\ snd (fst (service.CreateTransaction now newID req sellerID fl db))
       = mkDB (<[newID := t]> (transactions db)) (vehicles db)
    /\ Transaction.ID t = newID
    /\ Transaction.Status t = TransactionStatusPending
    /\ Transaction.VehicleID t = vehicleID
    /\ Transaction.SellerID t = sellerID
    /\ Transaction.BuyerID t = buyerID
    /\ Transaction.Amount t = CreateTransactionRequest.Amount req
    /\ Transaction.Currency t = CreateTransactionRequest.Currency req
    /\ Transaction.PaymentMethod t = CreateTransactionRequest.PaymentMethod req.
Proof.
  unfold service.CreateTransaction.
  destruct (primitive.ObjectIDFromHex (CreateTransactionRequest.VehicleID req))
    as [vehicleID|]; [|discriminate].
  destruct (primitive.ObjectIDFromHex (CreateTransactionRequest.BuyerID req))
    as [buyerID|]; [|discriminate].
  destruct (vehicle_lookup_cases vehicleID fl db) as [[e He]|(vehicle & Hv & Hok)].
  { rewrite (bind_err _ _ _ _ _ _ _ He). discriminate. }
  rewrite (bind_ok _ _ _ _ _ _ _ Hok).
  destruct (N.eqb_spec (Vehicle.OwnerID vehicle) sellerID) as [Ho|Ho]; cbn [negb];
    [|discriminate].
  destruct (String.eqb_spec (Vehicle.Status vehicle) VehicleStatusActive) as [Hs|Hs];
    cbn [negb]; [|discriminate].
  destruct (N.eqb_spec buyerID sellerID) as [Hb|Hb]; [discriminate|].
  assert (Hgoal : forall inspectionID,
    let doc :=
      if String.eqb (CreateTransactionRequest.PaymentMethod req) PaymentMethodFinancing
      then fun id => service.calculateFinancingDetails
             (service.newTransaction now req vehicleID sellerID buyerID inspectionID id)
      else service.newTransaction now req vehicleID sellerID buyerID inspectionID in
    fst (fst ((do insertedID <- InsertOne newID doc; ret (doc insertedID)) (tl fl) db)) = Ok t ->
    transactions db !! newID = None
    /\ snd (fst ((do insertedID <- InsertOne newID doc; ret (doc insertedID)) (tl fl) db))
       = mkDB (<[newID := t]> (transactions db)) (vehicles db)
    /\ Transaction.ID t = newID
    /\ Transaction.Status t = TransactionStatusPending
    /\ Transaction.VehicleID t = vehicleID
    /\ Transaction.SellerID t = sellerID
    /\ Transaction.BuyerID t = buyerID
    /\ Transaction.Amount t = CreateTransactionRequest.Amount req
    /\ Transaction.Currency t = CreateTransactionRequest.Currency req
    /\ Transaction.PaymentMethod t = CreateTransactionRequest.PaymentMethod req).
  { intros inspectionID doc Hrun.
    destruct ((do insertedID <- InsertOne newID doc; ret (doc insertedID)) (tl fl) db)
      as [[r db'] fl'] eqn:E.
    cbn in Hrun. subst r.
    destruct (insert_ok _ _ _ _ _ _ _ E) as (Hfresh & -> & ->).
    split; [exact Hfresh|]. split; [reflexivity|].
    subst doc.
    destruct (String.eqb (CreateTransactionRequest.PaymentMethod req) PaymentMethodFinancing);
      repeat split. }
  destruct (negb (String.eqb (CreateTransactionRequest.InspectionID req) EmptyString)).
  - destruct (primitive.ObjectIDFromHex (CreateTransactionRequest.InspectionID req))
      as [i|]; [|discriminate].
    intros Hrun. exists vehicleID, buyerID, vehicle.
    repeat (split; [assumption || reflexivity|]). apply (Hgoal (Some i)), Hrun.
  - intros Hrun. exists vehicleID, buyerID, vehicle.
    repeat (split; [assumption || reflexivity|]). apply (Hgoal None), Hrun.
Qed.

(** A successful Complete: both writes were applied. *)
Lemma CompleteTransaction_ok now id req userID fl db t' :
  fst (fst (service.CompleteTransaction now id req userID fl db)) = Ok t' ->
  exists objectID t,
    primitive.ObjectIDFromHex id = Some objectID
    /\ transactions db !! objectID = Some t
    /\ Transaction.SellerID t = userID
    /\ Transaction.Status t = TransactionStatusPending
    /\ t' = service.completeSet now req t
    /\ snd (fst (service.CompleteTransaction now id req userID fl db)) =
         mkDB (<[objectID := t']> (transactions db))
              (match vehicles db !! Transaction.VehicleID t with
               | Some v =>
                   <[Transaction.VehicleID t :=
                       service.vehicleSet now (Transaction.BuyerID t) v]> (vehicles db)
               | None => vehicles db
               end).
Proof.
  intros Hok.
  destruct (CompleteTransaction_ok_inv _ _ _ _ _ _ _ Hok)
    as (objectID & t & Hid & Ht & Hs & Hp).
  exists objectID, t. repeat (split; [assumption|]).
  revert Hok. unfold service.CompleteTransaction. rewrite Hid.
  destruct (lookup_db objectID fl db t Ht "transaction not found") as [[r Hr]|Hr].
  - rewrite (bind_err _ _ _ _ _ _ _ Hr). discriminate.
  - rewrite (bind_ok _ _ _ _ _ _ _ Hr).
    rewrite Hs, N.eqb_refl, Hp. cbn [negb].
    change (String.eqb TransactionStatusPending TransactionStatusPending) with true.
    cbn [negb].
    unfold StartSession, WithSession, FindOneAndUpdate, UpdateOne, bind, call, ret.
    destruct (tl fl) as [|[|] [|[|] [|[|] rest]]]; cbn; rewrite ?Ht; cbn;
      try discriminate;
      destruct (vehicles db !! Transaction.VehicleID t); cbn;
      intros [= <-]; split; reflexivity.
Qed.

(** What an accepted Create request satisfies. *)
Lemma Validate_accepts req :
  CreateTransactionRequest_Validate req = None ->
  (CreateTransactionRequest.Amount req <=? 0)%float = false
  /\ CreateTransactionRequest.Currency req <> EmptyString
  /\ IsValidPaymentMethod (CreateTransactionRequest.PaymentMethod req) = true
  /\ primitive.IsValidObjectID (CreateTransactionRequest.VehicleID req) = true
  /\ primitive.IsValidObjectID (CreateTransactionRequest.BuyerID req) = true
  /\ (CreateTransactionRequest.InspectionID req = EmptyString
      \/ primitive.IsValidObjectID (CreateTransactionRequest.InspectionID req) = true)
  /\ validatePaymentDetails req = None.
Proof.
  unfold CreateTransactionRequest_Validate.
  destruct (String.eqb (CreateTransactionRequest.VehicleID req) EmptyString); [discriminate|].
  destruct (primitive.IsValidObjectID (CreateTransactionRequest.VehicleID req));
    cbn [negb]; [|discriminate].
  destruct (String.eqb (CreateTransactionRequest.BuyerID req) EmptyString); [discriminate|].
  destruct (primitive.IsValidObjectID (CreateTransactionRequest.BuyerID req));
    cbn [negb]; [|discriminate].
  destruct (CreateTransactionRequest.Amount req <=? 0)%float; [discriminate|].
  destruct (String.eqb_spec (CreateTransactionRequest.Currency req) EmptyString);
    [discriminate|].
  destruct (String.eqb (CreateTransactionRequest.PaymentMethod req) EmptyString);
    [discriminate|].
  destruct (IsValidPaymentMethod (CreateTransactionRequest.PaymentMethod req));
    cbn [negb]; [|discriminate].
  destruct (String.eqb_spec (CreateTransactionRequest.InspectionID req) EmptyString)
    as [Hi|Hi]; cbn [negb andb].
  - intros Hp. repeat split; auto.
  - destruct (primitive.IsValidObjectID (CreateTransactionRequest.InspectionID req));
      cbn [negb]; [|discriminate].
    intros Hp. repeat split; auto.
Qed.

Lemma withUser_inv user k fl db t :
  handlers.body (fst (handlers.withUser user k fl db)) = handlers.JSONTransaction t ->
  exists userID,
    primitive.ObjectIDFromHex user = Some userID
    /\ handlers.withUser user k fl db = k userID fl db.
Proof.
  unfold handlers.withUser.
  destruct (String.eqb user EmptyString); [discriminate|].
  destruct (primitive.ObjectIDFromHex user) as [userID|]; [eauto | discriminate].
Qed.

Lemma serve_inv m success status fl db t :
  handlers.body (fst (handlers.serve m success status fl db)) = handlers.JSONTransaction t ->
  fst (fst (m fl db)) = Ok t
  /\ handlers.serve m success status fl db
     = (handlers.mkResponse success (handlers.JSONTransaction t), snd (fst (m fl db))).
Proof.
  unfold handlers.serve. rewrite <- run_fst, <- run_snd.
  destruct (run m fl db) as [[t0|e] db']; cbn; [|discriminate].
  intros [= ->]. split; reflexivity.
Qed.

(** What a Create that answers with a transaction has done. *)
Lemma Create_answer_inv now newID req userIDStr fl db t :
  handlers.body (fst (handlers.CreateTransaction now newID req userIDStr fl db))
    = handlers.JSONTransaction t ->
  exists sellerID,
    primitive.ObjectIDFromHex userIDStr = Some sellerID
    /\ CreateTransactionRequest_Validate req = None
    /\ fst (fst (service.CreateTransaction now newID req sellerID fl db)) = Ok t
    /\ handlers.CreateTransaction now newID req userIDStr fl db
       = (handlers.mkResponse http.StatusCreated (handlers.JSONTransaction t),
          snd (fst (service.CreateTransaction now newID req sellerID fl db))).
Proof.
  unfold handlers.CreateTransaction.
  destruct (CreateTransactionRequest_Validate req) eqn:Hval; [discriminate|].
  intros Hbody.
  destruct (withUser_inv _ _ _ _ _ Hbody) as (sellerID & Hu & Hk).
  rewrite Hk in Hbody |- *.
  destruct (serve_inv _ _ _ _ _ _ Hbody) as (Hok & Hserve).
  exists sellerID. repeat split; assumption.
Qed.

Lemma Create_answer_stored now newID req userIDStr fl db t :
  handlers.body (fst (handlers.CreateTransaction now newID req userIDStr fl db))
    = handlers.JSONTransaction t ->
  handlers.CreateTransaction now newID req userIDStr fl db
    = (handlers.mkResponse http.StatusCreated (handlers.JSONTransaction t),
       mkDB (<[newID := t]> (transactions db)) (vehicles db))
  /\ Transaction.ID t = newID
  /\ Transaction.Status t = TransactionStatusPending.
Proof.
  intros Hbody.
  destruct (Create_answer_inv _ _ _ _ _ _ _ Hbody) as (sellerID & _ & _ & Hok & Hrun).
  destruct (CreateTransaction_ok _ _ _ _ _ _ _ Hok)
    as (vehicleID & buyerID & vehicle & _ & _ & _ & _ & _ & _ & _
        & Hdb & Hid & Hst & _).
  rewrite Hrun, Hdb. repeat split; assumption.
Qed.

(** ** Further properties of the transaction service *)

(** X1.  Whenever POST /transactions answers with a transaction, the answer
    is 201 and the sale is sound: the caller is the seller, the vehicle is
    in the store, belongs to the caller and is active, the buyer is somebody
    else, the amount is not at most 0 and the payment details passed their
    checks; the new transaction is pending, carries the assigned id, and is
    the one document added to the store, under a key that was free. *)
Theorem created_transaction_is_sound now newID req userIDStr (fl : Faults) db t :
  handlers.body (fst (handlers.CreateTransaction now newID req userIDStr fl db))
    = handlers.JSONTransaction t ->
  exists sellerID vehicleID buyerID vehicle,
    handlers.CreateTransaction now newID req userIDStr fl db
      = (handlers.mkResponse http.StatusCreated (handlers.JSONTransaction t),
         mkDB (<[newID := t]> (transactions db)) (vehicles db))
    /\ transactions db !! newID = None
    /\ primitive.ObjectIDFromHex userIDStr = Some sellerID
    /\ primitive.ObjectIDFromHex (CreateTransactionRequest.VehicleID req) = Some vehicleID
    /\ primitive.ObjectIDFromHex (CreateTransactionRequest.BuyerID req) = Some buyerID
    /\ vehicles db !! vehicleID = Some vehicle
    /\ Vehicle.OwnerID vehicle = sellerID
    /\ Vehicle.Status vehicle = VehicleStatusActive
    /\ buyerID <> sellerID
    /\ (CreateTransactionRequest.Amount req <=? 0)%float = false
    /\ validatePaymentDetails req = None
    /\ Transaction.ID t = newID
    /\ Transaction.Status t = TransactionStatusPending
    /\ Transaction.VehicleID t = vehicleID
    /\ Transaction.SellerID t = sellerID
    /\ Transaction.BuyerID t = buyerID
    /\ Transaction.Amount t = CreateTransactionRequest.Amount req.
Proof.
  intros Hbody.
  destruct (Create_answer_inv _ _ _ _ _ _ _ Hbody) as (sellerID & Hu & Hval & Hok & Hrun).
  destruct (Validate_accepts req Hval) as (Ha & _ & _ & _ & _ & _ & Hp).
  destruct (CreateTransaction_ok _ _ _ _ _ _ _ Hok)
    as (vehicleID & buyerID & vehicle & Hv & Hb & Hveh & Ho & Hs & Hne & Hfresh
        & Hdb & Hid & Hst & Hvid & Hsid & Hbid & Hamt & _).
  exists sellerID, vehicleID, buyerID, vehicle.
  rewrite Hrun, Hdb. repeat (split; [assumption || reflexivity|]). assumption.
Qed.

Lemma created_transaction_is_sound_witness :
  exists sellerID vehicleID buyerID vehicle,
    handlers.CreateTransaction 100 sample.txnID sample.cash_request sample.sellerHex
      nil sample.showroom
      = (handlers.mkResponse http.StatusCreated
           (handlers.JSONTransaction (sample.sale TransactionStatusPending)),
         mkDB (<[sample.txnID := sample.sale TransactionStatusPending]>
                 (transactions sample.showroom)) (vehicles sample.showroom))
    /\ transactions sample.showroom !! sample.txnID = None
    /\ primitive.ObjectIDFromHex sample.sellerHex = Some sellerID
    /\ primitive.ObjectIDFromHex
         (CreateTransactionRequest.VehicleID sample.cash_request) = Some vehicleID
    /\ primitive.ObjectIDFromHex
         (CreateTransactionRequest.BuyerID sample.cash_request) = Some buyerID
    /\ vehicles sample.showroom !! vehicleID = Some vehicle
    /\ Vehicle.OwnerID vehicle = sellerID
    /\ Vehicle.Status vehicle = VehicleStatusActive
    /\ buyerID <> sellerID
    /\ (CreateTransactionRequest.Amount sample.cash_request <=? 0)%float = false
    /\ validatePaymentDetails sample.cash_request = None
    /\ Transaction.ID (sample.sale TransactionStatusPending) = sample.txnID
    /\ Transaction.Status (sample.sale TransactionStatusPending)
       = TransactionStatusPending
    /\ Transaction.VehicleID (sample.sale TransactionStatusPending) = vehicleID
    /\ Transaction.SellerID (sample.sale TransactionStatusPending) = sellerID
    /\ Transaction.BuyerID (sample.sale TransactionStatusPending) = buyerID
    /\ Transaction.Amount (sample.sale TransactionStatusPending)
       = CreateTransactionRequest.Amount sample.cash_request.
Proof.
  apply (created_transaction_is_sound 100 sample.txnID sample.cash_request
           sample.sellerHex nil sample.showroom (sample.sale TransactionStatusPending)).
  vm_compute. reflexivity.
Defined.

(** X2.  Create, then read back.  After POST /transactions has answered
    with a transaction, GET /transactions/:id with the hexadecimal form of
    its id answers 200 with the stored document, which has the id, the
    status, the parties, the vehicle and the amount of the one Create
    answered with, and reads change nothing. *)
Theorem GetTransaction_finds_created
    now newID req userIDStr (fl : Faults) db t id (fl2 : Faults) :
  handlers.body (fst (handlers.CreateTransaction now newID req userIDStr fl db))
    = handlers.JSONTransaction t ->
  primitive.ObjectIDFromHex id = Some (Transaction.ID t) ->
  quiet 1 fl2 = true ->
  exists t',
    views.GetTransaction id fl2
      (snd (handlers.CreateTransaction now newID req userIDStr fl db))
    = (handlers.mkResponse http.StatusOK (handlers.JSONTransaction t'),
       snd (handlers.CreateTransaction now newID req userIDStr fl db))
    /\ Transaction.ID t' = Transaction.ID t
    /\ Transaction.Status t' = TransactionStatusPending
    /\ Transaction.VehicleID t' = Transaction.VehicleID t
    /\ Transaction.SellerID t' = Transaction.SellerID t
    /\ Transaction.BuyerID t' = Transaction.BuyerID t
    /\ Transaction.Amount t' = Transaction.Amount t.
Proof.
  intros Hbody Hid Hq.
  destruct (Create_answer_stored _ _ _ _ _ _ _ Hbody)
    as (Hrun & Hnew & Hst).
  rewrite Hrun. cbn [snd]. exists t. rewrite Hnew in Hid.
  split; [|repeat split; assumption].
  unfold views.GetTransaction, queries.GetTransactionByID. rewrite Hid.
  erewrite serve_eq
    by (apply notFoundAs_ok; rewrite FindOneTransaction_quiet by exact Hq;
        cbn [transactions]; rewrite lookup_insert_eq; reflexivity).
  reflexivity.
Qed.


Lemma GetTransaction_finds_created_witness :
  exists t',
    views.GetTransaction sample.txnHex nil
      (snd (handlers.CreateTransaction 100 sample.txnID sample.cash_request
              sample.sellerHex nil sample.showroom))
    = (handlers.mkResponse http.StatusOK (handlers.JSONTransaction t'),
       snd (handlers.CreateTransaction 100 sample.txnID sample.cash_request
              sample.sellerHex nil sample.showroom))
    /\ Transaction.ID t' = Transaction.ID (sample.sale TransactionStatusPending)
    /\ Transaction.Status t' = TransactionStatusPending
    /\ Transaction.VehicleID t'
       = Transaction.VehicleID (sample.sale TransactionStatusPending)
    /\ Transaction.SellerID t'
       = Transaction.SellerID (sample.sale TransactionStatusPending)
    /\ Transaction.BuyerID t'
       = Transaction.BuyerID (sample.sale TransactionStatusPending)
    /\ Transaction.Amount t'
       = Transaction.Amount (sample.sale TransactionStatusPending).
Proof.
  apply (GetTransaction_finds_created 100 sample.txnID sample.cash_request
           sample.sellerHex nil sample.showroom
           (sample.sale TransactionStatusPending) sample.txnHex nil).
  - vm_compute. reflexivity.
  - reflexivity.
  - reflexivity.
Defined.

(** An answer that carries an error has written nothing (Create, Update,
    Cancel). *)
Lemma error_answers_write_nothing :
  (forall now newID req userIDStr (fl : Faults) db msg,
     handlers.body (fst (handlers.CreateTransaction now newID req userIDStr fl db))
       = handlers.JSONError msg ->
     snd (handlers.CreateTransaction now newID req userIDStr fl db) = db)
  /\ (forall now id req userIDStr (fl : Faults) db msg,
        handlers.body (fst (handlers.UpdateTransaction now id req userIDStr fl db))
          = handlers.JSONError msg ->
        snd (handlers.UpdateTransaction now id req userIDStr fl db) = db)
  /\ (forall now id notes userIDStr (fl : Faults) db msg,
        handlers.body (fst (handlers.CancelTransaction now id notes userIDStr fl db))
          = handlers.JSONError msg ->
        snd (handlers.CancelTransaction now id notes userIDStr fl db) = db).
Proof.
  split; [|split].
  - intros now newID req userIDStr fl db msg. unfold handlers.CreateTransaction.
    destruct (CreateTransactionRequest_Validate req); [reflexivity|].
    apply withUser_all_or_nothing. intros userID.
    apply serve_all_or_nothing, CreateTransaction_all_or_nothing.
  - intros now id req userIDStr fl db msg. unfold handlers.UpdateTransaction.
    destruct (UpdateTransactionRequest_Validate req); [reflexivity|].
    apply withUser_all_or_nothing. intros userID.
    apply serve_all_or_nothing, UpdateTransaction_all_or_nothing.
  - intros now id notes userIDStr fl db msg. unfold handlers.CancelTransaction.
    apply withUser_all_or_nothing. intros userID.
    apply serve_all_or_nothing, CancelTransaction_all_or_nothing.
Qed.

(** X3.  Create, Update and Cancel write at most once, so they are all or
    nothing under every fault plan: whenever the answer carries an error,
    the store is exactly what it was. *)
Theorem single_write_requests_are_all_or_nothing :
  (forall now newID req userIDStr (fl : Faults) db msg,
     handlers.body (fst (handlers.CreateTransaction now newID req userIDStr fl db))
       = handlers.JSONError msg ->
     snd (handlers.CreateTransaction now newID req userIDStr fl db) = db)
  /\ (forall now id req userIDStr (fl : Faults) db msg,
        handlers.body (fst (handlers.UpdateTransaction now id req userIDStr fl db))
          = handlers.JSONError msg ->
        snd (handlers.UpdateTransaction now id req userIDStr fl db) = db)
  /\ (forall now id notes userIDStr (fl : Faults) db msg,
        handlers.body (fst (handlers.CancelTransaction now id notes userIDStr fl db))
          = handlers.JSONError msg ->
        snd (handlers.CancelTransaction now id notes userIDStr fl db) = db).
Proof. exact error_answers_write_nothing. Qed.

Lemma single_write_requests_are_all_or_nothing_witness :
  snd (handlers.CancelTransaction 200 sample.txnHex EmptyString sample.buyerHex
         [false; true] (sample.store TransactionStatusPending))
  = sample.store TransactionStatusPending.
Proof.
  apply (proj2 (proj2 single_write_requests_are_all_or_nothing)
           200 sample.txnHex EmptyString sample.buyerHex [false; true]
           (sample.store TransactionStatusPending) "server selection error").
  vm_compute. reflexivity.
Defined.

(** X4.  Whenever Complete returns a transaction, under any fault plan, both
    writes have been applied: the transaction was pending and the caller its
    seller; it is now stored completed with completedAt, paidAt and the
    payment reference set and its deal untouched; the vehicle, when the
    store has it, now belongs to the buyer and is sold; every other
    transaction and every other vehicle is what it was. *)
Theorem Complete_success_applies_both_writes
    now id req userID (fl : Faults) db t' :
  fst (run (service.CompleteTransaction now id req userID) fl db) = Ok t' ->
  exists objectID t,
    primitive.ObjectIDFromHex id = Some objectID
    /\ transactions db !! objectID = Some t
    /\ Transaction.SellerID t = userID
    /\ Transaction.Status t = TransactionStatusPending
    /\ transactions (snd (run (service.CompleteTransaction now id req userID) fl db))
         !! objectID = Some t'
    /\ Transaction.Status t' = TransactionStatusCompleted
    /\ Transaction.CompletedAt t' = Some now
    /\ PaymentDetails.PaidAt (Transaction.PaymentDetails t') = Some now
    /\ PaymentDetails.TransactionReference (Transaction.PaymentDetails t')
       = CompleteTransactionRequest.TransactionReference req
    /\ same_deal t t'
    /\ match vehicles db !! Transaction.VehicleID t with
       | Some v =>
           exists v',
             vehicles (snd (run (service.CompleteTransaction now id req userID) fl db))
               !! Transaction.VehicleID t = Some v'
             /\ Vehicle.OwnerID v' = Transaction.BuyerID t
             /\ Vehicle.Status v' = VehicleStatusSold
             /\ same_or_sold v v'
       | None =>
           vehicles (snd (run (service.CompleteTransaction now id req userID) fl db))
           = vehicles db
       end
    /\ (forall k, k <> objectID ->
        transactions (snd (run (service.CompleteTransaction now id req userID) fl db))
          !! k = transactions db !! k)
    /\ (forall k, k <> Transaction.VehicleID t ->
        vehicles (snd (run (service.CompleteTransaction now id req userID) fl db))
          !! k = vehicles db !! k).
Proof.
  intros Hok. rewrite run_fst in Hok. rewrite run_snd.
  destruct (CompleteTransaction_ok _ _ _ _ _ _ _ Hok)
    as (objectID & t & Hid & Ht & Hs & Hp & -> & Hdb).
  exists objectID, t. rewrite Hdb. cbn [transactions vehicles].
  repeat (split; [assumption || reflexivity || apply lookup_insert_eq|]).
  split; [repeat split|].
  split; [|split].
  - destruct (vehicles db !! Transaction.VehicleID t) as [v|]; [|reflexivity].
    eexists. rewrite lookup_insert_eq. split; [reflexivity|].
    split; [reflexivity|]. split; [reflexivity|]. right. repeat split.
  - intros k Hk. apply lookup_insert_ne. congruence.
  - intros k Hk. destruct (vehicles db !! Transaction.VehicleID t); [|reflexivity].
    apply lookup_insert_ne. congruence.
Qed.

Lemma Complete_success_applies_both_writes_witness :
  exists v',
    vehicles
      (snd (run (service.CompleteTransaction 200 sample.txnHex
                   sample.proof_of_payment sample.seller) nil
              (sample.store TransactionStatusPending)))
      !! sample.vehicleID = Some v'
    /\ Vehicle.OwnerID v' = sample.buyer
    /\ Vehicle.Status v' = VehicleStatusSold.
Proof.
  destruct (Complete_success_applies_both_writes 200 sample.txnHex
              sample.proof_of_payment sample.seller nil
              (sample.store TransactionStatusPending)
              (service.completeSet 200 sample.proof_of_payment
                 (sample.sale TransactionStatusPending)) eq_refl)
    as (objectID & t & Hid & Ht & _ & _ & _ & _ & _ & _ & _ & _ & Hv & _).
  injection Hid as <-. injection Ht as <-.
  destruct Hv as (v' & Hv' & Ho & Hs & _).
  exists v'. repeat split; assumption.
Defined.

(** X5.  No request deletes a transaction or rewrites its deal: along any
    sequence of Create, Update, Complete and Cancel requests, under any
    fault plans, a stored transaction stays stored under its key with the
    same id, vehicle, seller, buyer, type, amount, currency, payment method,
    inspection reference and creation time. *)
Theorem stored_transaction_keeps_its_deal (cs : list workflow.Call) db id t :
  transactions db !! id = Some t ->
  exists t', transactions (workflow.exec cs db) !! id = Some t' /\ same_deal t t'.
Proof. apply writes_keep_transaction, exec_writes. Qed.

Lemma stored_transaction_keeps_its_deal_witness :
  exists t',
    transactions
      (workflow.exec
         [workflow.Update 150 sample.txnHex sample.mark_failed sample.buyerHex nil;
          workflow.Complete 200 sample.txnHex sample.proof_of_payment
            sample.sellerHex nil]
         (sample.store TransactionStatusPending)) !! sample.txnID = Some t'
    /\ same_deal (sample.sale TransactionStatusPending) t'.
Proof.
  apply stored_transaction_keeps_its_deal. reflexivity.
Defined.

(** X6.  The transaction requests neither add nor remove a vehicle, and the
    only change they make to one is the sale: along any sequence of
    requests, a vehicle that was absent stays absent, and a stored vehicle
    is either exactly what it was or has status sold, with every field but
    owner, status and updatedAt as before. *)
Theorem vehicles_change_only_by_sale (cs : list workflow.Call) db id :
  match vehicles db !! id with
  | Some v =>
      exists v', vehicles (workflow.exec cs db) !! id = Some v' /\ same_or_sold v v'
  | None => vehicles (workflow.exec cs db) !! id = None
  end.
Proof. apply writes_keep_vehicle, exec_writes. Qed.

(** X7.  Complete does not look at the vehicle before handing it over.  Two
    pending transactions name the same vehicle; each is completed by its
    seller on a healthy store.  Both calls succeed, whoever owns the vehicle
    by then and whatever its status: after the first the vehicle belongs to
    the first buyer, after the second to the second buyer. *)
Theorem Complete_does_not_recheck_the_vehicle
    now1 now2 id1 id2 o1 o2 req1 req2 (fl1 fl2 : Faults) db t1 t2 v :
  primitive.ObjectIDFromHex id1 = Some o1 ->
  primitive.ObjectIDFromHex id2 = Some o2 ->
  o1 <> o2 ->
  transactions db !! o1 = Some t1 ->
  transactions db !! o2 = Some t2 ->
  Transaction.Status t1 = TransactionStatusPending ->
  Transaction.Status t2 = TransactionStatusPending ->
  Transaction.VehicleID t2 = Transaction.VehicleID t1 ->
  vehicles db !! Transaction.VehicleID t1 = Some v ->
  quiet 4 fl1 = true -> quiet 4 fl2 = true ->
  let first := run (service.CompleteTransaction now1 id1 req1 (Transaction.SellerID t1)) fl1 db in
  let second :=
    run (service.CompleteTransaction now2 id2 req2 (Transaction.SellerID t2)) fl2 (snd first) in
  fst first = Ok (service.completeSet now1 req1 t1)
  /\ vehicles (snd first) !! Transaction.VehicleID t1
     = Some (service.vehicleSet now1 (Transaction.BuyerID t1) v)
  /\ fst second = Ok (service.completeSet now2 req2 t2)
  /\ Vehicle.OwnerID <$> vehicles (snd second) !! Transaction.VehicleID t1
     = Some (Transaction.BuyerID t2)
  /\ Vehicle.Status <$> vehicles (snd second) !! Transaction.VehicleID t1
     = Some VehicleStatusSold
  /\ Transaction.Status <$> transactions (snd second) !! o1
     = Some TransactionStatusCompleted
  /\ Transaction.Status <$> transactions (snd second) !! o2
     = Some TransactionStatusCompleted.
Proof.
  intros Hid1 Hid2 Hne Ht1 Ht2 Hp1 Hp2 Hsame Hv Hq1 Hq2 first second.
  pose proof (CompleteTransaction_done now1 id1 o1 (Transaction.SellerID t1) fl1 db t1
                Hid1 Ht1 req1 Hq1 eq_refl Hp1) as H1.
  rewrite Hv in H1.
  assert (E1 : first = (Ok (service.completeSet now1 req1 t1),
                        mkDB (<[o1 := service.completeSet now1 req1 t1]> (transactions db))
                          (<[Transaction.VehicleID t1 :=
                               service.vehicleSet now1 (Transaction.BuyerID t1) v]>
                             (vehicles db))))
    by (exact (run_eq _ _ _ _ _ _ H1)).
  assert (Ht2' : transactions (snd first) !! o2 = Some t2).
  { rewrite E1. cbn. rewrite lookup_insert_ne by exact Hne. exact Ht2. }
  pose proof (CompleteTransaction_done now2 id2 o2 (Transaction.SellerID t2) fl2
                (snd first) t2 Hid2 Ht2' req2 Hq2 eq_refl Hp2) as H2.
  assert (Hv1 : vehicles (snd first) !! Transaction.VehicleID t1
                = Some (service.vehicleSet now1 (Transaction.BuyerID t1) v)).
  { rewrite E1. cbn. apply lookup_insert_eq. }
  rewrite Hsame, Hv1 in H2.
  assert (E2 : second = (Ok (service.completeSet now2 req2 t2),
                         mkDB (<[o2 := service.completeSet now2 req2 t2]>
                                 (transactions (snd first)))
                           (<[Transaction.VehicleID t1 :=
                                service.vehicleSet now2 (Transaction.BuyerID t2)
                                  (service.vehicleSet now1 (Transaction.BuyerID t1) v)]>
                              (vehicles (snd first)))))
    by (exact (run_eq _ _ _ _ _ _ H2)).
  split; [rewrite E1; reflexivity|].
  split; [exact Hv1|].
  rewrite E2. cbn [fst snd transactions vehicles].
  split; [reflexivity|].
  rewrite !lookup_insert_eq.
  split; [reflexivity|]. split; [reflexivity|].
  split; [|reflexivity].
  rewrite lookup_insert_ne by congruence. rewrite E1. cbn [snd transactions].
  rewrite lookup_insert_eq. reflexivity.
Qed.

Lemma Complete_does_not_recheck_the_vehicle_witness :
  Vehicle.OwnerID <$>
    vehicles
      (snd (run (service.CompleteTransaction 300 cases.secondTxnHex
                   sample.proof_of_payment sample.seller) nil
              (snd (run (service.CompleteTransaction 200 sample.txnHex
                           sample.proof_of_payment sample.seller) nil
                      cases.two_offers))))
      !! sample.vehicleID
  = Some sample.stranger.
Proof.
  refine (proj1 (proj2 (proj2 (proj2
            (Complete_does_not_recheck_the_vehicle 200 300 sample.txnHex
               cases.secondTxnHex sample.txnID cases.secondTxnID
               sample.proof_of_payment sample.proof_of_payment nil nil
               cases.two_offers (sample.sale TransactionStatusPending)
               cases.second_sale sample.corolla
               eq_refl eq_refl _ eq_refl eq_refl eq_refl eq_refl eq_refl eq_refl
               eq_refl eq_refl))))).
  discriminate.
Defined.

(** X8.  A vehicle that has been sold is not listed again.  After a
    successful Complete, every Create that names the transaction's vehicle
    is refused with an error and writes nothing, whoever calls it, whatever
    the fault plan: the vehicle is sold (or not in the store), never
    active. *)
Theorem sold_vehicle_is_not_listed_again
    now id req userID (fl : Faults) db t'
    now2 newID req2 userIDStr2 (fl2 : Faults) :
  fst (run (service.CompleteTransaction now id req userID) fl db) = Ok t' ->
  primitive.ObjectIDFromHex (CreateTransactionRequest.VehicleID req2)
    = Some (Transaction.VehicleID t') ->
  exists code msg,
    handlers.CreateTransaction now2 newID req2 userIDStr2 fl2
      (snd (run (service.CompleteTransaction now id req userID) fl db))
    = (handlers.mkResponse code (handlers.JSONError msg),
       snd (run (service.CompleteTransaction now id req userID) fl db)).
Proof.
  intros Hok Hvid. rewrite run_fst in Hok. rewrite run_snd.
  destruct (CompleteTransaction_ok _ _ _ _ _ _ _ Hok)
    as (objectID & t & _ & _ & _ & _ & -> & Hdb).
  cbn in Hvid. set (db1 := snd (fst _)) in *.
  assert (Hsold : forall v1, vehicles db1 !! Transaction.VehicleID t = Some v1 ->
                  Vehicle.Status v1 = VehicleStatusSold).
  { intros v1. rewrite Hdb. cbn [vehicles].
    destruct (vehicles db !! Transaction.VehicleID t) as [v|] eqn:Hv.
    - rewrite lookup_insert_eq. intros [= <-]. reflexivity.
    - rewrite Hv. discriminate. }
  destruct (handlers.CreateTransaction now2 newID req2 userIDStr2 fl2 db1)
    as [[code [t2|msg]] db2] eqn:E.
  - exfalso.
    assert (Hbody : handlers.body
              (fst (handlers.CreateTransaction now2 newID req2 userIDStr2 fl2 db1))
            = handlers.JSONTransaction t2) by (rewrite E; reflexivity).
    destruct (Create_answer_inv _ _ _ _ _ _ _ Hbody) as (sellerID & _ & _ & Hok2 & _).
    destruct (CreateTransaction_ok _ _ _ _ _ _ _ Hok2)
      as (vehicleID & buyerID & vehicle & Hv2 & _ & Hveh & _ & Hact & _).
    rewrite Hvid in Hv2. injection Hv2 as <-.
    rewrite (Hsold _ Hveh) in Hact. discriminate.
  - exists code, msg. f_equal.
    assert (Hbody : handlers.body
              (fst (handlers.CreateTransaction now2 newID req2 userIDStr2 fl2 db1))
            = handlers.JSONError msg) by (rewrite E; reflexivity).
    pose proof (proj1 error_answers_write_nothing
                  now2 newID req2 userIDStr2 fl2 db1 msg Hbody) as Hsame.
    rewrite E in Hsame. exact Hsame.
Qed.

Lemma sold_vehicle_is_not_listed_again_witness :
  exists code msg,
    handlers.CreateTransaction 300 cases.secondTxnID sample.cash_request
      sample.buyerHex nil
      (snd (run (service.CompleteTransaction 200 sample.txnHex
                   sample.proof_of_payment sample.seller) nil
              (sample.store TransactionStatusPending)))
    = (handlers.mkResponse code (handlers.JSONError msg),
       snd (run (service.CompleteTransaction 200 sample.txnHex
                   sample.proof_of_payment sample.seller) nil
              (sample.store TransactionStatusPending))).
Proof.
  apply (sold_vehicle_is_not_listed_again 200 sample.txnHex sample.proof_of_payment
           sample.seller nil (sample.store TransactionStatusPending)
           (service.completeSet 200 sample.proof_of_payment
              (sample.sale TransactionStatusPending))).
  - reflexivity.
  - reflexivity.
Defined.

(** X9.  An id that is not 24 hexadecimal digits is answered with 500, not
    with 400 or 404, by every handler that takes one: "invalid transaction
    ID" from Get, Update, Complete and Cancel, "invalid vehicleId" from the
    list of a vehicle's transactions; no driver call is made and nothing is
    written. *)
Theorem malformed_id_is_an_internal_error
    now id ureq creq notes userIDStr userID (fl : Faults) db :
  primitive.ObjectIDFromHex id = None ->
  primitive.ObjectIDFromHex userIDStr = Some userID ->
  UpdateTransactionRequest_Validate ureq = None ->
  CompleteTransactionRequest_Validate creq = None ->
  views.GetTransaction id fl db
    = (handlers.mkResponse http.StatusInternalServerError
         (handlers.JSONError "invalid transaction ID"), db)
  /\ handlers.UpdateTransaction now id ureq userIDStr fl db
     = (handlers.mkResponse http.StatusInternalServerError
          (handlers.JSONError "invalid transaction ID"), db)
  /\ handlers.CompleteTransaction now id creq userIDStr fl db
     = (handlers.mkResponse http.StatusInternalServerError
          (handlers.JSONError "invalid transaction ID"), db)
  /\ handlers.CancelTransaction now id notes userIDStr fl db
     = (handlers.mkResponse http.StatusInternalServerError
          (handlers.JSONError "invalid transaction ID"), db)
  /\ views.GetTransactionsByVehicle id fl db
     = (views.Answer http.StatusInternalServerError
          (views.Failed "invalid vehicleId"), db).
Proof.
  intros Hid Hu Hv Hc.
  unfold views.GetTransaction, handlers.UpdateTransaction,
    handlers.CompleteTransaction, handlers.CancelTransaction.
  rewrite Hv, Hc, !(withUser_parsed _ _ _ Hu).
  unfold views.GetTransactionsByVehicle, queries.GetTransactionsByVehicle.
  unfold queries.GetTransactionByID, service.UpdateTransaction,
    service.CompleteTransaction, service.CancelTransaction.
  rewrite Hid. repeat split.
Qed.

Lemma malformed_id_is_an_internal_error_witness :
  views.GetTransaction "not-an-id" nil (sample.store TransactionStatusPending)
  = (handlers.mkResponse http.StatusInternalServerError
       (handlers.JSONError "invalid transaction ID"),
     sample.store TransactionStatusPending).
Proof.
  refine (proj1 (malformed_id_is_an_internal_error 200 "not-an-id"
                   sample.mark_completed sample.proof_of_payment EmptyString
                   sample.sellerHex sample.seller nil
                   (sample.store TransactionStatusPending)
                   eq_refl eq_refl eq_refl eq_refl)).
Defined.

(** X10.  Update can take a transaction out of a terminal status.  Whatever
    the status of a stored transaction (completed and cancelled included),
    when one of its parties asks Update for the status pending and the
    seller then calls Complete, on a healthy store both succeed: the
    transaction is completed again, with the completion time of the second
    call. *)
Theorem Update_reopens_a_finished_transaction
    now1 now2 id objectID ureq creq userID (fl1 fl2 : Faults) db t :
  primitive.ObjectIDFromHex id = Some objectID ->
  transactions db !! objectID = Some t ->
  Transaction.SellerID t = userID \/ Transaction.BuyerID t = userID ->
  UpdateTransactionRequest.Status ureq = TransactionStatusPending ->
  quiet 2 fl1 = true -> quiet 4 fl2 = true ->
  let reopened := run (service.UpdateTransaction now1 id ureq userID) fl1 db in
  let again :=
    run (service.CompleteTransaction now2 id creq (Transaction.SellerID t)) fl2
      (snd reopened) in
  fst reopened = Ok (service.updateSet now1 ureq t)
  /\ Transaction.Status (service.updateSet now1 ureq t) = TransactionStatusPending
  /\ fst again = Ok (service.completeSet now2 creq (service.updateSet now1 ureq t))
  /\ Transaction.Status <$> transactions (snd again) !! objectID
     = Some TransactionStatusCompleted
  /\ Transaction.CompletedAt <$> transactions (snd again) !! objectID
     = Some (Some now2).
Proof.
  intros Hid Ht Hparty Hreq Hq1 Hq2 reopened again.
  pose proof (UpdateTransaction_done now1 id objectID userID fl1 db t Hid Ht ureq
                Hq1 Hparty) as H1.
  assert (E1 : reopened = (Ok (service.updateSet now1 ureq t),
                           mkDB (<[objectID := service.updateSet now1 ureq t]>
                                   (transactions db)) (vehicles db)))
    by (exact (run_eq _ _ _ _ _ _ H1)).
  assert (Hst : Transaction.Status (service.updateSet now1 ureq t)
                = TransactionStatusPending) by (cbn; rewrite Hreq; reflexivity).
  assert (Ht1 : transactions (snd reopened) !! objectID
                = Some (service.updateSet now1 ureq t))
    by (rewrite E1; apply lookup_insert_eq).
  pose proof (CompleteTransaction_done now2 id objectID (Transaction.SellerID t) fl2
                (snd reopened) (service.updateSet now1 ureq t) Hid Ht1 creq Hq2
                eq_refl Hst) as H2.
  pose proof (run_eq _ _ _ _ _ _ H2) as E2. fold again in E2.
  split; [rewrite E1; reflexivity|]. split; [exact Hst|].
  rewrite E2. cbn [fst snd transactions].
  split; [reflexivity|]. rewrite lookup_insert_eq. split; reflexivity.
Qed.

Lemma Update_reopens_a_finished_transaction_witness :
  Transaction.Status <$>
    transactions
      (snd (run (service.CompleteTransaction 400 sample.txnHex
                   sample.proof_of_payment sample.seller) nil
              (snd (run (service.UpdateTransaction 300 sample.txnHex cases.reopen
                           sample.buyer) nil
                      (sample.store TransactionStatusCancelled)))))
      !! sample.txnID
  = Some TransactionStatusCompleted.
Proof.
  refine (proj1 (proj2 (proj2 (proj2
            (Update_reopens_a_finished_transaction 300 400 sample.txnHex
               sample.txnID cases.reopen sample.proof_of_payment sample.buyer
               nil nil (sample.store TransactionStatusCancelled)
               (sample.sale TransactionStatusCancelled)
               eq_refl eq_refl _ eq_refl eq_refl eq_refl))))).
  right. reflexivity.
Defined.

(** Create consults the transactions collection for nothing but the
    freshness of the new key. *)
Lemma CreateTransaction_ignores_transactions now newID req sellerID fl txs txs' vs :
  txs !! newID = None -> txs' !! newID = None ->
  fst (fst (service.CreateTransaction now newID req sellerID fl (mkDB txs vs)))
  = fst (fst (service.CreateTransaction now newID req sellerID fl (mkDB txs' vs))).
Proof.
  intros Hn Hn'. unfold service.CreateTransaction.
  destruct (primitive.ObjectIDFromHex (CreateTransactionRequest.VehicleID req))
    as [vehicleID|]; [|reflexivity].
  destruct (primitive.ObjectIDFromHex (CreateTransactionRequest.BuyerID req))
    as [buyerID|]; [|reflexivity].
  assert (Hins : forall doc fl0,
    fst (fst ((do insertedID <- InsertOne newID doc; ret (doc insertedID))
                fl0 (mkDB txs vs)))
    = fst (fst ((do insertedID <- InsertOne newID doc; ret (doc insertedID))
                  fl0 (mkDB txs' vs)))).
  { intros doc fl0. unfold bind, InsertOne, bind, call, ret.
    destruct fl0 as [|[|] rest]; cbv beta iota delta [transactions];
      rewrite ?Hn, ?Hn'; reflexivity. }
  assert (Hfind : exists r fl', forall ts,
    notFoundAs "vehicle not found" (FindOneVehicle vehicleID) fl (mkDB ts vs)
    = (r, mkDB ts vs, fl')).
  { unfold notFoundAs, FindOneVehicle, bind, call.
    destruct fl as [|[|] rest]; cbv beta iota delta [vehicles];
      try (destruct (vs !! vehicleID)); eauto. }
  destruct Hfind as (r & fl' & Hfind).
  destruct r as [vehicle|e];
    [|rewrite !(bind_err _ _ _ _ _ _ _ (Hfind _)); reflexivity].
  rewrite !(bind_ok _ _ _ _ _ _ _ (Hfind _)).
  destruct (negb (Vehicle.OwnerID vehicle =? sellerID)%N); [reflexivity|].
  destruct (negb (String.eqb (Vehicle.Status vehicle) VehicleStatusActive));
    [reflexivity|].
  destruct (buyerID =? sellerID)%N; [reflexivity|].
  destruct (negb (String.eqb (CreateTransactionRequest.InspectionID req)
                    EmptyString));
    [destruct (primitive.ObjectIDFromHex (CreateTransactionRequest.InspectionID req));
     [|reflexivity]|].
  all: apply Hins.
Qed.

(** X11.  A pending transaction does not reserve its vehicle.  The answer of
    POST /transactions does not depend on the transactions already stored,
    as long as the new id is free: whatever is pending, completed or
    cancelled for the vehicle, the same request gets the same answer. *)
Theorem Create_ignores_stored_transactions
    now newID req userIDStr (fl : Faults) txs txs' vs :
  txs !! newID = None -> txs' !! newID = None ->
  fst (handlers.CreateTransaction now newID req userIDStr fl (mkDB txs vs))
  = fst (handlers.CreateTransaction now newID req userIDStr fl (mkDB txs' vs)).
Proof.
  intros Hn Hn'. unfold handlers.CreateTransaction.
  destruct (CreateTransactionRequest_Validate req); [reflexivity|].
  unfold handlers.withUser.
  destruct (String.eqb userIDStr EmptyString); [reflexivity|].
  destruct (primitive.ObjectIDFromHex userIDStr) as [sellerID|]; [|reflexivity].
  unfold handlers.serve.
  pose proof (CreateTransaction_ignores_transactions now newID req sellerID fl
                txs txs' vs Hn Hn') as H.
  rewrite <- !run_fst in H.
  destruct (run _ fl (mkDB txs vs)) as [r1 d1], (run _ fl (mkDB txs' vs)) as [r2 d2].
  cbn in H. subst r2. destruct r1; reflexivity.
Qed.

Lemma Create_ignores_stored_transactions_witness :
  fst (handlers.CreateTransaction 300 cases.secondTxnID sample.cash_request
         sample.sellerHex nil (sample.store TransactionStatusPending))
  = fst (handlers.CreateTransaction 300 cases.secondTxnID sample.cash_request
           sample.sellerHex nil sample.showroom).
Proof.
  apply (Create_ignores_stored_transactions 300 cases.secondTxnID
           sample.cash_request sample.sellerHex nil
           (transactions (sample.store TransactionStatusPending))
           (transactions sample.showroom) (vehicles sample.showroom)).
  - reflexivity.
  - reflexivity.
Defined.

(** ** The queries *)

Lemma wrap_small z : - 2 ^ 63 <= z < 2 ^ 63 -> goint.wrap z = z.
Proof. intros H. unfold goint.wrap. rewrite Z.mod_small; lia. Qed.

Lemma elem_of_documents db t :
  t ∈ cursor.documents db <-> exists id, transactions db !! id = Some t.
Proof.
  unfold cursor.documents. rewrite list_elem_of_fmap. split.
  - intros [[id t'] [-> H]]. exists id. apply elem_of_map_to_list. exact H.
  - intros [id H]. exists (id, t). split; [reflexivity|].
    apply elem_of_map_to_list. exact H.
Qed.

Lemma matching_Permutation f db :
  cursor.matching f db ≡ₚ List.filter f (cursor.documents db).
Proof. apply merge_sort_Permutation. Qed.

Lemma elem_of_matching f db t :
  t ∈ cursor.matching f db
  <-> (exists id, transactions db !! id = Some t) /\ f t = true.
Proof.
  rewrite matching_Permutation, <- elem_of_documents.
  rewrite !list_elem_of_In. apply filter_In.
Qed.

Lemma matching_sorted f db : StronglySorted cursor.newer (cursor.matching f db).
Proof. apply StronglySorted_merge_sort; apply _. Qed.

Lemma length_matching f db :
  length (cursor.matching f db) = length (List.filter f (cursor.documents db)).
Proof. apply Permutation_length, matching_Permutation. Qed.

Lemma Find_quiet f fl db :
  quiet 2 fl = true ->
  cursor.Find f fl db = (Ok (cursor.matching f db), db, tl (tl fl)).
Proof.
  intros Hq. unfold cursor.Find.
  rewrite (bind_ok _ _ _ _ _ _ _ (call_quiet fl db (quiet_one _ _ Hq))).
  rewrite (bind_ok _ _ _ _ _ _ _ (call_quiet (tl fl) db (quiet_tl _ _ Hq))).
  reflexivity.
Qed.

Lemma CountDocuments_quiet f fl db :
  quiet 1 fl = true ->
  cursor.CountDocuments f fl db
  = (Ok (Z.of_nat (length (cursor.matching f db))), db, tl fl).
Proof.
  intros Hq. unfold cursor.CountDocuments.
  rewrite (bind_ok _ _ _ _ _ _ _ (call_quiet fl db Hq)), length_matching.
  reflexivity.
Qed.

Lemma FindPage_quiet f skip limit fl db :
  quiet 2 fl = true -> 0 <= skip ->
  cursor.FindPage f skip limit fl db
  = (Ok (take (Z.to_nat limit) (drop (Z.to_nat skip) (cursor.matching f db))),
     db, tl (tl fl)).
Proof.
  intros Hq Hs. unfold cursor.FindPage.
  rewrite (bind_ok _ _ _ _ _ _ _ (call_quiet fl db (quiet_one _ _ Hq))).
  destruct (Z.ltb_spec skip 0) as [?|_]; [lia|].
  rewrite (bind_ok _ _ _ _ _ _ _ (call_quiet (tl fl) db (quiet_tl _ _ Hq))).
  reflexivity.
Qed.

Lemma effectivePage_bounds page : 1 <= queries.effectivePage page.
Proof. unfold queries.effectivePage. destruct (Z.ltb_spec page 1); lia. Qed.

Lemma effectiveLimit_bounds limit : 1 <= queries.effectiveLimit limit <= 100.
Proof.
  unfold queries.effectiveLimit.
  destruct (Z.ltb_spec limit 1), (Z.ltb_spec 100 limit); cbn; lia.
Qed.

Lemma effectivePage_id page : 1 <= page -> queries.effectivePage page = page.
Proof. unfold queries.effectivePage. destruct (Z.ltb_spec page 1); lia. Qed.

Lemma effectiveLimit_id limit :
  1 <= limit <= 100 -> queries.effectiveLimit limit = limit.
Proof.
  unfold queries.effectiveLimit.
  destruct (Z.ltb_spec limit 1), (Z.ltb_spec 100 limit); cbn; lia.
Qed.

(** The service's [ListTransactions] on a healthy store, as long as the
    skip fits Go's [int]. *)
Lemma ListTransactions_quiet status page limit fl db :
  quiet 3 fl = true ->
  (queries.effectivePage page - 1) * queries.effectiveLimit limit < 2 ^ 63 ->
  let all := cursor.matching (queries.withStatus status) db in
  queries.ListTransactions status page limit fl db
  = (Ok (take (Z.to_nat (queries.effectiveLimit limit))
           (drop (Z.to_nat ((queries.effectivePage page - 1)
                            * queries.effectiveLimit limit)) all),
         Z.of_nat (length all)),
     db, tl (tl (tl fl))).
Proof.
  intros Hq Hfit all. unfold queries.ListTransactions.
  pose proof (effectivePage_bounds page) as Hp.
  pose proof (effectiveLimit_bounds limit) as Hl.
  rewrite (bind_ok _ _ _ _ _ _ _ (CountDocuments_quiet _ fl db (quiet_one _ _ Hq))).
  unfold goint.mul, goint.sub.
  assert (Hle : queries.effectivePage page - 1
                <= (queries.effectivePage page - 1) * queries.effectiveLimit limit)
    by nia.
  assert (Hnn : 0 <= (queries.effectivePage page - 1) * queries.effectiveLimit limit)
    by nia.
  rewrite (wrap_small (queries.effectivePage page - 1)) by lia.
  rewrite wrap_small by lia.
  rewrite (bind_ok _ _ _ _ _ _ _
             (FindPage_quiet _ _ _ (tl fl) db (quiet_tl _ _ Hq) Hnn)).
  reflexivity.
Qed.

(** ** Further properties: the queries *)

(** X12.  GET /transactions/my on a healthy store answers 200 with exactly
    the stored transactions in which the caller is the seller or the buyer,
    each once, newest first, and with their number as the count; the store
    is left as it was. *)
Theorem GetMyTransactions_lists_the_callers_deals userIDStr userID (fl : Faults) db :
  primitive.ObjectIDFromHex userIDStr = Some userID ->
  quiet 2 fl = true ->
  exists txs,
    views.GetMyTransactions userIDStr fl db
    = (views.Answer http.StatusOK (views.Listed txs (Z.of_nat (length txs))), db)
    /\ (forall t, t ∈ txs <->
          (exists id, transactions db !! id = Some t)
          /\ (Transaction.SellerID t = userID \/ Transaction.BuyerID t = userID))
    /\ txs ≡ₚ List.filter (queries.involves userID) (cursor.documents db)
    /\ StronglySorted cursor.newer txs.
Proof.
  intros Hu Hq. exists (cursor.matching (queries.involves userID) db).
  split; [|split; [|split]].
  - unfold views.GetMyTransactions.
    destruct (String.eqb_spec userIDStr EmptyString) as [->|_];
      [discriminate Hu|].
    rewrite Hu. unfold queries.GetTransactionsByUser.
    rewrite (run_eq _ _ _ _ _ _ (Find_quiet _ fl db Hq)). reflexivity.
  - intros t. rewrite elem_of_matching. unfold queries.involves.
    rewrite orb_true_iff, !N.eqb_eq. reflexivity.
  - apply matching_Permutation.
  - apply matching_sorted.
Qed.

Lemma GetMyTransactions_lists_the_callers_deals_witness :
  exists txs,
    views.GetMyTransactions sample.buyerHex nil cases.two_offers
    = (views.Answer http.StatusOK (views.Listed txs (Z.of_nat (length txs))),
       cases.two_offers)
    /\ (forall t, t ∈ txs <->
          (exists id, transactions cases.two_offers !! id = Some t)
          /\ (Transaction.SellerID t = sample.buyer
              \/ Transaction.BuyerID t = sample.buyer))
    /\ txs ≡ₚ List.filter (queries.involves sample.buyer)
                (cursor.documents cases.two_offers)
    /\ StronglySorted cursor.newer txs.
Proof.
  apply (GetMyTransactions_lists_the_callers_deals sample.buyerHex sample.buyer
           nil cases.two_offers).
  - reflexivity.
  - reflexivity.
Defined.

(** X13.  GET /vehicles/:id/transactions on a healthy store answers 200 with
    exactly the stored transactions of that vehicle, newest first, whatever
    their status and whoever asks; a vehicle without transactions, or one
    that does not exist, gets the empty list and the count 0. *)
Theorem GetTransactionsByVehicle_lists_the_vehicles_deals
    vehicleID objectID (fl : Faults) db :
  primitive.ObjectIDFromHex vehicleID = Some objectID ->
  quiet 2 fl = true ->
  exists txs,
    views.GetTransactionsByVehicle vehicleID fl db
    = (views.Answer http.StatusOK (views.Listed txs (Z.of_nat (length txs))), db)
    /\ (forall t, t ∈ txs <->
          (exists id, transactions db !! id = Some t)
          /\ Transaction.VehicleID t = objectID)
    /\ StronglySorted cursor.newer txs
    /\ ((forall id t, transactions db !! id = Some t ->
           Transaction.VehicleID t <> objectID) -> txs = nil).
Proof.
  intros Hv Hq. exists (cursor.matching (queries.concerns objectID) db).
  assert (Hin : forall t, t ∈ cursor.matching (queries.concerns objectID) db <->
            (exists id, transactions db !! id = Some t)
            /\ Transaction.VehicleID t = objectID).
  { intros t. rewrite elem_of_matching. unfold queries.concerns.
    rewrite N.eqb_eq. reflexivity. }
  split; [|split; [|split]].
  - unfold views.GetTransactionsByVehicle, queries.GetTransactionsByVehicle.
    rewrite Hv, (run_eq _ _ _ _ _ _ (Find_quiet _ fl db Hq)). reflexivity.
  - exact Hin.
  - apply matching_sorted.
  - intros Hnone.
    destruct (cursor.matching (queries.concerns objectID) db) as [|t l] eqn:E;
      [reflexivity|].
    destruct (proj1 (Hin t) ltac:(left)) as [[id Hid] Hveh].
    destruct (Hnone id t Hid Hveh).
Qed.

Lemma GetTransactionsByVehicle_lists_the_vehicles_deals_witness :
  exists txs,
    views.GetTransactionsByVehicle sample.vehicleHex nil cases.two_offers
    = (views.Answer http.StatusOK (views.Listed txs (Z.of_nat (length txs))),
       cases.two_offers)
    /\ (forall t, t ∈ txs <->
          (exists id, transactions cases.two_offers !! id = Some t)
          /\ Transaction.VehicleID t = sample.vehicleID)
    /\ StronglySorted cursor.newer txs
    /\ ((forall id t, transactions cases.two_offers !! id = Some t ->
           Transaction.VehicleID t <> sample.vehicleID) -> txs = nil).
Proof.
  apply (GetTransactionsByVehicle_lists_the_vehicles_deals sample.vehicleHex
           sample.vehicleID nil cases.two_offers).
  - reflexivity.
  - reflexivity.
Defined.

Lemma ListTransactions_page status page limit fl db :
  quiet 3 fl = true -> 1 <= page -> 1 <= limit <= 100 ->
  (page - 1) * limit < 2 ^ 63 ->
  let all := cursor.matching (queries.withStatus status) db in
  run (queries.ListTransactions status page limit) fl db
  = (Ok (take (Z.to_nat limit) (drop (Z.to_nat ((page - 1) * limit)) all),
         Z.of_nat (length all)), db).
Proof.
  intros Hq Hp Hl Hfit all.
  pose proof (ListTransactions_quiet status page limit fl db Hq) as H.
  rewrite (effectivePage_id page Hp), (effectiveLimit_id limit Hl) in H.
  exact (run_eq _ _ _ _ _ _ (H Hfit)).
Qed.

(** Documents with distinct sort keys have one sorted order. *)
Lemma newest_first_unique (l1 l2 : list Transaction.t) :
  NoDup (Transaction.CreatedAt <$> l1) ->
  StronglySorted cursor.newer l1 -> StronglySorted cursor.newer l2 ->
  l1 ≡ₚ l2 -> l1 = l2.
Proof.
  revert l2. induction l1 as [|a l1 IH]; intros l2 Hnd H1 H2 Hp.
  - apply Permutation_nil_l in Hp. exact Hp.
  - destruct l2 as [|b l2]; [apply Permutation_nil_r in Hp; discriminate|].
    rewrite fmap_cons in Hnd. apply NoDup_cons in Hnd. destruct Hnd as [Hna Hnd].
    apply StronglySorted_inv in H1. destruct H1 as [H1 Ha].
    apply StronglySorted_inv in H2. destruct H2 as [H2 Hb].
    assert (Hab : a = b).
    { assert (Hin : a ∈ b :: l2) by (rewrite <- Hp; left).
      assert (Hin' : b ∈ a :: l1) by (rewrite Hp; left).
      apply elem_of_cons in Hin. destruct Hin as [E|Hin]; [exact E|].
      apply elem_of_cons in Hin'. destruct Hin' as [E|Hin']; [symmetry; exact E|].
      exfalso. apply Hna.
      pose proof (proj1 (Forall_forall _ _) Hb a Hin) as Hba.
      pose proof (proj1 (Forall_forall _ _) Ha b Hin') as Hab'.
      unfold cursor.newer in Hba, Hab'.
      replace (Transaction.CreatedAt a) with (Transaction.CreatedAt b) by lia.
      apply list_elem_of_fmap. exists b. split; [reflexivity|exact Hin']. }
    subst b. f_equal. apply IH; try assumption.
    apply (Permutation_cons_inv Hp).
Qed.

Lemma matching_is_the_sorted_order filter db all :
  NoDup (Transaction.CreatedAt <$> all) ->
  all ≡ₚ List.filter filter (cursor.documents db) ->
  StronglySorted cursor.newer all ->
  cursor.matching filter db = all.
Proof.
  intros Hnd Hp Hs. symmetry. apply newest_first_unique; try assumption.
  - apply matching_sorted.
  - rewrite matching_Permutation. exact Hp.
Qed.

(** X14.  The pages of the listing tile the result.  Take the filtered
    collection in the order newest first, its creation times being
    distinct (so that the order is the only one the server can return).  On
    a healthy store and with a limit between 1 and 100, pages 1 to n of
    [ListTransactions], put one after the other, are the first n * limit
    transactions of that list: no transaction is skipped and none comes
    twice; no page is longer than the limit. *)
Theorem ListTransactions_pages_tile status limit (fl : Faults) db (n : nat) all :
  quiet 3 fl = true ->
  1 <= limit <= 100 ->
  Z.of_nat n * limit < 2 ^ 63 ->
  NoDup (Transaction.CreatedAt <$> all) ->
  all ≡ₚ List.filter (queries.withStatus status) (cursor.documents db) ->
  StronglySorted cursor.newer all ->
  let page (p : nat) :=
    match fst (run (queries.ListTransactions status (Z.of_nat p) limit) fl db) with
    | Ok (txs, _) => txs
    | Err _ => nil
    end in
  concat (map page (seq 1 n)) = take (n * Z.to_nat limit) all
  /\ Forall (fun p => Z.of_nat (length (page p)) <= limit) (seq 1 n).
Proof.
  intros Hq Hl Hfit Hnd Hperm Hsorted page.
  assert (Hpage : forall p, (1 <= p <= n)%nat ->
            page p = take (Z.to_nat limit) (drop ((p - 1) * Z.to_nat limit) all)).
  { intros p Hp. unfold page.
    rewrite (ListTransactions_page status (Z.of_nat p) limit fl db Hq) by nia.
    rewrite (matching_is_the_sorted_order _ db all Hnd Hperm Hsorted).
    cbn [fst]. f_equal. f_equal.
    rewrite Z2Nat.inj_mul by lia. f_equal. lia. }
  split.
  - clear Hfit. induction n as [|n IH]; [reflexivity|].
    rewrite seq_S, map_app, concat_app, IH by (intros p Hp; apply Hpage; lia).
    cbn [map concat]. rewrite app_nil_r, Hpage by lia.
    replace (1 + n - 1)%nat with n by lia.
    rewrite take_take_drop. f_equal. lia.
  - apply Forall_forall. intros p Hp. apply elem_of_seq in Hp.
    rewrite Hpage by lia. rewrite length_take. lia.
Qed.

Lemma ListTransactions_pages_tile_witness :
  concat (map (fun p : nat =>
                 match fst (run (queries.ListTransactions EmptyString (Z.of_nat p) 1)
                              nil cases.two_offers) with
                 | Ok (txs, _) => txs
                 | Err _ => nil
                 end) (seq 1 2))
  = take (2 * Z.to_nat 1) [cases.second_sale; sample.sale TransactionStatusPending].
Proof.
  refine (proj1 (ListTransactions_pages_tile EmptyString 1 nil cases.two_offers 2
                   [cases.second_sale; sample.sale TransactionStatusPending]
                   eq_refl _ _ _ _ _)).
  - lia.
  - reflexivity.
  - apply NoDup_cons. split; [|apply NoDup_singleton].
    intros H. apply list_elem_of_singleton in H. discriminate H.
  - vm_compute. reflexivity.
  - repeat constructor. unfold cursor.newer. cbn. lia.
Defined.

(** X15.  For a limit between 1 and 100 the handler's totalPages is the
    number of pages of that size the filtered collection fills: the
    smallest number of pages that hold every transaction.  The page
    returned is empty exactly when its number is beyond totalPages. *)
Theorem ListTransactions_totalPages status page limit (fl : Faults) db :
  quiet 3 fl = true ->
  1 <= page -> 1 <= limit <= 100 ->
  (page - 1) * limit < 2 ^ 63 ->
  let total := Z.of_nat (length (cursor.matching (queries.withStatus status) db)) in
  total < 2 ^ 62 ->
  exists txs totalPages,
    views.ListTransactions status page limit fl db
    = (views.Answer http.StatusOK (views.Paged txs total page limit totalPages), db)
    /\ (totalPages - 1) * limit < total
    /\ total <= totalPages * limit
    /\ (txs = nil <-> totalPages < page).
Proof.
  intros Hq Hp Hl Hfit total Htotal.
  set (all := cursor.matching (queries.withStatus status) db) in *.
  exists (take (Z.to_nat limit) (drop (Z.to_nat ((page - 1) * limit)) all)).
  exists ((total + limit - 1) / limit).
  assert (H0 : 0 <= total) by (unfold total; lia).
  pose proof (Z.mul_div_le (total + limit - 1) limit ltac:(lia)) as Hlo.
  pose proof (Z.mul_succ_div_gt (total + limit - 1) limit ltac:(lia)) as Hhi.
  set (q := (total + limit - 1) / limit) in *.
  split; [|split; [|split]].
  - unfold views.ListTransactions.
    rewrite (ListTransactions_page status page limit fl db Hq Hp Hl Hfit).
    fold all total. unfold goint.div, goint.add, goint.sub.
    destruct (Z.eqb_spec limit 0) as [?|_]; [lia|].
    rewrite (wrap_small (total + limit)) by lia.
    rewrite (wrap_small (total + limit - 1)) by lia.
    rewrite Z.quot_div_nonneg by lia. fold q.
    rewrite wrap_small; [reflexivity|]. nia.
  - nia.
  - nia.
  - assert (Hlen : length (take (Z.to_nat limit)
                            (drop (Z.to_nat ((page - 1) * limit)) all))
                   = Nat.min (Z.to_nat limit)
                       (length all - Z.to_nat ((page - 1) * limit)))
      by (rewrite length_take, length_drop; reflexivity).
    assert (Hskip : 0 <= (page - 1) * limit) by nia.
    split.
    + intros E. rewrite E in Hlen. cbn [length] in Hlen.
      assert (total <= (page - 1) * limit) by (unfold total; lia). nia.
    + intros Hlt. apply length_zero_iff_nil. rewrite Hlen.
      assert (total <= (page - 1) * limit) by nia. unfold total in *. lia.
Qed.

Lemma ListTransactions_totalPages_witness :
  exists txs totalPages,
    views.ListTransactions EmptyString 2 1 nil cases.two_offers
    = (views.Answer http.StatusOK
         (views.Paged txs
            (Z.of_nat (length (cursor.matching (queries.withStatus EmptyString)
                                 cases.two_offers))) 2 1 totalPages),
       cases.two_offers)
    /\ (totalPages - 1) * 1
       < Z.of_nat (length (cursor.matching (queries.withStatus EmptyString)
                             cases.two_offers))
    /\ Z.of_nat (length (cursor.matching (queries.withStatus EmptyString)
                           cases.two_offers)) <= totalPages * 1
    /\ (txs = nil <-> totalPages < 2).
Proof.
  apply (ListTransactions_totalPages EmptyString 2 1 nil cases.two_offers).
  - reflexivity.
  - lia.
  - lia.
  - reflexivity.
  - vm_compute. reflexivity.
Defined.

(** X16.  GET /transactions?limit=0 (also a limit that is no number, for
    which the parser yields 0) makes the handler divide by zero.  The
    service has replaced the limit by 10 and has served the page; the
    handler then computes totalPages with the limit as given, and panics
    instead of answering. *)
Theorem ListTransactions_limit_zero_panics status page (fl : Faults) db :
  quiet 3 fl = true ->
  page < 2 ^ 59 ->
  fst (run (queries.ListTransactions status page 0) fl db)
  = Ok (take 10 (drop (Z.to_nat ((queries.effectivePage page - 1) * 10))
                   (cursor.matching (queries.withStatus status) db)),
        Z.of_nat (length (cursor.matching (queries.withStatus status) db)))
  /\ views.ListTransactions status page 0 fl db = (views.Panic, db).
Proof.
  intros Hq Hp.
  assert (Hfit : (queries.effectivePage page - 1) * queries.effectiveLimit 0 < 2 ^ 63).
  { change (queries.effectiveLimit 0) with 10. unfold queries.effectivePage.
    destruct (Z.ltb_spec page 1); lia. }
  pose proof (run_eq _ _ _ _ _ _
                (ListTransactions_quiet status page 0 fl db Hq Hfit)) as H.
  change (queries.effectiveLimit 0) with 10 in H.
  split.
  - rewrite H. reflexivity.
  - unfold views.ListTransactions. rewrite H. reflexivity.
Qed.

Lemma ListTransactions_limit_zero_panics_witness :
  views.ListTransactions EmptyString 1 0 nil cases.two_offers
  = (views.Panic, cases.two_offers).
Proof.
  refine (proj2 (ListTransactions_limit_zero_panics EmptyString 1 nil
                   cases.two_offers eq_refl _)).
  lia.
Defined.

(** *** The queries only read *)

Lemma readonly_get : readonly cursor.get.
Proof. intros fl db. reflexivity. Qed.

Lemma readonly_Find f : readonly (cursor.Find f).
Proof.
  unfold cursor.Find.
  repeat (apply readonly_bind; [first [apply readonly_call | apply readonly_get]|intros ?]).
  apply readonly_ret.
Qed.

Lemma readonly_CountDocuments f : readonly (cursor.CountDocuments f).
Proof.
  unfold cursor.CountDocuments.
  repeat (apply readonly_bind; [first [apply readonly_call | apply readonly_get]|intros ?]).
  apply readonly_ret.
Qed.

Lemma readonly_FindPage f skip limit : readonly (cursor.FindPage f skip limit).
Proof.
  unfold cursor.FindPage. apply readonly_bind; [apply readonly_call|intros ?].
  destruct (skip <? 0); [apply readonly_fail|].
  repeat (apply readonly_bind; [first [apply readonly_call | apply readonly_get]|intros ?]).
  apply readonly_ret.
Qed.

Lemma readonly_GetTransactionByID id : readonly (queries.GetTransactionByID id).
Proof.
  unfold queries.GetTransactionByID.
  destruct (primitive.ObjectIDFromHex id); [|apply readonly_fail].
  apply readonly_notFoundAs, readonly_FindOneTransaction.
Qed.

Lemma readonly_GetTransactionsByVehicle id :
  readonly (queries.GetTransactionsByVehicle id).
Proof.
  unfold queries.GetTransactionsByVehicle.
  destruct (primitive.ObjectIDFromHex id); [apply readonly_Find|apply readonly_fail].
Qed.

Lemma readonly_ListTransactions status page limit :
  readonly (queries.ListTransactions status page limit).
Proof.
  unfold queries.ListTransactions.
  apply readonly_bind; [apply readonly_CountDocuments|intros ?].
  apply readonly_bind; [apply readonly_FindPage|intros ?].
  apply readonly_ret.
Qed.

Lemma readonly_run {A} (m : M A) fl db : readonly m -> snd (run m fl db) = db.
Proof. intros H. rewrite run_snd. apply H. Qed.

(** X17.  The four GET handlers of the transaction API never write: whatever
    the request and whatever the driver does (errors included), the store
    after the request is the store before it. *)
Theorem reads_write_nothing id userIDStr vehicleID status page limit (fl : Faults) db :
  snd (views.GetTransaction id fl db) = db
  /\ snd (views.GetMyTransactions userIDStr fl db) = db
  /\ snd (views.GetTransactionsByVehicle vehicleID fl db) = db
  /\ snd (views.ListTransactions status page limit fl db) = db.
Proof.
  split; [|split; [|split]].
  - unfold views.GetTransaction, handlers.serve.
    pose proof (readonly_run _ fl db (readonly_GetTransactionByID id)) as H.
    destruct (run _ fl db) as [[t|e] db']; exact H.
  - unfold views.GetMyTransactions.
    destruct (String.eqb userIDStr EmptyString); [reflexivity|].
    destruct (primitive.ObjectIDFromHex userIDStr) as [userID|]; [|reflexivity].
    pose proof (readonly_run _ fl db (readonly_Find (queries.involves userID))) as H.
    unfold queries.GetTransactionsByUser.
    destruct (run _ fl db) as [[t|e] db']; exact H.
  - unfold views.GetTransactionsByVehicle.
    pose proof (readonly_run _ fl db (readonly_GetTransactionsByVehicle vehicleID)) as H.
    destruct (run _ fl db) as [[t|e] db']; exact H.
  - unfold views.ListTransactions.
    pose proof (readonly_run _ fl db (readonly_ListTransactions status page limit)) as H.
    destruct (run _ fl db) as [[[txs total]|e] db']; [|exact H].
    destruct (goint.div _ _); exact H.
Qed.

(** ** The vehicle service *)

Import vehicle_models.

Lemma FindOneOwned_quiet id owner fl db :
  quiet 1 fl = true ->
  vehicle_service.FindOneOwned id owner fl db
  = (match vehicles db !! id with
     | Some v => if (Vehicle.OwnerID v =? owner)%N then Ok v else Err ErrNoDocuments
     | None => Err ErrNoDocuments
     end, db, tl fl).
Proof.
  intros Hq. unfold vehicle_service.FindOneOwned.
  rewrite (bind_ok _ _ _ _ _ _ _ (call_quiet fl db Hq)).
  destruct (vehicles db !! id) as [v|]; [|reflexivity].
  destruct (Vehicle.OwnerID v =? owner)%N; reflexivity.
Qed.

Lemma UpdateOneOwned_quiet id owner set fl db :
  quiet 1 fl = true ->
  vehicle_service.UpdateOneOwned id owner set fl db
  = match vehicles db !! id with
    | Some v =>
        if (Vehicle.OwnerID v =? owner)%N then
          (Ok 1%N, mkDB (transactions db) (<[id := set v]> (vehicles db)), tl fl)
        else (Ok 0%N, db, tl fl)
    | None => (Ok 0%N, db, tl fl)
    end.
Proof.
  intros Hq. unfold vehicle_service.UpdateOneOwned.
  rewrite (bind_ok _ _ _ _ _ _ _ (call_quiet fl db Hq)). reflexivity.
Qed.

Section OnStoredVehicle.
Variables (vehicleID ownerID : string) (vehicleObjectID ownerObjectID : N).
Variables (fl : Faults) (db : DB) (v : Vehicle.t).
Hypothesis Hvid : primitive.ObjectIDFromHex vehicleID = Some vehicleObjectID.
Hypothesis Hoid : primitive.ObjectIDFromHex ownerID = Some ownerObjectID.
Hypothesis Hv : vehicles db !! vehicleObjectID = Some v.

Lemma UpdateVehicle_done now req :
  UpdateVehicleRequest_Validate req = None ->
  quiet 3 fl = true ->
  Vehicle.OwnerID v = ownerObjectID ->
  vehicle_service.UpdateVehicle now vehicleID ownerID req fl db
  = (Ok (vehicle_service.updateSet now req v),
     mkDB (transactions db)
       (<[vehicleObjectID := vehicle_service.updateSet now req v]> (vehicles db)),
     tl (tl (tl fl))).
Proof.
  intros Hval Hq Hown. unfold vehicle_service.UpdateVehicle.
  rewrite Hval, Hvid, Hoid.
  pose proof (FindOneOwned_quiet vehicleObjectID ownerObjectID fl db
                (quiet_one _ _ Hq)) as Hf.
  rewrite Hv, Hown, N.eqb_refl in Hf.
  rewrite (bind_ok _ _ _ _ _ _ _ (notFoundAs_ok _ _ _ _ _ _ _ Hf)).
  pose proof (UpdateOne_quiet vehicleObjectID (vehicle_service.updateSet now req)
                (tl fl) db (quiet_one _ _ (quiet_tl _ _ Hq))) as Hu.
  rewrite Hv in Hu.
  assert (He : vehicle_service.errorAs "failed to update vehicle"
                 (UpdateOne vehicleObjectID (vehicle_service.updateSet now req))
                 (tl fl) db
               = (Ok 1%N,
                  mkDB (transactions db)
                    (<[vehicleObjectID := vehicle_service.updateSet now req v]>
                       (vehicles db)), tl (tl fl)))
    by (unfold vehicle_service.errorAs; rewrite Hu; reflexivity).
  rewrite (bind_ok _ _ _ _ _ _ _ He).
  unfold vehicle_service.GetVehicleByID. rewrite Hvid.
  apply notFoundAs_ok.
  rewrite FindOneVehicle_quiet by (apply (quiet_tl 1), (quiet_tl 2), Hq).
  cbn [vehicles]. rewrite lookup_insert_eq. reflexivity.
Qed.

Lemma UpdateVehicle_refused now req :
  UpdateVehicleRequest_Validate req = None ->
  quiet 1 fl = true ->
  Vehicle.OwnerID v <> ownerObjectID ->
  vehicle_service.UpdateVehicle now vehicleID ownerID req fl db
  = (Err (New "vehicle not found or unauthorized"), db, tl fl).
Proof.
  intros Hval Hq Hown. unfold vehicle_service.UpdateVehicle.
  rewrite Hval, Hvid, Hoid.
  apply bind_err. unfold notFoundAs.
  rewrite (FindOneOwned_quiet _ _ _ _ Hq), Hv.
  destruct (N.eqb_spec (Vehicle.OwnerID v) ownerObjectID); [contradiction|reflexivity].
Qed.

Lemma DeleteVehicle_done now :
  quiet 1 fl = true ->
  Vehicle.OwnerID v = ownerObjectID ->
  vehicle_service.DeleteVehicle now vehicleID ownerID fl db
  = (Ok tt,
     mkDB (transactions db)
       (<[vehicleObjectID := vehicle_service.archiveSet now v]> (vehicles db)),
     tl fl).
Proof.
  intros Hq Hown. unfold vehicle_service.DeleteVehicle. rewrite Hvid, Hoid.
  pose proof (UpdateOneOwned_quiet vehicleObjectID ownerObjectID
                (vehicle_service.archiveSet now) fl db Hq) as Hu.
  rewrite Hv, Hown, N.eqb_refl in Hu.
  rewrite (bind_ok _ _ _ _ _ _ _ Hu). reflexivity.
Qed.

Lemma DeleteVehicle_refused now :
  quiet 1 fl = true ->
  Vehicle.OwnerID v <> ownerObjectID ->
  vehicle_service.DeleteVehicle now vehicleID ownerID fl db
  = (Err (New "vehicle not found or unauthorized"), db, tl fl).
Proof.
  intros Hq Hown. unfold vehicle_service.DeleteVehicle. rewrite Hvid, Hoid.
  pose proof (UpdateOneOwned_quiet vehicleObjectID ownerObjectID
                (vehicle_service.archiveSet now) fl db Hq) as Hu.
  rewrite Hv in Hu.
  destruct (N.eqb_spec (Vehicle.OwnerID v) ownerObjectID); [contradiction|].
  rewrite (bind_ok _ _ _ _ _ _ _ Hu). reflexivity.
Qed.

End OnStoredVehicle.

(** ** Further properties: the vehicle service *)

(** X18.  UpdateVehicle keeps the make, model, year, status, location,
    images and meta that the request leaves out, but not the price and the
    mileage: a valid request that leaves them out (they decode to 0) sets
    both to 0 on the stored vehicle.  Identity, owner and creation time
    never change. *)
Theorem UpdateVehicle_resets_omitted_price_and_mileage
    now vehicleID ownerID vehicleObjectID ownerObjectID req (fl : Faults) db v :
  primitive.ObjectIDFromHex vehicleID = Some vehicleObjectID ->
  primitive.ObjectIDFromHex ownerID = Some ownerObjectID ->
  vehicles db !! vehicleObjectID = Some v ->
  Vehicle.OwnerID v = ownerObjectID ->
  UpdateVehicleRequest_Validate req = None ->
  UpdateVehicleRequest.Price req = 0%float ->
  UpdateVehicleRequest.Mileage req = 0%float ->
  quiet 3 fl = true ->
  exists v',
    run (vehicle_service.UpdateVehicle now vehicleID ownerID req) fl db
    = (Ok v', mkDB (transactions db) (<[vehicleObjectID := v']> (vehicles db)))
    /\ Vehicle.Price v' = 0%float
    /\ Vehicle.Mileage v' = 0%float
    /\ (UpdateVehicleRequest.Make req = EmptyString -> Vehicle.Make v' = Vehicle.Make v)
    /\ (UpdateVehicleRequest.Model req = EmptyString ->
        Vehicle.Model v' = Vehicle.Model v)
    /\ (UpdateVehicleRequest.Year req = 0 -> Vehicle.Year v' = Vehicle.Year v)
    /\ (UpdateVehicleRequest.Status req = EmptyString ->
        Vehicle.Status v' = Vehicle.Status v)
    /\ (UpdateVehicleRequest.Location req = None ->
        Vehicle.Location v' = Vehicle.Location v)
    /\ (UpdateVehicleRequest.Images req = None -> Vehicle.Images v' = Vehicle.Images v)
    /\ (UpdateVehicleRequest.Meta req = None -> Vehicle.Meta v' = Vehicle.Meta v)
    /\ Vehicle.ID v' = Vehicle.ID v
    /\ Vehicle.OwnerID v' = Vehicle.OwnerID v
    /\ Vehicle.CreatedAt v' = Vehicle.CreatedAt v.
Proof.
  intros Hvid Hoid Hv Hown Hval Hprice Hmileage Hq.
  exists (vehicle_service.updateSet now req v).
  split.
  - apply run_eq with (fl' := tl (tl (tl fl))).
    exact (UpdateVehicle_done vehicleID ownerID vehicleObjectID ownerObjectID
             fl db v Hvid Hoid Hv now req Hval Hq Hown).
  - cbn [vehicle_service.updateSet Vehicle.Price Vehicle.Mileage Vehicle.Make
           Vehicle.Model Vehicle.Year Vehicle.Status Vehicle.Location
           Vehicle.Images Vehicle.Meta Vehicle.ID Vehicle.OwnerID
           Vehicle.CreatedAt].
    rewrite Hprice, Hmileage.
    repeat split; try reflexivity; intros ->; reflexivity.
Qed.

Lemma UpdateVehicle_resets_omitted_price_and_mileage_witness :
  exists v',
    run (vehicle_service.UpdateVehicle 300 sample.vehicleHex sample.sellerHex
           cases.relist) nil sample.showroom
    = (Ok v', mkDB (transactions sample.showroom)
                (<[sample.vehicleID := v']> (vehicles sample.showroom)))
    /\ Vehicle.Price v' = 0%float
    /\ Vehicle.Mileage v' = 0%float.
Proof.
  destruct (UpdateVehicle_resets_omitted_price_and_mileage 300 sample.vehicleHex
              sample.sellerHex sample.vehicleID sample.seller cases.relist nil
              sample.showroom sample.corolla
              eq_refl eq_refl eq_refl eq_refl eq_refl eq_refl eq_refl eq_refl)
    as (v' & Hrun & Hp & Hm & _).
  exists v'. repeat split; assumption.
Defined.

(** X19.  Only the owner changes a vehicle.  For a caller who does not own
    the vehicle, and for a vehicle that does not exist, UpdateVehicle and
    DeleteVehicle fail with the same text "vehicle not found or
    unauthorized" and write nothing. *)
Theorem only_the_owner_changes_a_vehicle
    now vehicleID userID vehicleObjectID userObjectID req (fl : Faults) db :
  primitive.ObjectIDFromHex vehicleID = Some vehicleObjectID ->
  primitive.ObjectIDFromHex userID = Some userObjectID ->
  (forall v, vehicles db !! vehicleObjectID = Some v ->
             Vehicle.OwnerID v <> userObjectID) ->
  UpdateVehicleRequest_Validate req = None ->
  quiet 1 fl = true ->
  run (vehicle_service.UpdateVehicle now vehicleID userID req) fl db
  = (Err (New "vehicle not found or unauthorized"), db)
  /\ run (vehicle_service.DeleteVehicle now vehicleID userID) fl db
     = (Err (New "vehicle not found or unauthorized"), db).
Proof.
  intros Hvid Hoid Hown Hval Hq.
  destruct (vehicles db !! vehicleObjectID) as [v|] eqn:Hv.
  - specialize (Hown v eq_refl). split.
    + exact (run_eq _ _ _ _ _ _
               (UpdateVehicle_refused vehicleID userID vehicleObjectID userObjectID
                  fl db v Hvid Hoid Hv now req Hval Hq Hown)).
    + exact (run_eq _ _ _ _ _ _
               (DeleteVehicle_refused vehicleID userID vehicleObjectID userObjectID
                  fl db v Hvid Hoid Hv now Hq Hown)).
  - split; apply run_eq with (fl' := tl fl).
    + unfold vehicle_service.UpdateVehicle. rewrite Hval, Hvid, Hoid.
      apply bind_err. unfold notFoundAs.
      rewrite (FindOneOwned_quiet _ _ _ _ Hq), Hv. reflexivity.
    + unfold vehicle_service.DeleteVehicle. rewrite Hvid, Hoid.
      pose proof (UpdateOneOwned_quiet vehicleObjectID userObjectID
                    (vehicle_service.archiveSet now) fl db Hq) as Hu.
      rewrite Hv in Hu. rewrite (bind_ok _ _ _ _ _ _ _ Hu). reflexivity.
Qed.

Lemma only_the_owner_changes_a_vehicle_witness :
  run (vehicle_service.DeleteVehicle 300 sample.vehicleHex sample.buyerHex) nil
    sample.showroom
  = (Err (New "vehicle not found or unauthorized"), sample.showroom).
Proof.
  refine (proj2 (only_the_owner_changes_a_vehicle 300 sample.vehicleHex
                   sample.buyerHex sample.vehicleID sample.buyer cases.relist nil
                   sample.showroom eq_refl eq_refl _ eq_refl eq_refl)).
  intros v Hv. vm_compute in Hv. injection Hv as <-. discriminate.
Defined.

(** X20.  Ownership moves with the sale.  After a Complete that succeeded on
    a stored vehicle, the seller can neither update nor delete that vehicle
    any more, and the buyer can do both. *)
Theorem ownership_moves_with_the_sale
    now now' id creq sellerID vehicleHex sellerHex buyerHex req
    (fl fl' : Faults) db t' v :
  fst (run (service.CompleteTransaction now id creq sellerID) fl db) = Ok t' ->
  vehicles db !! Transaction.VehicleID t' = Some v ->
  primitive.ObjectIDFromHex vehicleHex = Some (Transaction.VehicleID t') ->
  primitive.ObjectIDFromHex sellerHex = Some sellerID ->
  primitive.ObjectIDFromHex buyerHex = Some (Transaction.BuyerID t') ->
  Transaction.BuyerID t' <> sellerID ->
  UpdateVehicleRequest_Validate req = None ->
  quiet 3 fl' = true ->
  let sold := snd (run (service.CompleteTransaction now id creq sellerID) fl db) in
  run (vehicle_service.UpdateVehicle now' vehicleHex sellerHex req) fl' sold
  = (Err (New "vehicle not found or unauthorized"), sold)
  /\ run (vehicle_service.DeleteVehicle now' vehicleHex sellerHex) fl' sold
     = (Err (New "vehicle not found or unauthorized"), sold)
  /\ fst (run (vehicle_service.UpdateVehicle now' vehicleHex buyerHex req) fl' sold)
     = Ok (vehicle_service.updateSet now' req
             (service.vehicleSet now (Transaction.BuyerID t') v))
  /\ fst (run (vehicle_service.DeleteVehicle now' vehicleHex buyerHex) fl' sold)
     = Ok tt.
Proof.
  intros Hok Hv Hvid Hsid Hbid Hne Hval Hq sold.
  rewrite run_fst in Hok.
  destruct (CompleteTransaction_ok _ _ _ _ _ _ _ Hok)
    as (objectID & t & Hid & Ht & Hs & Hp & Ht' & Hdb).
  assert (Hveh : Transaction.VehicleID t = Transaction.VehicleID t')
    by (rewrite Ht'; reflexivity).
  assert (Hbuy : Transaction.BuyerID t = Transaction.BuyerID t')
    by (rewrite Ht'; reflexivity).
  assert (Hsold : vehicles sold !! Transaction.VehicleID t'
                  = Some (service.vehicleSet now (Transaction.BuyerID t') v)).
  { unfold sold. rewrite run_snd, Hdb. cbn [vehicles].
    rewrite Hveh, Hv, Hbuy. apply lookup_insert_eq. }
  pose proof (quiet_one _ _ Hq) as Hq1.
  split; [|split; [|split]].
  - exact (run_eq _ _ _ _ _ _
             (UpdateVehicle_refused vehicleHex sellerHex _ sellerID fl' sold _
                Hvid Hsid Hsold now' req Hval Hq1 Hne)).
  - exact (run_eq _ _ _ _ _ _
             (DeleteVehicle_refused vehicleHex sellerHex _ sellerID fl' sold _
                Hvid Hsid Hsold now' Hq1 Hne)).
  - rewrite (run_eq _ _ _ _ _ _
               (UpdateVehicle_done vehicleHex buyerHex _ _ fl' sold _
                  Hvid Hbid Hsold now' req Hval Hq eq_refl)).
    reflexivity.
  - rewrite (run_eq _ _ _ _ _ _
               (DeleteVehicle_done vehicleHex buyerHex _ _ fl' sold _
                  Hvid Hbid Hsold now' Hq1 eq_refl)).
    reflexivity.
Qed.

Lemma ownership_moves_with_the_sale_witness :
  run (vehicle_service.UpdateVehicle 300 sample.vehicleHex sample.sellerHex
         cases.relist) nil
    (snd (run (service.CompleteTransaction 200 sample.txnHex
                 sample.proof_of_payment sample.seller) nil
            (sample.store TransactionStatusPending)))
  = (Err (New "vehicle not found or unauthorized"),
     snd (run (service.CompleteTransaction 200 sample.txnHex
                 sample.proof_of_payment sample.seller) nil
            (sample.store TransactionStatusPending))).
Proof.
  refine (proj1 (ownership_moves_with_the_sale 200 300 sample.txnHex
                   sample.proof_of_payment sample.seller sample.vehicleHex
                   sample.sellerHex sample.buyerHex cases.relist nil nil
                   (sample.store TransactionStatusPending)
                   (service.completeSet 200 sample.proof_of_payment
                      (sample.sale TransactionStatusPending))
                   sample.corolla
                   eq_refl eq_refl eq_refl eq_refl eq_refl _ eq_refl eq_refl)).
  discriminate.
Defined.

(** X21.  DeleteVehicle is a soft delete.  On a healthy store the owner's
    delete succeeds and the vehicle stays in the collection with the
    status archived and everything but updatedAt as before; it can still be
    fetched by its id, the transactions are untouched, and a new transaction
    for it is refused with "vehicle is not available for sale". *)
Theorem DeleteVehicle_is_a_soft_delete
    now vehicleID ownerID vehicleObjectID ownerObjectID (fl : Faults) db v :
  primitive.ObjectIDFromHex vehicleID = Some vehicleObjectID ->
  primitive.ObjectIDFromHex ownerID = Some ownerObjectID ->
  vehicles db !! vehicleObjectID = Some v ->
  Vehicle.OwnerID v = ownerObjectID ->
  quiet 1 fl = true ->
  let archived := snd (run (vehicle_service.DeleteVehicle now vehicleID ownerID) fl db) in
  fst (run (vehicle_service.DeleteVehicle now vehicleID ownerID) fl db) = Ok tt
  /\ vehicles archived !! vehicleObjectID = Some (vehicle_service.archiveSet now v)
  /\ (forall other, other <> vehicleObjectID ->
        vehicles archived !! other = vehicles db !! other)
  /\ transactions archived = transactions db
  /\ (forall fl', quiet 1 fl' = true ->
        run (vehicle_service.GetVehicleByID vehicleID) fl' archived
        = (Ok (vehicle_service.archiveSet now v), archived))
  /\ (forall now' newID req buyerID fl',
        primitive.ObjectIDFromHex (CreateTransactionRequest.VehicleID req)
        = Some vehicleObjectID ->
        primitive.ObjectIDFromHex (CreateTransactionRequest.BuyerID req)
        = Some buyerID ->
        quiet 1 fl' = true ->
        run (service.CreateTransaction now' newID req ownerObjectID) fl' archived
        = (Err (New "vehicle is not available for sale"), archived)).
Proof.
  intros Hvid Hoid Hv Hown Hq archived.
  pose proof (run_eq _ _ _ _ _ _
                (DeleteVehicle_done vehicleID ownerID vehicleObjectID ownerObjectID
                   fl db v Hvid Hoid Hv now Hq Hown)) as Hrun.
  assert (Ha : archived
               = mkDB (transactions db)
                   (<[vehicleObjectID := vehicle_service.archiveSet now v]>
                      (vehicles db)))
    by (unfold archived; rewrite Hrun; reflexivity).
  assert (Hlook : vehicles archived !! vehicleObjectID
                  = Some (vehicle_service.archiveSet now v))
    by (rewrite Ha; apply lookup_insert_eq).
  split; [rewrite Hrun; reflexivity|].
  split; [exact Hlook|].
  split; [intros other Hne; rewrite Ha; cbn [vehicles];
          apply lookup_insert_ne; congruence|].
  split; [rewrite Ha; reflexivity|].
  split.
  - intros fl' Hq'. apply run_eq with (fl' := tl fl').
    unfold vehicle_service.GetVehicleByID. rewrite Hvid.
    apply notFoundAs_ok. rewrite (FindOneVehicle_quiet _ _ _ Hq'), Hlook.
    reflexivity.
  - intros now' newID req buyerID fl' Hrv Hrb Hq'.
    apply run_eq with (fl' := tl fl').
    unfold service.CreateTransaction. rewrite Hrv, Hrb.
    assert (Hf : notFoundAs "vehicle not found" (FindOneVehicle vehicleObjectID)
                   fl' archived
                 = (Ok (vehicle_service.archiveSet now v), archived, tl fl')).
    { apply notFoundAs_ok. rewrite (FindOneVehicle_quiet _ _ _ Hq'), Hlook.
      reflexivity. }
    rewrite (bind_ok _ _ _ _ _ _ _ Hf).
    cbn [vehicle_service.archiveSet Vehicle.OwnerID Vehicle.Status].
    rewrite Hown, N.eqb_refl. reflexivity.
Qed.

Lemma DeleteVehicle_is_a_soft_delete_witness :
  vehicles (snd (run (vehicle_service.DeleteVehicle 300 sample.vehicleHex
                        sample.sellerHex) nil sample.showroom))
    !! sample.vehicleID
  = Some (vehicle_service.archiveSet 300 sample.corolla).
Proof.
  refine (proj1 (proj2 (DeleteVehicle_is_a_soft_delete 300 sample.vehicleHex
                          sample.sellerHex sample.vehicleID sample.seller nil
                          sample.showroom sample.corolla
                          eq_refl eq_refl eq_refl eq_refl eq_refl))).
Defined.

(** X22.  PUT /vehicles/:id can report a failure after it has written.  The
    service reads the vehicle back once the update is applied; when that
    last read fails, the service returns the driver's error and the handler
    answers 500 "Failed to update vehicle", although the stored vehicle has
    the new values. *)
Theorem UpdateVehicle_may_fail_after_writing
    now vehicleID ownerID vehicleObjectID ownerObjectID req (rest : Faults) db v :
  primitive.ObjectIDFromHex vehicleID = Some vehicleObjectID ->
  primitive.ObjectIDFromHex ownerID = Some ownerObjectID ->
  vehicles db !! vehicleObjectID = Some v ->
  Vehicle.OwnerID v = ownerObjectID ->
  UpdateVehicleRequest_Validate req = None ->
  run (vehicle_service.UpdateVehicle now vehicleID ownerID req)
    (false :: false :: true :: rest) db
  = (Err ErrDriver,
     mkDB (transactions db)
       (<[vehicleObjectID := vehicle_service.updateSet now req v]> (vehicles db)))
  /\ vehicle_handlers.UpdateVehicle now ownerID vehicleID req
       (false :: false :: true :: rest) db
     = (vehicle_handlers.mkResponse http.StatusInternalServerError
          (vehicle_handlers.JSONError "Failed to update vehicle"),
        mkDB (transactions db)
          (<[vehicleObjectID := vehicle_service.updateSet now req v]> (vehicles db))).
Proof.
  intros Hvid Hoid Hv Hown Hval.
  assert (Hrun : run (vehicle_service.UpdateVehicle now vehicleID ownerID req)
                   (false :: false :: true :: rest) db
                 = (Err ErrDriver,
                    mkDB (transactions db)
                      (<[vehicleObjectID := vehicle_service.updateSet now req v]>
                         (vehicles db))));
    [|split; [exact Hrun|];
      unfold vehicle_handlers.UpdateVehicle;
      rewrite (ObjectIDFromHex_nonempty _ _ Hoid),
        (ObjectIDFromHex_nonempty _ _ Hvid), Hval, Hrun; reflexivity].
  apply run_eq with (fl' := rest).
  unfold vehicle_service.UpdateVehicle. rewrite Hval, Hvid, Hoid.
  pose proof (FindOneOwned_quiet vehicleObjectID ownerObjectID
                (false :: false :: true :: rest) db eq_refl) as Hf.
  rewrite Hv, Hown, N.eqb_refl in Hf.
  rewrite (bind_ok _ _ _ _ _ _ _ (notFoundAs_ok _ _ _ _ _ _ _ Hf)).
  cbn [tl].
  pose proof (UpdateOne_quiet vehicleObjectID (vehicle_service.updateSet now req)
                (false :: true :: rest) db eq_refl) as Hu.
  rewrite Hv in Hu.
  assert (He : vehicle_service.errorAs "failed to update vehicle"
                 (UpdateOne vehicleObjectID (vehicle_service.updateSet now req))
                 (false :: true :: rest) db
               = (Ok 1%N,
                  mkDB (transactions db)
                    (<[vehicleObjectID := vehicle_service.updateSet now req v]>
                       (vehicles db)), true :: rest))
    by (unfold vehicle_service.errorAs; rewrite Hu; reflexivity).
  rewrite (bind_ok _ _ _ _ _ _ _ He).
  unfold vehicle_service.GetVehicleByID. rewrite Hvid. reflexivity.
Qed.

Lemma UpdateVehicle_may_fail_after_writing_witness :
  run (vehicle_service.UpdateVehicle 300 sample.vehicleHex sample.sellerHex
         cases.relist) (false :: false :: true :: nil) sample.showroom
  = (Err ErrDriver,
     mkDB (transactions sample.showroom)
       (<[sample.vehicleID :=
            vehicle_service.updateSet 300 cases.relist sample.corolla]>
          (vehicles sample.showroom))).
Proof.
  refine (proj1 (UpdateVehicle_may_fail_after_writing 300 sample.vehicleHex
                   sample.sellerHex sample.vehicleID sample.seller cases.relist nil
                   sample.showroom sample.corolla
                   eq_refl eq_refl eq_refl eq_refl eq_refl)).
Defined.

(** ** The inspection report *)

Import inspection_models.

(** An issue the loop of [Validate] passes over. *)
Lemma validateIssues_cons i issue rest :
  InspectionIssue.Category issue <> EmptyString ->
  In (InspectionIssue.Severity issue) validSeverities ->
  InspectionIssue.Description issue <> EmptyString ->
  validateIssues i (issue :: rest) = validateIssues (i + 1) rest.
Proof.
  intros Hc Hs Hd. cbn [validateIssues].
  destruct (String.eqb_spec (InspectionIssue.Category issue) EmptyString);
    [contradiction|].
  destruct (String.eqb_spec (InspectionIssue.Severity issue) EmptyString) as [E|_].
  { rewrite E in Hs. cbn in Hs. intuition discriminate. }
  rewrite (proj2 (member_In _ _) Hs). cbn [negb].
  destruct (String.eqb_spec (InspectionIssue.Description issue) EmptyString);
    [contradiction|reflexivity].
Qed.

Lemma validateIssues_accepts_iff i issues :
  validateIssues i issues = None
  <-> Forall (fun issue =>
                InspectionIssue.Category issue <> EmptyString
                /\ In (InspectionIssue.Severity issue) validSeverities
                /\ InspectionIssue.Description issue <> EmptyString) issues.
Proof.
  revert i. induction issues as [|issue rest IH]; intros i.
  - split; [constructor|reflexivity].
  - split.
    + cbn [validateIssues].
      destruct (String.eqb_spec (InspectionIssue.Category issue) EmptyString);
        [discriminate|].
      destruct (String.eqb_spec (InspectionIssue.Severity issue) EmptyString);
        [discriminate|].
      destruct (member (InspectionIssue.Severity issue) validSeverities) eqn:Hm;
        [|discriminate]. cbn [negb].
      destruct (String.eqb_spec (InspectionIssue.Description issue) EmptyString);
        [discriminate|].
      intros H. constructor; [|apply (IH (i + 1)), H].
      split; [assumption|]. split; [apply member_In, Hm|assumption].
    + intros H. apply Forall_cons in H. destruct H as [(Hc & Hs & Hd) Hrest].
      rewrite (validateIssues_cons i issue rest Hc Hs Hd). apply IH, Hrest.
Qed.

(** ** Further properties: the inspection report *)

(** X23.  [InspectionReport.Validate] accepts a report exactly when the
    overall condition is one of excellent, good, fair and poor, the three
    scores lie between 0 and 100, the estimated repairs are not below zero,
    and every issue has a category, a severity among critical, major and
    minor, and a description.  Recommendations and the location of an issue
    are not looked at. *)
Theorem InspectionReport_Validate_accepts_iff (r : InspectionReport.t) :
  InspectionReport_Validate r = None
  <-> In (InspectionReport.OverallCondition r) ["excellent"; "good"; "fair"; "poor"]
      /\ 0 <= InspectionReport.MechanicalScore r <= 100
      /\ 0 <= InspectionReport.ExteriorScore r <= 100
      /\ 0 <= InspectionReport.InteriorScore r <= 100
      /\ (InspectionReport.EstimatedRepairs r <? 0)%float = false
      /\ Forall (fun issue =>
                   InspectionIssue.Category issue <> EmptyString
                   /\ In (InspectionIssue.Severity issue) ["critical"; "major"; "minor"]
                   /\ InspectionIssue.Description issue <> EmptyString)
           (InspectionReport.Issues r).
Proof.
  unfold InspectionReport_Validate.
  rewrite <- (validateIssues_accepts_iff 0).
  rewrite <- (member_In (InspectionReport.OverallCondition r)).
  change ["excellent"; "good"; "fair"; "poor"] with validConditions.
  destruct (String.eqb_spec (InspectionReport.OverallCondition r) EmptyString) as [E|_].
  { rewrite E. cbn. split; [discriminate|intros [H _]; discriminate]. }
  destruct (member (InspectionReport.OverallCondition r) validConditions);
    cbn [negb]; [|split; [discriminate|intros [H _]; discriminate]].
  destruct (Z.ltb_spec (InspectionReport.MechanicalScore r) 0);
    [split; [discriminate|lia]|].
  destruct (Z.ltb_spec 100 (InspectionReport.MechanicalScore r));
    [split; [discriminate|lia]|].
  destruct (Z.ltb_spec (InspectionReport.ExteriorScore r) 0);
    [split; [discriminate|lia]|].
  destruct (Z.ltb_spec 100 (InspectionReport.ExteriorScore r));
    [split; [discriminate|lia]|].
  destruct (Z.ltb_spec (InspectionReport.InteriorScore r) 0);
    [split; [discriminate|lia]|].
  destruct (Z.ltb_spec 100 (InspectionReport.InteriorScore r));
    [split; [discriminate|lia]|].
  cbn [orb].
  destruct (InspectionReport.EstimatedRepairs r <? 0)%float.
  - split; [discriminate|]. intros (_ & _ & _ & _ & Hr & _). discriminate.
  - split; [intros Hi; repeat split; try lia; exact Hi|].
    intros (_ & _ & _ & _ & _ & Hi). exact Hi.
Qed.

Lemma encode_small (n : nat) :
  (n < 128)%nat ->
  utf8.encode (utf8.rune (Z.of_nat n)) = String (ascii_of_nat n) EmptyString.
Proof.
  intros Hn. unfold utf8.rune.
  replace ((Z.of_nat n + 2 ^ 31) mod 2 ^ 32 - 2 ^ 31) with (Z.of_nat n)
    by (rewrite Z.mod_small; lia).
  unfold utf8.encode, utf8.byte.
  destruct (Z.ltb_spec (Z.of_nat n) 0); [lia|].
  destruct (Z.ltb_spec (Z.of_nat n) 128); [|lia].
  rewrite <- nat_N_Z, N2Z.id. unfold ascii_of_nat. reflexivity.
Qed.

Lemma validateIssues_skips i good rest :
  Forall (fun issue =>
            InspectionIssue.Category issue <> EmptyString
            /\ In (InspectionIssue.Severity issue) validSeverities
            /\ InspectionIssue.Description issue <> EmptyString) good ->
  validateIssues i (good ++ rest) = validateIssues (i + Z.of_nat (length good)) rest.
Proof.
  revert i. induction good as [|issue good IH]; intros i H.
  - cbn. f_equal. lia.
  - apply Forall_cons in H. destruct H as [(Hc & Hs & Hd) Hrest].
    cbn [app length]. rewrite (validateIssues_cons i issue _ Hc Hs Hd), IH by exact Hrest.
    f_equal. lia.
Qed.

(** X24.  The index in the message for a bad issue is not printed as a
    number.  In a report that is valid up to its issues, when the first
    issue that fails is the one at index i, the
    message ends with the character whose code is i (for i below 128 a
    single byte: the NUL character for the first issue, a control character
    for the next ones), because the index goes through [string(rune(i))]. *)
Theorem issue_index_is_printed_as_a_character
    (r : InspectionReport.t) good bad rest :
  InspectionReport_Validate
    (InspectionReport.mk (InspectionReport.OverallCondition r)
       (InspectionReport.MechanicalScore r) (InspectionReport.ExteriorScore r)
       (InspectionReport.InteriorScore r) nil
       (InspectionReport.Recommendations r) (InspectionReport.EstimatedRepairs r))
  = None ->
  InspectionReport.Issues r = (good ++ bad :: rest)%list ->
  Forall (fun issue =>
            InspectionIssue.Category issue <> EmptyString
            /\ In (InspectionIssue.Severity issue) ["critical"; "major"; "minor"]
            /\ InspectionIssue.Description issue <> EmptyString) good ->
  ~ (InspectionIssue.Category bad <> EmptyString
     /\ In (InspectionIssue.Severity bad) ["critical"; "major"; "minor"]
     /\ InspectionIssue.Description bad <> EmptyString) ->
  (length good < 128)%nat ->
  exists text,
    In text ["issue category is required at index ";
             "issue severity is required at index ";
             "issue severity must be one of: critical, major, minor at index ";
             "issue description is required at index "]
    /\ InspectionReport_Validate r
       = Some (New (text ++ String (ascii_of_nat (length good)) EmptyString)).
Proof.
  intros Hhead Hissues Hgood Hbad Hlen.
  assert (Hv : InspectionReport_Validate r
               = validateIssues 0 (InspectionReport.Issues r)).
  { revert Hhead. unfold InspectionReport_Validate.
    cbn [InspectionReport.OverallCondition InspectionReport.MechanicalScore
           InspectionReport.ExteriorScore InspectionReport.InteriorScore
           InspectionReport.EstimatedRepairs InspectionReport.Issues].
    repeat match goal with
           | |- context [if ?b then Some _ else _] =>
               destruct b; [discriminate|]
           end.
    reflexivity. }
  rewrite Hv, Hissues, (validateIssues_skips 0 good _ Hgood).
  rewrite Z.add_0_l. cbn [validateIssues]. rewrite (encode_small _ Hlen).
  destruct (String.eqb_spec (InspectionIssue.Category bad) EmptyString) as [|Hc];
    [eexists; split; [|reflexivity]; cbn; tauto|].
  destruct (String.eqb_spec (InspectionIssue.Severity bad) EmptyString) as [|_];
    [eexists; split; [|reflexivity]; cbn; tauto|].
  destruct (member (InspectionIssue.Severity bad) validSeverities) eqn:Hm; cbn [negb];
    [|eexists; split; [|reflexivity]; cbn; tauto].
  destruct (String.eqb_spec (InspectionIssue.Description bad) EmptyString) as [|Hd];
    [eexists; split; [|reflexivity]; cbn; tauto|].
  destruct Hbad. split; [exact Hc|]. split; [apply member_In, Hm|exact Hd].
Qed.

Lemma issue_index_is_printed_as_a_character_witness :
  exists text,
    In text ["issue category is required at index ";
             "issue severity is required at index ";
             "issue severity must be one of: critical, major, minor at index ";
             "issue description is required at index "]
    /\ InspectionReport_Validate cases.careless_report
       = Some (New (text ++ String (ascii_of_nat 1) EmptyString)).
Proof.
  apply (issue_index_is_printed_as_a_character cases.careless_report
           [InspectionIssue.mk "body" "minor" "scratch" "door"]
           (InspectionIssue.mk EmptyString "minor" "noise" EmptyString) nil).
  - reflexivity.
  - reflexivity.
  - repeat constructor; cbn; try discriminate; tauto.
  - intros [H _]. apply H. reflexivity.
  - cbn. lia.
Defined.

(** ** The two services together *)

(** A Create that passes every check, on a healthy store. *)
Lemma CreateTransaction_succeeds
    now newID req sellerID vehicleID buyerID fl db vehicle :
  primitive.ObjectIDFromHex (CreateTransactionRequest.VehicleID req) = Some vehicleID ->
  primitive.ObjectIDFromHex (CreateTransactionRequest.BuyerID req) = Some buyerID ->
  CreateTransactionRequest.InspectionID req = EmptyString ->
  vehicles db !! vehicleID = Some vehicle ->
  Vehicle.OwnerID vehicle = sellerID ->
  Vehicle.Status vehicle = VehicleStatusActive ->
  buyerID <> sellerID ->
  transactions db !! newID = None ->
  quiet 2 fl = true ->
  exists t, fst (fst (service.CreateTransaction now newID req sellerID fl db)) = Ok t.
Proof.
  intros Hv Hb Hi Hveh Ho Hs Hne Hn Hq. unfold service.CreateTransaction.
  rewrite Hv, Hb.
  assert (Hf : notFoundAs "vehicle not found" (FindOneVehicle vehicleID) fl db
               = (Ok vehicle, db, tl fl)).
  { apply notFoundAs_ok. rewrite (FindOneVehicle_quiet _ _ _ (quiet_one _ _ Hq)), Hveh.
    reflexivity. }
  rewrite (bind_ok _ _ _ _ _ _ _ Hf), Ho, N.eqb_refl, Hs, Hi.
  change (String.eqb VehicleStatusActive VehicleStatusActive) with true.
  change (String.eqb EmptyString EmptyString) with true. cbn [negb].
  destruct (N.eqb_spec buyerID sellerID); [contradiction|].
  rewrite (bind_ok _ _ _ _ _ _ _
             (InsertOne_quiet newID _ (tl fl) db (quiet_tl _ _ Hq) Hn)).
  eexists. reflexivity.
Qed.

(** X25.  The buyer can sell the vehicle on.  After a Complete that
    succeeded on a stored vehicle, the buyer, now its owner, can set the
    status back to active with UpdateVehicle, and a Create by the buyer for
    that vehicle and a third person then succeeds with a pending
    transaction in which the former buyer is the seller. *)
Theorem buyer_can_relist_and_resell
    now now' now'' id creq sellerID vehicleHex buyerHex ureq newID req thirdID
    (fl fl' fl'' : Faults) db t' v :
  fst (run (service.CompleteTransaction now id creq sellerID) fl db) = Ok t' ->
  vehicles db !! Transaction.VehicleID t' = Some v ->
  primitive.ObjectIDFromHex vehicleHex = Some (Transaction.VehicleID t') ->
  primitive.ObjectIDFromHex buyerHex = Some (Transaction.BuyerID t') ->
  UpdateVehicleRequest_Validate ureq = None ->
  UpdateVehicleRequest.Status ureq = VehicleStatusActive ->
  CreateTransactionRequest.VehicleID req = vehicleHex ->
  primitive.ObjectIDFromHex (CreateTransactionRequest.BuyerID req) = Some thirdID ->
  CreateTransactionRequest.InspectionID req = EmptyString ->
  thirdID <> Transaction.BuyerID t' ->
  transactions db !! newID = None ->
  quiet 3 fl' = true ->
  quiet 2 fl'' = true ->
  let sold := snd (run (service.CompleteTransaction now id creq sellerID) fl db) in
  let relisted :=
    run (vehicle_service.UpdateVehicle now' vehicleHex buyerHex ureq) fl' sold in
  let resale :=
    run (service.CreateTransaction now'' newID req (Transaction.BuyerID t')) fl''
      (snd relisted) in
  exists v' t2,
    fst relisted = Ok v'
    /\ Vehicle.OwnerID v' = Transaction.BuyerID t'
    /\ Vehicle.Status v' = VehicleStatusActive
    /\ fst resale = Ok t2
    /\ Transaction.Status t2 = TransactionStatusPending
    /\ Transaction.VehicleID t2 = Transaction.VehicleID t'
    /\ Transaction.SellerID t2 = Transaction.BuyerID t'
    /\ Transaction.BuyerID t2 = thirdID
    /\ transactions (snd resale) !! newID = Some t2.
Proof.
  intros Hok Hv Hvid Hbid Hval Hst Hreq Hthird Hins Hne Hfresh Hq' Hq''
    sold relisted resale.
  rewrite run_fst in Hok.
  destruct (CompleteTransaction_ok _ _ _ _ _ _ _ Hok)
    as (objectID & t & Hid & Ht & Hs & Hp & Ht' & Hdb).
  assert (Hveh : Transaction.VehicleID t = Transaction.VehicleID t')
    by (rewrite Ht'; reflexivity).
  assert (Hbuy : Transaction.BuyerID t = Transaction.BuyerID t')
    by (rewrite Ht'; reflexivity).
  assert (Hsold : sold
                  = mkDB (<[objectID := t']> (transactions db))
                      (<[Transaction.VehicleID t' :=
                           service.vehicleSet now (Transaction.BuyerID t') v]>
                         (vehicles db))).
  { unfold sold. rewrite run_snd, Hdb, Hveh, Hv, Hbuy. reflexivity. }
  assert (Hlook : vehicles sold !! Transaction.VehicleID t'
                  = Some (service.vehicleSet now (Transaction.BuyerID t') v))
    by (rewrite Hsold; apply lookup_insert_eq).
  pose proof (run_eq _ _ _ _ _ _
                (UpdateVehicle_done vehicleHex buyerHex _ _ fl' sold _
                   Hvid Hbid Hlook now' ureq Hval Hq' eq_refl)) as Hrel.
  fold relisted in Hrel.
  set (v' := vehicle_service.updateSet now' ureq
               (service.vehicleSet now (Transaction.BuyerID t') v)) in *.
  assert (Hactive : Vehicle.Status v' = VehicleStatusActive)
    by (unfold v'; cbn; rewrite Hst; reflexivity).
  assert (Howner : Vehicle.OwnerID v' = Transaction.BuyerID t') by reflexivity.
  assert (Hdb' : snd relisted
                 = mkDB (transactions sold)
                     (<[Transaction.VehicleID t' := v']> (vehicles sold)))
    by (rewrite Hrel; reflexivity).
  assert (Hfresh' : transactions (snd relisted) !! newID = None).
  { rewrite Hdb', Hsold. cbn [transactions].
    rewrite lookup_insert_ne by congruence. exact Hfresh. }
  assert (Hlook' : vehicles (snd relisted) !! Transaction.VehicleID t' = Some v')
    by (rewrite Hdb'; apply lookup_insert_eq).
  assert (Hparse : primitive.ObjectIDFromHex (CreateTransactionRequest.VehicleID req)
                   = Some (Transaction.VehicleID t'))
    by (rewrite Hreq; exact Hvid).
  destruct (CreateTransaction_succeeds now'' newID req (Transaction.BuyerID t')
              _ _ fl'' (snd relisted) v'
              Hparse Hthird Hins Hlook' Howner Hactive Hne Hfresh' Hq'')
    as [t2 Hcreate].
  destruct (CreateTransaction_ok _ _ _ _ _ _ _ Hcreate)
    as (vehicleID & buyerID & vehicle & Hv2 & Hb2 & _ & _ & _ & _ & _
        & Hdb2 & _ & Hst2 & Hvid2 & Hsid2 & Hbid2 & _).
  exists v', t2.
  split; [rewrite Hrel; reflexivity|].
  split; [exact Howner|]. split; [exact Hactive|].
  split; [unfold resale; rewrite run_fst; exact Hcreate|].
  split; [exact Hst2|].
  split; [rewrite Hvid2; congruence|].
  split; [exact Hsid2|].
  split; [rewrite Hbid2; congruence|].
  unfold resale. rewrite run_snd, Hdb2. apply lookup_insert_eq.
Qed.

Lemma buyer_can_relist_and_resell_witness :
  exists v' t2,
    fst (run (vehicle_service.UpdateVehicle 300 sample.vehicleHex sample.buyerHex
                cases.relist) nil
           (snd (run (service.CompleteTransaction 200 sample.txnHex
                        sample.proof_of_payment sample.seller) nil
                   (sample.store TransactionStatusPending)))) = Ok v'
    /\ Vehicle.OwnerID v' = sample.buyer
    /\ Vehicle.Status v' = VehicleStatusActive
    /\ fst (run (service.CreateTransaction 400 cases.secondTxnID cases.resale_request
                   sample.buyer) nil
              (snd (run (vehicle_service.UpdateVehicle 300 sample.vehicleHex
                           sample.buyerHex cases.relist) nil
                      (snd (run (service.CompleteTransaction 200 sample.txnHex
                                   sample.proof_of_payment sample.seller) nil
                              (sample.store TransactionStatusPending)))))) = Ok t2
    /\ Transaction.Status t2 = TransactionStatusPending.
Proof.
  destruct (buyer_can_relist_and_resell 200 300 400 sample.txnHex
              sample.proof_of_payment sample.seller sample.vehicleHex
              sample.buyerHex cases.relist cases.secondTxnID cases.resale_request
              sample.stranger nil nil nil (sample.store TransactionStatusPending)
              (service.completeSet 200 sample.proof_of_payment
                 (sample.sale TransactionStatusPending))
              sample.corolla
              eq_refl eq_refl eq_refl eq_refl eq_refl eq_refl eq_refl eq_refl
              eq_refl ltac:(discriminate) eq_refl eq_refl eq_refl)
    as (v' & t2 & H1 & H2 & H3 & H4 & H5 & _).
  exists v', t2. repeat split; assumption.
Defined.

(** ** Creating a vehicle, and the vehicle handlers *)

(** X26.  A vehicle that has just been created can be offered at once.  On
    a healthy store CreateVehicle with a valid request stores the vehicle
    under the new id with the status active, the caller as owner and the
    request's make, model, year, price and mileage; a CreateTransaction by
    that owner for the new vehicle and another user then succeeds with a
    pending transaction. *)
Theorem created_vehicle_can_be_offered
    now now' newVehicleID newID ownerHex ownerID vreq treq buyerID
    (fl fl' : Faults) db :
  vehicle_create.CreateVehicleRequest_Validate vreq = None ->
  primitive.ObjectIDFromHex ownerHex = Some ownerID ->
  vehicles db !! newVehicleID = None ->
  quiet 1 fl = true ->
  primitive.ObjectIDFromHex (CreateTransactionRequest.VehicleID treq)
  = Some newVehicleID ->
  primitive.ObjectIDFromHex (CreateTransactionRequest.BuyerID treq) = Some buyerID ->
  CreateTransactionRequest.InspectionID treq = EmptyString ->
  buyerID <> ownerID ->
  transactions db !! newID = None ->
  quiet 2 fl' = true ->
  let created :=
    run (vehicle_create.CreateVehicle now newVehicleID ownerHex vreq) fl db in
  exists v t,
    created = (Ok v, mkDB (transactions db) (<[newVehicleID := v]> (vehicles db)))
    /\ Vehicle.ID v = newVehicleID
    /\ Vehicle.OwnerID v = ownerID
    /\ Vehicle.Status v = VehicleStatusActive
    /\ Vehicle.Make v = vehicle_create.CreateVehicleRequest.Make vreq
    /\ Vehicle.Model v = vehicle_create.CreateVehicleRequest.Model vreq
    /\ Vehicle.Year v = vehicle_create.CreateVehicleRequest.Year vreq
    /\ Vehicle.Price v = vehicle_create.CreateVehicleRequest.Price vreq
    /\ Vehicle.Mileage v = vehicle_create.CreateVehicleRequest.Mileage vreq
    /\ fst (run (service.CreateTransaction now' newID treq ownerID) fl' (snd created))
       = Ok t
    /\ Transaction.Status t = TransactionStatusPending
    /\ Transaction.VehicleID t = newVehicleID
    /\ Transaction.SellerID t = ownerID
    /\ Transaction.BuyerID t = buyerID.
Proof.
  intros Hval Hown Hfree Hq Hv Hb Hins Hne Hnew Hq' created.
  set (v := Vehicle.mk newVehicleID ownerID
              (vehicle_create.CreateVehicleRequest.Make vreq)
              (vehicle_create.CreateVehicleRequest.Model vreq)
              (vehicle_create.CreateVehicleRequest.Year vreq)
              (vehicle_create.CreateVehicleRequest.Price vreq)
              (vehicle_create.CreateVehicleRequest.Mileage vreq)
              VehicleStatusActive
              (vehicle_create.CreateVehicleRequest.Location vreq)
              (match vehicle_create.CreateVehicleRequest.Images vreq with
               | Some images => images
               | None => nil
               end)
              (vehicle_create.CreateVehicleRequest.Meta vreq) now now).
  assert (Hrun : created
                 = (Ok v, mkDB (transactions db) (<[newVehicleID := v]> (vehicles db)))).
  { unfold created. apply run_eq with (fl' := tl fl).
    unfold vehicle_create.CreateVehicle. rewrite Hval, Hown. fold v.
    assert (Hi : vehicle_service.errorAs "failed to create vehicle"
                   (vehicle_create.InsertOne v) fl db
                 = (Ok tt, mkDB (transactions db) (<[newVehicleID := v]> (vehicles db)),
                    tl fl)).
    { unfold vehicle_service.errorAs, vehicle_create.InsertOne.
      rewrite (bind_ok _ _ _ _ _ _ _ (call_quiet fl db Hq)).
      cbn [Vehicle.ID v]. rewrite Hfree. reflexivity. }
    rewrite (bind_ok _ _ _ _ _ _ _ Hi). reflexivity. }
  assert (Hlook : vehicles (snd created) !! newVehicleID = Some v)
    by (rewrite Hrun; apply lookup_insert_eq).
  assert (Hnew' : transactions (snd created) !! newID = None)
    by (rewrite Hrun; exact Hnew).
  destruct (CreateTransaction_succeeds now' newID treq ownerID newVehicleID buyerID
              fl' (snd created) v Hv Hb Hins Hlook eq_refl eq_refl Hne Hnew' Hq')
    as [t Ht].
  destruct (CreateTransaction_ok _ _ _ _ _ _ _ Ht)
    as (vehicleID & buyerID' & vehicle & Hv2 & Hb2 & _ & _ & _ & _ & _
        & _ & _ & Hst & Hvid & Hsid & Hbid & _).
  exists v, t. split; [exact Hrun|].
  do 8 (split; [reflexivity|]).
  split; [rewrite run_fst; exact Ht|].
  split; [exact Hst|]. split; [congruence|]. split; [exact Hsid|]. congruence.
Qed.

Lemma created_vehicle_can_be_offered_witness :
  exists v t,
    run (vehicle_create.CreateVehicle 10 sample.vehicleID sample.sellerHex
           cases.new_corolla) nil (mkDB ∅ ∅)
    = (Ok v, mkDB ∅ (<[sample.vehicleID := v]> ∅))
    /\ Vehicle.Status v = VehicleStatusActive
    /\ fst (run (service.CreateTransaction 100 sample.txnID sample.cash_request
                   sample.seller) nil
              (snd (run (vehicle_create.CreateVehicle 10 sample.vehicleID
                           sample.sellerHex cases.new_corolla) nil (mkDB ∅ ∅))))
       = Ok t
    /\ Transaction.Status t = TransactionStatusPending.
Proof.
  destruct (created_vehicle_can_be_offered 10 100 sample.vehicleID sample.txnID
              sample.sellerHex sample.seller cases.new_corolla sample.cash_request
              sample.buyer nil nil (mkDB ∅ ∅)
              eq_refl eq_refl (lookup_empty _) eq_refl eq_refl eq_refl eq_refl
              ltac:(discriminate) (lookup_empty _) eq_refl)
    as (v & t & H1 & _ & _ & H2 & _ & _ & _ & _ & _ & H3 & H4 & _).
  exists v, t. repeat split; assumption.
Defined.

(** X27.  The vehicle handlers disagree on an id that is not 24 hexadecimal
    digits: the handler of GET /vehicles/:id answers 404 "Vehicle not
    found", while the handler of PUT /vehicles/:id, for an authenticated
    caller and a valid body, answers 500 "Failed to update vehicle".  A
    caller id that is no such id gives the same 500 from the PUT handler.
    Nothing is written. *)
Theorem malformed_vehicle_id_answers
    now userID vehicleID req (fl : Faults) db :
  vehicleID <> EmptyString ->
  userID <> EmptyString ->
  primitive.ObjectIDFromHex vehicleID = None
  \/ primitive.ObjectIDFromHex userID = None ->
  UpdateVehicleRequest_Validate req = None ->
  (primitive.ObjectIDFromHex vehicleID = None ->
   vehicle_handlers.GetVehicle vehicleID fl db
   = (vehicle_handlers.mkResponse http.StatusNotFound
        (vehicle_handlers.JSONError "Vehicle not found"), db))
  /\ vehicle_handlers.UpdateVehicle now userID vehicleID req fl db
     = (vehicle_handlers.mkResponse http.StatusInternalServerError
          (vehicle_handlers.JSONError "Failed to update vehicle"), db).
Proof.
  intros Hv Hu Hbad Hval.
  apply String.eqb_neq in Hv. apply String.eqb_neq in Hu.
  split.
  - intros Hid. unfold vehicle_handlers.GetVehicle, vehicle_service.GetVehicleByID.
    rewrite Hv, Hid. reflexivity.
  - unfold vehicle_handlers.UpdateVehicle, vehicle_service.UpdateVehicle.
    rewrite Hu, Hv, Hval.
    destruct (primitive.ObjectIDFromHex vehicleID) as [vid|]; [|reflexivity].
    destruct Hbad as [Hbad|Hbad]; [discriminate|]. rewrite Hbad. reflexivity.
Qed.

Lemma malformed_vehicle_id_answers_witness :
  vehicle_handlers.UpdateVehicle 300 sample.sellerHex "not-an-id" cases.relist nil
    sample.showroom
  = (vehicle_handlers.mkResponse http.StatusInternalServerError
       (vehicle_handlers.JSONError "Failed to update vehicle"), sample.showroom).
Proof.
  refine (proj2 (malformed_vehicle_id_answers 300 sample.sellerHex
                   "not-an-id" cases.relist nil sample.showroom
                   _ _ _ eq_refl)).
  - discriminate.
  - discriminate.
  - left. reflexivity.
Defined.
